(** * Feedback analysis agent: a shallow embedding of [analyzer/analysis_agent.py]
      and [utils/ooda.py], with the properties of its classification,
      keyword, trend and anomaly steps.

    The development also covers the callers and consumers of the analysis:
    the generic loop of [utils/ooda.py] with the alert and report agents,
    [analyze_data] of [main.py], the observe, bucket and alert steps of
    [dashboard/dashboard_agent.py], and the cleaning done by the social
    media and review collectors.

    What is modelled, and how:
    - strings are ASCII strings, [lower] and the word characters are those
      of ASCII;
    - Python values are a JSON-like tree extended with timestamps and the
      missing-value marker of pandas; floating-point values are left out;
    - exceptions are the [Raise] results of [res]; [try]/[except Exception]
      is [try_except] (or a [match] on the result), so that an exception
      that escapes shows as a [Raise];
    - a DataFrame is a list of column labels with a list of records; the
      methods of the agent that assign columns of the frame they are given
      are computations [M] on that one frame;
    - means and standard deviations are exact rationals (the standard
      deviation through its square) where pandas rounds to floating point;
    - what pandas, scikit-learn and TextBlob compute beyond this is taken
      through the interface [Externals], the clock through the parameter
      [now] (one reading for a run). *)

From Stdlib Require Import ZArith List String Ascii Bool Lia Arith QArith.
From Stdlib Require Import Permutation Sorted.
From Stdlib Require Import Reals Qreals Lra.
From Stdlib Require Import DecimalString.
Import ListNotations.
Local Open Scope Z_scope.
Local Open Scope string_scope.
Local Open Scope list_scope.

(* ===================================================================== *)
(** ** Python strings *)
(* ===================================================================== *)

Module Text.

(** [str.lower()] on ASCII text. *)
Definition lower_char (c : ascii) : ascii :=
  let n := nat_of_ascii c in
  if ((65 <=? n) && (n <=? 90))%nat then ascii_of_nat (n + 32) else c.

Fixpoint lower (s : string) : string :=
  match s with
  | EmptyString => EmptyString
  | String c r => String (lower_char c) (lower r)
  end.

(** [s.startswith(p)]. *)
Fixpoint starts_with (p s : string) : bool :=
  match p, s with
  | EmptyString, _ => true
  | String a p', String b s' => Ascii.eqb a b && starts_with p' s'
  | String _ _, EmptyString => false
  end.

(** [p in s] for two strings: [p] occurs somewhere in [s]. *)
Fixpoint contains (p s : string) : bool :=
  starts_with p s ||
  match s with
  | EmptyString => false
  | String _ s' => contains p s'
  end.

(** [re.search(r"(a|b|...)", text)] for a pattern that is an alternation of
    literals (letters and spaces only, as every pattern of the agent is):
    it succeeds exactly when one of the literals occurs in the text. *)
Definition re_search (alternatives : list string) (text : string) : bool :=
  existsb (fun lit => contains lit text) alternatives.

(** [x in xs] for a list of strings. *)
Definition mem (x : string) (xs : list string) : bool :=
  existsb (String.eqb x) xs.

End Text.

(* ===================================================================== *)
(** ** Python values, exceptions *)
(* ===================================================================== *)

(** A naive timestamp at microsecond resolution. *)
Record Timestamp := mkTimestamp {
  ts_year : Z; ts_month : Z; ts_day : Z;
  ts_hour : Z; ts_minute : Z; ts_second : Z; ts_micro : Z
}.

(** JSON-like values; [VNaN] is the missing cell of pandas (NaN, NaT),
    [VTime] a [pd.Timestamp]. Dictionaries keep insertion order. *)
#[warnings="-register-all"]
Inductive Value :=
| VNone
| VNaN
| VBool (b : bool)
| VInt (z : Z)
| VStr (s : string)
| VTime (t : Timestamp)
| VList (l : list Value)
| VDict (d : list (string * Value)).

Inductive exn := AttributeError | TypeError | KeyError | ValueError | LibraryError.

Inductive res (A : Type) :=
| Ok (a : A)
| Raise (e : exn).
Arguments Ok {A} a.
Arguments Raise {A} e.

Definition rbind {A B : Type} (r : res A) (k : A -> res B) : res B :=
  match r with
  | Ok a => k a
  | Raise e => Raise e
  end.

Declare Scope frame_scope.
Delimit Scope frame_scope with frame.
Notation "x <~ r ;; k" := (rbind r (fun x => k))
  (at level 61, r at next level, right associativity) : frame_scope.

(** A record of a DataFrame (one row), also the [row] handed to
    [df.apply(f, axis=1)]. *)
Definition Row := list (string * Value).

Fixpoint assoc {A : Type} (k : string) (d : list (string * A)) : option A :=
  match d with
  | [] => None
  | (k', v) :: r => if String.eqb k k' then Some v else assoc k r
  end.

(** [row[k]]: raises [KeyError] when the label is absent. *)
Definition row_item (row : Row) (k : string) : res Value :=
  match assoc k row with
  | Some v => Ok v
  | None => Raise KeyError
  end.

(** [v == s] for a string literal [s]. *)
Definition eq_str (v : Value) (s : string) : bool :=
  match v with
  | VStr x => String.eqb x s
  | _ => false
  end.

(** A DataFrame: its column labels and its records. A record need not hold
    every column: the cell of an absent label is the missing value. *)
Record DataFrame := mkDataFrame {
  columns : list string;
  records : list Row
}.

(** What the agent takes from its libraries.
    - [nlp_available]: whether [nltk] and [textblob] could be imported when
      the agent was constructed;
    - [polarity]: [TextBlob(text).sentiment.polarity], which may raise;
    - [str_other]: [str(v)] for a value that is not a string;
    - [tfidf_features texts n]: the vocabulary selected by
      [TfidfVectorizer(stop_words='english', max_features=n)] fitted on
      [texts], which may raise;
    - [pd_DataFrame_other]: [pd.DataFrame(data)] when [data] is not a list of
      dictionaries;
    - [to_datetime]: [pd.to_datetime(_, errors='coerce')] on one cell, [None]
      for NaT; [to_datetime_raises col] tells when the call on the whole
      column raises all the same;
    - [exn_message]: [str(e)]. *)
Class Externals := {
  nlp_available : bool;
  polarity : string -> res Q;
  str_other : Value -> string;
  tfidf_features : list Value -> nat -> res (list string);
  pd_DataFrame_other : Value -> res DataFrame;
  to_datetime : Value -> option Timestamp;
  to_datetime_raises : list Value -> bool;
  exn_message : exn -> string
}.

(* ===================================================================== *)
(** ** Text classifier *)
(* ===================================================================== *)

Section Classifier.
Context {E : Externals}.

(** [str(v)]. *)
Definition py_str (v : Value) : string :=
  match v with
  | VStr s => s
  | _ => str_other v
  end.

Definition positive_words : list string :=
  ["good"; "great"; "excellent"; "amazing"; "love"; "like"].
Definition negative_words : list string :=
  ["bad"; "poor"; "terrible"; "awful"; "hate"; "dislike"].

(** [sum(1 for word in words if word in text)]. *)
Definition count_present (words : list string) (text : string) : nat :=
  List.length (filter (fun w => Text.contains w text) words).

Definition Qlt_bool (a b : Q) : bool := negb (Qle_bool b a).

(** [AnalysisAgent.analyze_sentiment]. *)
Definition analyze_sentiment (text : Value) : string :=
  if negb nlp_available then
    let text := Text.lower (py_str text) in
    let pos_count := count_present positive_words text in
    let neg_count := count_present negative_words text in
    if (neg_count <? pos_count)%nat then "positive"
    else if (pos_count <? neg_count)%nat then "negative"
    else "neutral"
  else
    match polarity (py_str text) with
    | Ok p =>
        if Qlt_bool (1 # 10) p then "positive"
        else if Qlt_bool p (- (1 # 10)) then "negative"
        else "neutral"
    | Raise _ => "neutral"
    end.

Definition bug_terms : list string :=
  ["bug"; "error"; "crash"; "issue"; "not working"; "broken"; "fails"; "failure"].
Definition feature_terms : list string :=
  ["feature"; "add"; "can you make"; "wishlist"; "would be nice"; "please include"].
Definition ux_terms : list string :=
  ["slow"; "bad ux"; "confusing"; "difficult"; "hard to use"; "complicated"].
Definition praise_terms : list string :=
  ["great"; "love"; "awesome"; "happy"; "excellent"; "amazing"; "good"].

(** [AnalysisAgent.categorize_feedback]. *)
Definition categorize_feedback (text : Value) : string :=
  let text := Text.lower (py_str text) in
  if Text.re_search bug_terms text then "bug"
  else if Text.re_search feature_terms text then "feature_request"
  else if Text.re_search ux_terms text then "ux_issue"
  else if Text.re_search praise_terms text then "positive_feedback"
  else "other".

Definition urgent_terms : list string :=
  ["crash"; "urgent"; "critical"; "emergency"; "severe"; "blocked"].

(** The two tests of [determine_urgency], on the lowered text. *)
Definition urgency_rule (text : string) (sentiment category : Value) : string :=
  if eq_str category "bug" &&
     (Text.re_search urgent_terms text || eq_str sentiment "negative")
  then "high"
  else if (eq_str category "bug" || eq_str category "ux_issue") &&
          eq_str sentiment "negative"
  then "medium"
  else "low".

(** [AnalysisAgent.determine_urgency]: the three look-ups in the row, then
    the two tests. *)
Definition determine_urgency (row : Row) : res string :=
  (t <~ row_item row "text" ;;
   sentiment <~ row_item row "sentiment" ;;
   category <~ row_item row "category" ;;
   Ok (urgency_rule (Text.lower (py_str t)) sentiment category))%frame.

End Classifier.

(* ===================================================================== *)
(** ** DataFrame operations *)
(* ===================================================================== *)

(** The cell of a record under a column label. *)
Definition cell (c : string) (r : Row) : Value :=
  match assoc c r with
  | Some v => v
  | None => VNaN
  end.

Fixpoint set_field (c : string) (v : Value) (r : Row) : Row :=
  match r with
  | [] => [(c, v)]
  | (k, w) :: r' =>
      if String.eqb c k then (k, v) :: r' else (k, w) :: set_field c v r'
  end.

(** [df.empty]: one of the two axes has length 0. *)
Definition df_empty (df : DataFrame) : bool :=
  match columns df, records df with
  | [], _ => true
  | _, [] => true
  | _, _ => false
  end.

(** [pd.DataFrame()]. *)
Definition empty_frame : DataFrame := mkDataFrame [] [].

Definition add_label (c : string) (cols : list string) : list string :=
  if Text.mem c cols then cols else cols ++ [c].

(** First occurrences, in order. *)
Fixpoint distinct (l : list string) : list string :=
  match l with
  | [] => []
  | x :: r => x :: filter (fun y => negb (String.eqb x y)) (distinct r)
  end.

(** [pd.DataFrame(data)] for a list of dictionaries: one record per
    dictionary, the columns are the keys in the order they first appear. *)
Definition from_records (rows : list Row) : DataFrame :=
  mkDataFrame (distinct (flat_map (map fst) rows)) rows.

Fixpoint as_records (l : list Value) : option (list Row) :=
  match l with
  | [] => Some []
  | VDict d :: r =>
      match as_records r with
      | Some rows => Some (d :: rows)
      | None => None
      end
  | _ :: _ => None
  end.

(** [df.to_dict(orient='records')]. *)
Definition to_dict_records (df : DataFrame) : list Value :=
  map (fun r => VDict (map (fun c => (c, cell c r)) (columns df))) (records df).

(** Computations on the DataFrame the agent holds: they read and assign
    columns of the one shared frame and may raise; an assignment made before
    an exception stays made. *)
Definition M (A : Type) : Type := DataFrame -> res A * DataFrame.

Definition ret {A : Type} (a : A) : M A := fun df => (Ok a, df).

Definition bind {A B : Type} (m : M A) (k : A -> M B) : M B :=
  fun df =>
    match m df with
    | (Ok a, df') => k a df'
    | (Raise e, df') => (Raise e, df')
    end.

Definition raise {A : Type} (e : exn) : M A := fun df => (Raise e, df).

(** [try: body except Exception as e: handler]. *)
Definition try_except {A : Type} (body : M A) (handler : exn -> M A) : M A :=
  fun df =>
    match body df with
    | (Ok a, df') => (Ok a, df')
    | (Raise e, df') => handler e df'
    end.

Definition lift {A : Type} (r : res A) : M A := fun df => (r, df).

Notation "x <- m ;; k" := (bind m (fun x => k))
  (at level 61, m at next level, right associativity) : frame_scope.
Notation "m ;;; k" := (bind m (fun _ => k))
  (at level 61, right associativity) : frame_scope.

(** The cells of column [c], row by row. *)
Definition column (c : string) (df : DataFrame) : list Value :=
  map (cell c) (records df).

(** [df[c]] read: the column as a list, [KeyError] for an unknown label. *)
Definition get_col (c : string) : M (list Value) :=
  fun df =>
    if Text.mem c (columns df) then (Ok (column c df), df)
    else (Raise KeyError, df).

(** The frame once column [c] holds [vals], row by row. *)
Definition assign (c : string) (vals : list Value) (df : DataFrame) : DataFrame :=
  mkDataFrame (add_label c (columns df))
              (map (fun rv => set_field c (snd rv) (fst rv))
                   (combine (records df) vals)).

(** [df[c] = values]: [ValueError] when the lengths differ. *)
Definition set_col (c : string) (vals : list Value) : M unit :=
  fun df =>
    if (List.length vals =? List.length (records df))%nat then
      (Ok tt, assign c vals df)
    else (Raise ValueError, df).

(** The frame once every row holds [v] in column [c]. *)
Definition assign_scalar (c : string) (v : Value) (df : DataFrame) : DataFrame :=
  mkDataFrame (add_label c (columns df)) (map (set_field c v) (records df)).

(** [df[c] = scalar]. *)
Definition set_scalar (c : string) (v : Value) : M unit :=
  fun df => (Ok tt, assign_scalar c v df).

Definition has_column (c : string) : M bool :=
  fun df => (Ok (Text.mem c (columns df)), df).

Definition is_empty : M bool := fun df => (Ok (df_empty df), df).

(** [series.apply(f)], [df.apply(f, axis=1)]: [f] on every item, first to
    last, stopping at the first exception. *)
Fixpoint apply_each {A B : Type} (f : A -> res B) (items : list A) : res (list B) :=
  match items with
  | [] => Ok []
  | x :: rest =>
      match f x with
      | Raise e => Raise e
      | Ok b =>
          match apply_each f rest with
          | Raise e => Raise e
          | Ok l => Ok (b :: l)
          end
      end
  end.

(** The row handed to the function: its index is the columns of the frame. *)
Definition row_view (df : DataFrame) (r : Row) : Row :=
  map (fun c => (c, cell c r)) (columns df).

Definition df_apply {A : Type} (f : Row -> res A) : M (list A) :=
  fun df => (apply_each f (map (row_view df) (records df)), df).

(* ===================================================================== *)
(** ** Timestamps as text *)
(* ===================================================================== *)

Definition digit_char (d : Z) : ascii := ascii_of_nat (48 + Z.to_nat d).

(** The last [width] decimal digits of [n], zero padded. *)
Fixpoint zero_padded (width : nat) (n : Z) : string :=
  match width with
  | O => ""
  | S w => zero_padded w (n / 10) ++ String (digit_char (n mod 10)) ""
  end.

(** [str(t.date())]: [YYYY-MM-DD]. *)
Definition date_str (t : Timestamp) : string :=
  zero_padded 4 (ts_year t) ++ "-" ++ zero_padded 2 (ts_month t) ++ "-" ++
  zero_padded 2 (ts_day t).

Definition clock_str (t : Timestamp) : string :=
  zero_padded 2 (ts_hour t) ++ ":" ++ zero_padded 2 (ts_minute t) ++ ":" ++
  zero_padded 2 (ts_second t).

(** [t.isoformat()]. *)
Definition isoformat (t : Timestamp) : string :=
  date_str t ++ "T" ++ clock_str t ++
  (if Z.eqb (ts_micro t) 0 then "" else "." ++ zero_padded 6 (ts_micro t)).

(** [t.strftime('%Y-%m-%d %H:%M:%S')]. *)
Definition strftime (t : Timestamp) : string :=
  date_str t ++ " " ++ clock_str t.

(** [col.dt.date.astype(str)] on one cell of a datetime column. *)
Definition day_of (v : Value) : string :=
  match v with
  | VTime t => date_str t
  | _ => "NaT"
  end.

(* ===================================================================== *)
(** ** Counting and ordering, as pandas and [collections] do them *)
(* ===================================================================== *)

Definition count_of (k : string) (keys : list string) : Z :=
  Z.of_nat (List.length (filter (String.eqb k) keys)).

Fixpoint insert_sorted (x : string) (l : list string) : list string :=
  match l with
  | [] => [x]
  | y :: r => if String.leb x y then x :: l else y :: insert_sorted x r
  end.

(** The distinct keys in ascending order: the index of a [groupby]. *)
Definition sorted_unique (keys : list string) : list string :=
  fold_right insert_sorted [] (distinct keys).

(** [groupby(keys).size()]: one entry per distinct key, ascending. *)
Definition group_sizes (keys : list string) : list (string * Z) :=
  map (fun k => (k, count_of k keys)) (sorted_unique keys).

Definition count_pair (d l : string) (pairs : list (string * string)) : Z :=
  Z.of_nat (List.length
    (filter (fun p => String.eqb d (fst p) && String.eqb l (snd p)) pairs)).

(** [groupby(['day', col]).size()] pivoted on [col], missing cells filled
    with 0, as records: one per day, ascending, with one entry per label
    of the column, ascending. Counts are kept as integers. *)
Definition pivot_counts (days labels : list string) : list Value :=
  map (fun d =>
         VDict (("day", VStr d) ::
                map (fun l => (l, VInt (count_pair d l (combine days labels))))
                    (sorted_unique labels)))
      (sorted_unique days).

(** Insertion by decreasing count, before the entries of equal count
    (those come later in the original order). *)
Fixpoint insert_desc (x : string * Z) (l : list (string * Z)) : list (string * Z) :=
  match l with
  | [] => [x]
  | y :: r => if Z.leb (snd y) (snd x) then x :: l else y :: insert_desc x r
  end.

Definition sort_desc (l : list (string * Z)) : list (string * Z) :=
  fold_right insert_desc [] l.

(** [Counter(words)]: the counts, in the order the words first occur. *)
Definition Counter (words : list string) : list (string * Z) :=
  map (fun w => (w, count_of w words)) (distinct words).

(** [counter.most_common(n)]. *)
Definition most_common (n : nat) (c : list (string * Z)) : list (string * Z) :=
  firstn n (sort_desc c).

(** [series.value_counts().to_dict()]. *)
Definition value_counts (labels : list string) : Value :=
  VDict (map (fun kc => (fst kc, VInt (snd kc))) (sort_desc (Counter labels))).

(* ===================================================================== *)
(** ** Daily statistics *)
(* ===================================================================== *)

Definition series_sum (l : list Z) : Z := fold_right Z.add 0 l.

Definition Qsum (l : list Q) : Q := fold_right Qplus (0 # 1) l.

Definition series_len (l : list Z) : Q := inject_Z (Z.of_nat (List.length l)).

(** [series.mean()]. *)
Definition series_mean (l : list Z) : Q :=
  (inject_Z (series_sum l) / series_len l)%Q.

(** The square of [series.std()] (sample variance, [ddof=1]). The standard
    deviation itself is irrational in general, so the model keeps its
    square. *)
Definition series_var (l : list Z) : Q :=
  (Qsum (map (fun x => (inject_Z x - series_mean l) * (inject_Z x - series_mean l)) l)
   / (series_len l - 1))%Q.

(** [count > mean + 2 * std], with [std] given by its square [var]: the
    distance to the mean is positive and its square exceeds [4 * var]
    (lemma [above_threshold_real] relates it to the comparison of real
    numbers). *)
Definition above_threshold (count : Z) (mean var : Q) : bool :=
  let d := (inject_Z count - mean)%Q in
  Qlt_bool 0 d && Qlt_bool (4 * var) (d * d).

(** [{str(date): int(count) for date, count in anomalies.items()}]. *)
Definition anomalies_dict (l : list (string * Z)) : Value :=
  VDict (map (fun dc => (fst dc, VInt (snd dc))) l).

(* ===================================================================== *)
(** ** The analysis agent *)
(* ===================================================================== *)

(** [bool(v)]. *)
Definition truthy (v : Value) : bool :=
  match v with
  | VNone => false
  | VNaN => true
  | VBool b => b
  | VInt z => negb (Z.eqb z 0)
  | VStr s => negb (String.eqb s "")
  | VTime _ => true
  | VList l => match l with [] => false | _ => true end
  | VDict d => match d with [] => false | _ => true end
  end.

Section Agent.
Context {E : Externals}.
(** The reading of the clock, [datetime.now()] and [pd.Timestamp.now()]. *)
Variable now : Timestamp.

Local Open Scope frame_scope.

(** *** Keyword extractor *)

Definition is_word_char (c : ascii) : bool :=
  let n := nat_of_ascii c in
  ((48 <=? n) && (n <=? 57) || (65 <=? n) && (n <=? 90) ||
   (97 <=? n) && (n <=? 122) || (n =? 95))%nat.

Definition flush (acc : string) : list string :=
  match acc with
  | EmptyString => []
  | _ => [acc]
  end.

(** [re.findall(r'\b\w+\b', s)]: the maximal runs of word characters. *)
Fixpoint findall_words_from (acc s : string) : list string :=
  match s with
  | EmptyString => flush acc
  | String c r =>
      if is_word_char c then findall_words_from (acc ++ String c "") r
      else flush acc ++ findall_words_from "" r
  end.

Definition findall_words (s : string) : list string := findall_words_from "" s.

(** The items of [' '.join(texts)]: [TypeError] on an item that is not a
    string. *)
Fixpoint str_items (l : list Value) : res (list string) :=
  match l with
  | [] => Ok []
  | VStr s :: r =>
      match str_items r with
      | Ok ss => Ok (s :: ss)
      | Raise e => Raise e
      end
  | _ :: _ => Raise TypeError
  end.

Definition common_words : list string :=
  ["the"; "a"; "an"; "and"; "or"; "but"; "is"; "are"; "was"; "were"].

Definition keep_word (w : string) : bool :=
  negb (Text.mem w common_words) && (2 <? String.length w)%nat.

(** The word-frequency branch of [extract_keywords]. *)
Definition frequency_keywords (texts : list Value) (top_n : nat) : res (list string) :=
  strs <~ str_items texts ;;
  let all_text := String.concat " " strs in
  let words := findall_words (Text.lower all_text) in
  let words := filter keep_word words in
  Ok (map fst (most_common top_n (Counter words))).

(** [AnalysisAgent.extract_keywords]. *)
Definition extract_keywords (texts : list Value) (top_n : nat) : list string :=
  match (if (List.length texts <? 3)%nat then frequency_keywords texts top_n
         else tfidf_features texts top_n)
  with
  | Ok l => l
  | Raise _ => []
  end.

(** *** Trend aggregator *)

Definition is_time (v : Value) : bool :=
  match v with
  | VTime _ => true
  | _ => false
  end.

(** [pd.api.types.is_datetime64_any_dtype(col)]: every cell is a timestamp. *)
Definition is_datetime_col (col : list Value) : bool := forallb is_time col.

Definition coerce_datetime (v : Value) : Value :=
  match to_datetime v with
  | Some t => VTime t
  | None => VNaN
  end.

Definition fillna (fill v : Value) : Value :=
  match v with
  | VNaN => fill
  | _ => v
  end.

(** [df['timestamp'] = pd.to_datetime(df['timestamp'], errors='coerce')]
    then [df['timestamp'] = df['timestamp'].fillna(pd.Timestamp.now())]. *)
Definition convert_timestamps : M unit :=
  col <- get_col "timestamp" ;;
  (if to_datetime_raises col then raise LibraryError
   else set_col "timestamp" (map coerce_datetime col)) ;;;
  col <- get_col "timestamp" ;;
  set_col "timestamp" (map (fillna (VTime now)) col).

Definition ensure_datetime : M unit :=
  col <- get_col "timestamp" ;;
  if is_datetime_col col then ret tt else convert_timestamps.

Definition daily_count (days : list string) : list Value :=
  map (fun dc => VDict [("day", VStr (fst dc)); ("count", VInt (snd dc))])
      (group_sizes days).

(** [AnalysisAgent.detect_trends]. *)
Definition detect_trends : M Value :=
  has_ts <- has_column "timestamp" ;;
  empty <- is_empty ;;
  if negb has_ts || empty then ret (VList [])
  else
    try_except
      (ensure_datetime ;;;
       ts <- get_col "timestamp" ;;
       set_col "day" (map (fun v => VStr (day_of v)) ts) ;;;
       days <- get_col "day" ;;
       let trend := daily_count (map py_str days) in
       sentiments <- get_col "sentiment" ;;
       let sentiment_pivot := pivot_counts (map py_str days) (map py_str sentiments) in
       categories <- get_col "category" ;;
       let category_pivot := pivot_counts (map py_str days) (map py_str categories) in
       ret (VDict [("daily_count", VList trend);
                   ("sentiment_trend", VList sentiment_pivot);
                   ("category_trend", VList category_pivot)]))
      (fun _ => ret (VList [])).

(** *** Anomaly detector *)

Definition series_std_sq (counts : list Z) : Q :=
  if (1 <? List.length counts)%nat then series_var counts else 0%Q.

(** [df[df['sentiment'] == 'negative']]. *)
Definition negative_rows : M (list Row) :=
  fun df =>
    if Text.mem "sentiment" (columns df) then
      (Ok (filter (fun r => eq_str (cell "sentiment" r) "negative") (records df)), df)
    else (Raise KeyError, df).

(** The days whose count is above the mean by more than two standard
    deviations: [day_counts[day_counts > mean + 2 * std]]. *)
Definition volume_spikes (day_counts : list (string * Z)) : list (string * Z) :=
  let mean := series_mean (map snd day_counts) in
  let std_sq := series_std_sq (map snd day_counts) in
  filter (fun dc => above_threshold (snd dc) mean std_sq) day_counts.

(** The same over the per-day counts of the negative rows, with the guards
    the code puts on an empty series. *)
Definition negative_spikes (negative_counts : list (string * Z)) : list (string * Z) :=
  let negative_mean :=
    match negative_counts with
    | [] => 0%Q
    | _ => series_mean (map snd negative_counts)
    end in
  let negative_std_sq := series_std_sq (map snd negative_counts) in
  match negative_counts with
  | [] => []
  | _ =>
      filter (fun dc => above_threshold (snd dc) negative_mean negative_std_sq)
             negative_counts
  end.

(** The second pass of [detect_anomalies], on [negative_df]. *)
Definition negative_anomalies_dict (negative_df : list Row) : Value :=
  match negative_df with
  | [] => VDict []
  | _ :: _ =>
      let negative_counts :=
        group_sizes (map (fun r => day_of (cell "timestamp" r)) negative_df) in
      anomalies_dict (negative_spikes negative_counts)
  end.

(** [AnalysisAgent.detect_anomalies]. *)
Definition detect_anomalies : M Value :=
  has_ts <- has_column "timestamp" ;;
  empty <- is_empty ;;
  if negb has_ts || empty then ret (VDict [])
  else
    try_except
      (ensure_datetime ;;;
       ts <- get_col "timestamp" ;;
       let day_column := map day_of ts in
       let day_counts := group_sizes day_column in
       if (List.length day_counts <? 3)%nat then ret (VDict [])
       else
         let anomalies := volume_spikes day_counts in
         negative_df <- negative_rows ;;
         ret (VDict [("volume_anomalies", anomalies_dict anomalies);
                     ("negative_sentiment_anomalies",
                      negative_anomalies_dict negative_df)]))
      (fun _ => ret (VDict [])).

(** *** Serialisation helpers *)

(** A timestamp becomes its ISO string, anything else is kept. *)
Definition iso_value (v : Value) : Value :=
  match v with
  | VTime t => VStr (isoformat t)
  | _ => v
  end.

Definition serialize_item (d : list (string * Value)) : list (string * Value) :=
  map (fun kv => (fst kv, iso_value (snd kv))) d.

(** The items a [for] loop over the value visits; [TypeError] when the value
    is not iterable. *)
Definition iterate (v : Value) : res (list Value) :=
  match v with
  | VList l => Ok l
  | VDict d => Ok (map (fun kv => VStr (fst kv)) d)
  | VStr s => Ok (map (fun c => VStr (String c "")) (list_ascii_of_string s))
  | _ => Raise TypeError
  end.

(** [AnalysisAgent.convert_timestamps_in_list]. *)
Definition convert_timestamps_in_list (data_list : Value) : res Value :=
  items <~ iterate data_list ;;
  Ok (VList (map (fun item =>
                    match item with
                    | VDict d => VDict (serialize_item d)
                    | _ => item
                    end) items)).

(** The loop over [daily_data]: only the dictionaries are kept. *)
Fixpoint serialize_daily (items : list Value) : list Value :=
  match items with
  | [] => []
  | VDict d :: r => VDict (serialize_item d) :: serialize_daily r
  | _ :: r => serialize_daily r
  end.

(** [AnalysisAgent.make_time_trends_serializable]. *)
Definition make_time_trends_serializable (time_trends : Value) : res Value :=
  if negb (truthy time_trends) then Ok (VList [])
  else
    match time_trends with
    | VDict d =>
        let result1 :=
          match assoc "daily_count" d with
          | Some (VList daily_data) => [("daily_count", VList (serialize_daily daily_data))]
          | _ => []
          end in
        result2 <~ match assoc "sentiment_trend" d with
                   | Some l => (v <~ convert_timestamps_in_list l ;;
                                Ok (result1 ++ [("sentiment_trend", v)]))
                   | None => Ok result1
                   end ;;
        result3 <~ match assoc "category_trend" d with
                   | Some l => (v <~ convert_timestamps_in_list l ;;
                                Ok (result2 ++ [("category_trend", v)]))
                   | None => Ok result2
                   end ;;
        Ok (VDict result3)
    | VList _ => convert_timestamps_in_list time_trends
    | _ => Ok (VList [])
    end.

(** [AnalysisAgent.make_anomalies_serializable]. *)
Definition make_anomalies_serializable (anomalies : Value) : res Value :=
  if negb (truthy anomalies) then Ok (VDict [])
  else
    match anomalies with
    | VDict d =>
        Ok (VDict (map (fun kv =>
                          match snd kv with
                          | VDict inner => (fst kv, VDict (serialize_item inner))
                          | value => (fst kv, value)
                          end) d))
    | _ => Raise AttributeError
    end.

(** [AnalysisAgent.create_empty_analysis_result]. *)
Definition create_empty_analysis_result : Value :=
  VDict [("feedback_data", VList []);
         ("sentiment_summary", VDict []);
         ("top_issues", VDict []);
         ("trend_keywords", VList []);
         ("time_trends", VList []);
         ("anomalies", VDict [])].

(** [lambda x: x.isoformat() if pd.notna(x) else None] on one cell;
    a cell that is neither missing nor a timestamp has no [isoformat]. *)
Definition iso_cell (v : Value) : res Value :=
  match v with
  | VTime t => Ok (VStr (isoformat t))
  | VNaN => Ok VNone
  | VNone => Ok VNone
  | _ => Raise AttributeError
  end.

(** [AnalysisAgent.dataframe_to_serializable]: works on a copy, the frame
    itself is left as it is. *)
Definition dataframe_to_serializable : M Value :=
  fun df =>
    if df_empty df then (Ok (VList []), df)
    else if Text.mem "timestamp" (columns df) then
      match apply_each iso_cell (column "timestamp" df) with
      | Raise e => (Raise e, df)
      | Ok stamps =>
          match set_col "timestamp" stamps df with
          | (Ok _, df_copy) => (Ok (VList (to_dict_records df_copy)), df)
          | (Raise e, _) => (Raise e, df)
          end
      end
    else (Ok (VList (to_dict_records df)), df).

(** *** The four phases *)

(** [x in container] for the string literal [x]. *)
Definition str_in (x : string) (container : Value) : res bool :=
  match container with
  | VDict d => Ok (Text.mem x (map fst d))
  | VList l => Ok (existsb (fun v => eq_str v x) l)
  | VStr s => Ok (Text.contains x s)
  | _ => Raise TypeError
  end.

(** [d.get(k, default)]: only a dictionary has the method. *)
Definition dict_get (d : Value) (k : string) (default : Value) : res Value :=
  match d with
  | VDict l =>
      match assoc k l with
      | Some v => Ok v
      | None => Ok default
      end
  | _ => Raise AttributeError
  end.

(** [container[k]] for the string literal [k]. *)
Definition subscript (container : Value) (k : string) : res Value :=
  match container with
  | VDict l =>
      match assoc k l with
      | Some v => Ok v
      | None => Raise KeyError
      end
  | _ => Raise TypeError
  end.

(** [AnalysisAgent.observe]. *)
Definition observe (cleaned_data : Value) : res Value :=
  if negb (truthy cleaned_data) then Ok (VList [])
  else
    inner <~ dict_get cleaned_data "data" (VDict []) ;;
    found <~ str_in "cleaned_data" inner ;;
    if negb found then Ok (VList [])
    else
      d <~ subscript cleaned_data "data" ;;
      data <~ subscript d "cleaned_data" ;;
      if negb (truthy data) then Ok (VList []) else Ok data.

(** [pd.DataFrame(data)]. *)
Definition pd_DataFrame (data : Value) : res DataFrame :=
  match data with
  | VList l =>
      match as_records l with
      | Some rows => Ok (from_records rows)
      | None => pd_DataFrame_other data
      end
  | _ => pd_DataFrame_other data
  end.

(** The body of the outer [try] of [orient], after the frame is built. *)
Definition orient_body : M unit :=
  has_text <- has_column "text" ;;
  (if has_text then ret tt else set_scalar "text" (VStr "No text available")) ;;;
  has_ts <- has_column "timestamp" ;;
  (if has_ts then ret tt else set_scalar "timestamp" (VStr (strftime now))) ;;;
  has_platform <- has_column "platform" ;;
  (if has_platform then ret tt else set_scalar "platform" (VStr "Unknown")) ;;;
  texts <- get_col "text" ;;
  set_col "text" (map (fun v => VStr (py_str v)) texts) ;;;
  try_except convert_timestamps (fun _ => set_scalar "timestamp" (VTime now)).

(** [AnalysisAgent.orient]. *)
Definition orient (data : Value) : res DataFrame :=
  if negb (truthy data) then Ok empty_frame
  else
    match pd_DataFrame data with
    | Raise _ => Ok empty_frame
    | Ok df =>
        match orient_body df with
        | (Ok _, df') => Ok df'
        | (Raise _, _) => Ok empty_frame
        end
    end.

(** The body of the [try] of [decide]. *)
Definition decide_body : M Value :=
  texts <- get_col "text" ;;
  set_col "sentiment" (map (fun t => VStr (analyze_sentiment t)) texts) ;;;
  texts <- get_col "text" ;;
  set_col "category" (map (fun t => VStr (categorize_feedback t)) texts) ;;;
  urgencies <- df_apply determine_urgency ;;
  set_col "urgency" (map VStr urgencies) ;;;
  trend_keywords <- try_except (texts <- get_col "text" ;;
                                ret (extract_keywords texts 10))
                               (fun _ => ret []) ;;
  time_trends <- try_except detect_trends (fun _ => ret (VList [])) ;;
  anomalies <- try_except detect_anomalies (fun _ => ret (VDict [])) ;;
  feedback_data <- dataframe_to_serializable ;;
  sentiments <- get_col "sentiment" ;;
  categories <- get_col "category" ;;
  trends <- lift (make_time_trends_serializable time_trends) ;;
  anoms <- lift (make_anomalies_serializable anomalies) ;;
  ret (VDict [("feedback_data", feedback_data);
              ("sentiment_summary", value_counts (map py_str sentiments));
              ("top_issues", value_counts (map py_str categories));
              ("trend_keywords", VList (map VStr trend_keywords));
              ("time_trends", trends);
              ("anomalies", anoms)]).

(** [AnalysisAgent.decide]. *)
Definition decide (df : DataFrame) : res Value :=
  if df_empty df then Ok create_empty_analysis_result
  else
    match decide_body df with
    | (Ok analysis_result, _) => Ok analysis_result
    | (Raise _, _) => Ok create_empty_analysis_result
    end.

(** [AnalysisAgent.act]. *)
Definition act (analysis_result : Value) : res Value := Ok analysis_result.

(** The body of the [try] of [OODAAgent.run], for the analysis agent. *)
Definition run_body (input_data : Value) : res Value :=
  if negb (truthy input_data) then
    Ok (VDict [("status", VStr "warning");
               ("message", VStr "Empty input data");
               ("data", VList [])])
  else
    observed_data <~ observe input_data ;;
    oriented_data <~ orient observed_data ;;
    decision <~ decide oriented_data ;;
    action_result <~ act decision ;;
    Ok (VDict [("status", VStr "success"); ("data", action_result)]).

(** [OODAAgent.run]. *)
Definition run (input_data : Value) : res Value :=
  match run_body input_data with
  | Ok v => Ok v
  | Raise e =>
      Ok (VDict [("status", VStr "error");
                 ("message", VStr (exn_message e));
                 ("data", VList [])])
  end.

(** The analysis of one batch: the orient, decide and act phases that [run]
    chains on the observed batch. *)
Definition analyze (batch : Value) : res Value :=
  oriented_data <~ orient batch ;;
  decision <~ decide oriented_data ;;
  act decision.

End Agent.

(* ===================================================================== *)
(** ** Vocabulary of the specification *)
(* ===================================================================== *)

(** The literal [lit] occurs in [text] when letter case is ignored: some
    substring of [text] lowers to [lit]. *)
Definition occurs_ignoring_case (lit text : string) : Prop :=
  exists p m q, text = (p ++ m ++ q)%string /\ Text.lower m = lit.

(** A case-insensitive search of the alternation succeeds. *)
Definition matches_ignoring_case (alternatives : list string) (text : string) : Prop :=
  exists lit, In lit alternatives /\ occurs_ignoring_case lit text.

(** The sum of the [count] entries of the rows of a [daily_count]. *)
Definition count_entry (row : Value) : Z :=
  match row with
  | VDict d =>
      match assoc "count" d with
      | Some (VInt n) => n
      | _ => 0
      end
  | _ => 0
  end.

Definition total_count (daily : list Value) : Z :=
  series_sum (map count_entry daily).

(** The per-day counts of the example of the specification. *)
Definition example_counts : list Z := [2; 3; 2; 3; 20].

(** By decreasing count. *)
Definition by_count_desc (a b : string * Z) : Prop := snd b <= snd a.

(** *** Words of a text *)

(** Every character of the string satisfies [p]. *)
Fixpoint all_chars (p : ascii -> bool) (s : string) : bool :=
  match s with
  | EmptyString => true
  | String c r => p c && all_chars p r
  end.

Definition is_lowered (c : ascii) : bool := Ascii.eqb (Text.lower_char c) c.

(** A text laid out as separators and words: each pair is a run of
    characters that are no word characters followed by a word. *)
Fixpoint layout (pairs : list (string * string)) (tail : string) : string :=
  match pairs with
  | [] => tail
  | (sep, w) :: r => (sep ++ w ++ layout r tail)%string
  end.

Definition is_separator (sep : string) : Prop :=
  sep <> EmptyString /\ all_chars (fun c => negb (is_word_char c)) sep = true.

Definition is_word (w : string) : Prop :=
  w <> EmptyString /\ all_chars is_word_char w = true.

(** *** The shape of an analysis result *)

Definition field (k : string) (v : Value) : option Value :=
  match v with
  | VDict d => assoc k d
  | _ => None
  end.

Definition is_dict (v : Value) : bool :=
  match v with VDict _ => true | _ => false end.
Definition is_int (v : Value) : bool :=
  match v with VInt _ => true | _ => false end.
Definition is_str (v : Value) : bool :=
  match v with VStr _ => true | _ => false end.
Definition is_empty_list (v : Value) : bool :=
  match v with VList [] => true | _ => false end.
Definition is_empty_dict (v : Value) : bool :=
  match v with VDict [] => true | _ => false end.

(** A sequence whose items satisfy [p]; a mapping whose values do. *)
Definition list_of (p : Value -> bool) (v : Value) : bool :=
  match v with VList l => forallb p l | _ => false end.
Definition dict_of (p : Value -> bool) (v : Value) : bool :=
  match v with VDict d => forallb (fun kv => p (snd kv)) d | _ => false end.

Fixpoint same_labels (a b : list string) : bool :=
  match a, b with
  | [], [] => true
  | x :: a', y :: b' => String.eqb x y && same_labels a' b'
  | _, _ => false
  end.

(** A mapping with exactly the keys [labels], in that order. *)
Definition has_keys (labels : list string) (v : Value) : bool :=
  match v with VDict d => same_labels (map fst d) labels | _ => false end.

Definition checks (k : string) (p : Value -> bool) (v : Value) : bool :=
  match field k v with
  | Some x => p x
  | None => false
  end.

Definition result_labels : list string :=
  ["feedback_data"; "sentiment_summary"; "top_issues"; "trend_keywords";
   "time_trends"; "anomalies"].
Definition trend_labels : list string :=
  ["daily_count"; "sentiment_trend"; "category_trend"].
Definition anomaly_labels : list string :=
  ["volume_anomalies"; "negative_sentiment_anomalies"].

(** [time_trends] of the data model: a mapping with the three trends, each a
    sequence of rows. *)
Definition is_time_trends (v : Value) : bool :=
  has_keys trend_labels v && dict_of (list_of is_dict) v.

(** [anomalies] of the data model: a mapping with the two anomaly maps, each
    from day to count. *)
Definition is_anomalies (v : Value) : bool :=
  has_keys anomaly_labels v && dict_of (dict_of is_int) v.

Definition result_shape (trends_ok anomalies_ok : Value -> bool) (v : Value) : bool :=
  has_keys result_labels v &&
  checks "feedback_data" (list_of is_dict) v &&
  checks "sentiment_summary" (dict_of is_int) v &&
  checks "top_issues" (dict_of is_int) v &&
  checks "trend_keywords" (list_of is_str) v &&
  checks "time_trends" trends_ok v &&
  checks "anomalies" anomalies_ok v.

(** The AnalysisResult schema of the data model. *)
Definition matches_AnalysisResult : Value -> bool :=
  result_shape is_time_trends is_anomalies.

(** The schema with the two degraded forms the agent uses: an empty list
    for [time_trends], an empty mapping for [anomalies]. *)
Definition matches_degraded_AnalysisResult : Value -> bool :=
  result_shape (fun t => is_empty_list t || is_time_trends t)
               (fun a => is_empty_dict a || is_anomalies a).

(** What a record of [feedback_data] holds: the ISO form of a timestamp, the
    day of that same timestamp under [day], and the other item fields. *)
Definition carries_day (rec : Value) : Prop :=
  exists t,
    field "timestamp" rec = Some (VStr (isoformat t)) /\
    field "day" rec = Some (VStr (date_str t)) /\
    Forall (fun k => field k rec <> None)
           ["text"; "platform"; "sentiment"; "category"; "urgency"].

(** What [detect_trends] can return: the empty list, or the three tables. *)
Definition trends_outcome (v : Value) : Prop :=
  v = VList [] \/
  exists days ls cs,
    v = VDict [("daily_count", VList (daily_count days));
               ("sentiment_trend", VList (pivot_counts days ls));
               ("category_trend", VList (pivot_counts days cs))].

(** What [detect_anomalies] can return: the empty mapping, or the two maps. *)
Definition anomalies_outcome (v : Value) : Prop :=
  v = VDict [] \/
  exists spikes negative_df,
    v = VDict [("volume_anomalies", anomalies_dict spikes);
               ("negative_sentiment_anomalies", negative_anomalies_dict negative_df)].

(** *** The frame [orient] hands to [decide], and what [decide] makes of it *)

Section Reports.
Context {E : Externals}.

(** A frame with records, a [text] column and a [timestamp] column of
    timestamps. *)
Definition oriented (df : DataFrame) : Prop :=
  Text.mem "text" (columns df) = true /\
  Text.mem "timestamp" (columns df) = true /\
  is_datetime_col (column "timestamp" df) = true /\
  records df <> [].

Definition with_sentiment (df : DataFrame) : DataFrame :=
  assign "sentiment" (map (fun t => VStr (analyze_sentiment t)) (column "text" df)) df.

Definition with_category (df : DataFrame) : DataFrame :=
  assign "category" (map (fun t => VStr (categorize_feedback t)) (column "text" df)) df.

Definition row_urgency (r : Row) : string :=
  urgency_rule (Text.lower (py_str (cell "text" r)))
               (cell "sentiment" r) (cell "category" r).

Definition with_urgency (df : DataFrame) : DataFrame :=
  assign "urgency" (map (fun r => VStr (row_urgency r)) (records df)) df.

(** The frame after the three classification columns are assigned. *)
Definition classified (df : DataFrame) : DataFrame :=
  with_urgency (with_category (with_sentiment df)).

(** The frame after [detect_trends] has assigned the [day] column. *)
Definition with_day (df : DataFrame) : DataFrame :=
  assign "day" (map (fun v => VStr (day_of v)) (column "timestamp" df)) df.

Definition trend_report (df : DataFrame) : Value :=
  let days := map py_str (column "day" df) in
  VDict [("daily_count", VList (daily_count days));
         ("sentiment_trend",
          VList (pivot_counts days (map py_str (column "sentiment" df))));
         ("category_trend",
          VList (pivot_counts days (map py_str (column "category" df))))].

Definition negative_records (df : DataFrame) : list Row :=
  filter (fun r => eq_str (cell "sentiment" r) "negative") (records df).

Definition anomaly_report (df : DataFrame) : Value :=
  let day_counts := group_sizes (map day_of (column "timestamp" df)) in
  if (List.length day_counts <? 3)%nat then VDict []
  else VDict [("volume_anomalies", anomalies_dict (volume_spikes day_counts));
              ("negative_sentiment_anomalies",
               negative_anomalies_dict (negative_records df))].

Definition serializable_records (df : DataFrame) : Value :=
  VList (to_dict_records
           (assign "timestamp" (map iso_value (column "timestamp" df)) df)).

(** The frame [orient] builds from the frame pandas constructed. *)
Definition with_default (c : string) (v : Value) (df : DataFrame) : DataFrame :=
  if Text.mem c (columns df) then df else assign_scalar c v df.

Definition with_text_as_str (df : DataFrame) : DataFrame :=
  assign "text" (map (fun v => VStr (py_str v)) (column "text" df)) df.

Definition with_timestamps (now : Timestamp) (df : DataFrame) : DataFrame :=
  if to_datetime_raises (column "timestamp" df) then
    assign_scalar "timestamp" (VTime now) df
  else
    let coerced := assign "timestamp" (map coerce_datetime (column "timestamp" df)) df in
    assign "timestamp" (map (fillna (VTime now)) (column "timestamp" coerced)) coerced.

Definition oriented_frame (now : Timestamp) (df : DataFrame) : DataFrame :=
  with_timestamps now
    (with_text_as_str
       (with_default "platform" (VStr "Unknown")
          (with_default "timestamp" (VStr (strftime now))
             (with_default "text" (VStr "No text available") df)))).

(** Every cell of the column parses. *)
Definition all_parse (col : list Value) : Prop :=
  Forall (fun v => to_datetime v <> None) col.

(** The analysis result in terms of the oriented frame. *)
Definition analysis_of (df : DataFrame) : Value :=
  let df3 := classified df in
  let df4 := with_day df3 in
  VDict [("feedback_data", serializable_records df4);
         ("sentiment_summary", value_counts (map py_str (column "sentiment" df4)));
         ("top_issues", value_counts (map py_str (column "category" df4)));
         ("trend_keywords", VList (map VStr (extract_keywords (column "text" df3) 10)));
         ("time_trends", trend_report df4);
         ("anomalies", anomaly_report df4)].

End Reports.

(* ===================================================================== *)
(** ** The generic loop, the callers and the consumers of the analysis *)
(* ===================================================================== *)

Section Callers.
Context {E : Externals}.
Local Open Scope frame_scope.

(** [OODAAgent.run] for an agent with the given four phases. *)
Definition ooda_run {A B C : Type}
    (observe : Value -> res A) (orient : A -> res B)
    (decide : B -> res C) (act : C -> res Value)
    (input_data : Value) : res Value :=
  match
    (if negb (truthy input_data) then
       Ok (VDict [("status", VStr "warning");
                  ("message", VStr "Empty input data");
                  ("data", VList [])])
     else
       observed_data <~ observe input_data ;;
       oriented_data <~ orient observed_data ;;
       decision <~ decide oriented_data ;;
       action_result <~ act decision ;;
       Ok (VDict [("status", VStr "success"); ("data", action_result)]))
  with
  | Ok v => Ok v
  | Raise e =>
      Ok (VDict [("status", VStr "error");
                 ("message", VStr (exn_message e));
                 ("data", VList [])])
  end.

(** [AlertAgent]: its four phases, and its [run]. *)
Definition alert_observe (analysis : Value) : res Value := Ok analysis.
Definition alert_orient (analysis : Value) : res Value := Ok analysis.
Definition alert_decide (analysis : Value) : res Value :=
  Ok (VStr "ALERT: Spike in complaints!").
Definition alert_act (alert : Value) : res Value := Ok (VDict [("alert", alert)]).
Definition alert_run : Value -> res Value :=
  ooda_run alert_observe alert_orient alert_decide alert_act.

(** [ReportAgent]: its four phases, and its [run]. *)
Definition report_observe (analysis : Value) : res Value := Ok analysis.
Definition report_orient (analysis : Value) : res Value := Ok analysis.
Definition report_decide (analysis : Value) : res Value := Ok (VStr "Summary Report").
Definition report_act (report : Value) : res Value := Ok (VDict [("report", report)]).
Definition report_run : Value -> res Value :=
  ooda_run report_observe report_orient report_decide report_act.

(** [analyze_data] of [main.py]: runs the analysis agent, then reads the two
    summaries out of the data of the envelope. *)
Definition analyze_data (now : Timestamp) (processed_data : Value) : res Value :=
  analysis_result <~ run now processed_data ;;
  data <~ dict_get analysis_result "data" (VDict []) ;;
  sentiment_summary <~ dict_get data "sentiment_summary" (VDict []) ;;
  data <~ dict_get analysis_result "data" (VDict []) ;;
  top_issues <~ dict_get data "top_issues" (VDict []) ;;
  Ok analysis_result.

End Callers.

Module Dashboard.

Local Open Scope frame_scope.

(** [DashboardAgent.create_empty_dashboard_data]. *)
Definition create_empty_dashboard_data : Value :=
  VDict [("kpis", VDict []);
         ("feedback_categories", VDict []);
         ("trends", VDict []);
         ("feedback_data", VList []);
         ("sentiment_summary", VDict []);
         ("top_issues", VDict []);
         ("trend_keywords", VList []);
         ("time_trends", VList []);
         ("anomalies", VDict [])].

(** [DashboardAgent.observe]. *)
Definition observe (analysis_result : Value) : res Value :=
  if negb (truthy analysis_result) then Ok create_empty_dashboard_data
  else
    found <~ str_in "data" analysis_result ;;
    if negb found then Ok create_empty_dashboard_data
    else
      data <~ subscript analysis_result "data" ;;
      if negb (truthy data) then Ok create_empty_dashboard_data
      else
        has_feedback <~ str_in "feedback_data" data ;;
        if negb has_feedback then Ok create_empty_dashboard_data
        else Ok data.

(** [categorized_data[key].append(item)]. *)
Fixpoint bucket_append (key : string) (item : Value) (d : list (string * Value))
  : list (string * Value) :=
  match d with
  | [] => []
  | (k, v) :: r =>
      if String.eqb key k then
        (k, match v with VList l => VList (l ++ [item]) | _ => v end) :: r
      else (k, v) :: bucket_append key item r
  end.

Definition empty_buckets : list (string * Value) :=
  [("bugs", VList []); ("feature_requests", VList []); ("ux_issues", VList []);
   ("positive_feedback", VList []); ("other", VList [])].

(** The bucket an item goes to, by its [category] entry. *)
Definition bucket_of (category : Value) : string :=
  if eq_str category "bug" then "bugs"
  else if eq_str category "feature_request" then "feature_requests"
  else if eq_str category "ux_issue" then "ux_issues"
  else if eq_str category "positive_feedback" then "positive_feedback"
  else "other".

(** The loop of [categorize_feedback]. *)
Fixpoint bucket_all (items : list Value) (d : list (string * Value))
  : res (list (string * Value)) :=
  match items with
  | [] => Ok d
  | item :: rest =>
      category <~ dict_get item "category" (VStr "other") ;;
      bucket_all rest (bucket_append (bucket_of category) item d)
  end.

(** [DashboardAgent.categorize_feedback]. *)
Definition categorize_feedback (feedback_data : Value) : Value :=
  match
    (if negb (truthy feedback_data) then Ok empty_buckets
     else
       items <~ iterate feedback_data ;;
       bucket_all items empty_buckets)
  with
  | Ok d => VDict d
  | Raise _ => VDict []
  end.

(** [str.upper()] on one ASCII character. *)
Definition upper_char (c : ascii) : ascii :=
  let n := nat_of_ascii c in
  if ((97 <=? n) && (n <=? 122))%nat then ascii_of_nat (n - 32) else c.

Definition is_letter (c : ascii) : bool :=
  let n := nat_of_ascii c in
  ((65 <=? n) && (n <=? 90) || (97 <=? n) && (n <=? 122))%nat.

(** [str.title()] on ASCII text: a letter that follows no letter is put in
    upper case, a letter that follows a letter in lower case. *)
Fixpoint title_from (after_letter : bool) (s : string) : string :=
  match s with
  | EmptyString => EmptyString
  | String c r =>
      String (if is_letter c then
                if after_letter then Text.lower_char c else upper_char c
              else c)
             (title_from (is_letter c) r)
  end.

Definition title (s : string) : string := title_from false s.

(** [s.replace('_', ' ')]. *)
Fixpoint underscores_to_spaces (s : string) : string :=
  match s with
  | EmptyString => EmptyString
  | String c r =>
      String (if Ascii.eqb c "_" then " "%char else c) (underscores_to_spaces r)
  end.

(** [str(n)] for a length. *)
Definition str_of_nat (n : nat) : string :=
  NilEmpty.string_of_uint (Nat.to_uint n).

(** [d.items()]: only a dictionary has the method. *)
Definition dict_items (d : Value) : res (list (string * Value)) :=
  match d with
  | VDict l => Ok l
  | _ => Raise AttributeError
  end.

Definition anomaly_alert (now : Timestamp) (anomaly_type : string)
    (anomaly_details : Value) : res Value :=
  description <~ dict_get anomaly_details "description"
                   (VStr "Unusual pattern detected in feedback data") ;;
  Ok (VDict [("title",
              VStr ("Anomaly detected: " ++ title (underscores_to_spaces anomaly_type)));
             ("description", description);
             ("severity", VStr "high");
             ("timestamp", VStr (isoformat now))]).

(** The first loop of [generate_alerts]: one alert per anomaly entry that is
    a dictionary with a true [detected]. *)
Fixpoint anomaly_alerts (now : Timestamp) (entries : list (string * Value))
  : res (list Value) :=
  match entries with
  | [] => Ok []
  | (anomaly_type, anomaly_details) :: rest =>
      flagged <~ (if is_dict anomaly_details then
                    detected <~ dict_get anomaly_details "detected" (VBool false) ;;
                    Ok (truthy detected)
                  else Ok false) ;;
      first <~ (if flagged then
                  alert <~ anomaly_alert now anomaly_type anomaly_details ;;
                  Ok [alert]
                else Ok []) ;;
      others <~ anomaly_alerts now rest ;;
      Ok (first ++ others)
  end.

(** [item.get('urgency') == 'high' and item.get('sentiment') == 'negative']. *)
Definition is_urgent_negative (item : Value) : res bool :=
  urgency <~ dict_get item "urgency" VNone ;;
  if eq_str urgency "high" then
    sentiment <~ dict_get item "sentiment" VNone ;;
    Ok (eq_str sentiment "negative")
  else Ok false.

(** [[item for item in feedback_data if ...]]. *)
Fixpoint select (p : Value -> res bool) (items : list Value) : res (list Value) :=
  match items with
  | [] => Ok []
  | item :: rest =>
      keep <~ p item ;;
      kept <~ select p rest ;;
      Ok (if keep then item :: kept else kept)
  end.

Definition urgent_alert (now : Timestamp) (n : nat) : Value :=
  VDict [("title",
          VStr ("High number of urgent negative feedback (" ++ str_of_nat n ++ ")"));
         ("description",
          VStr "Multiple customers have reported urgent negative issues");
         ("severity", VStr "high");
         ("timestamp", VStr (isoformat now))].

(** [DashboardAgent.generate_alerts]. *)
Definition generate_alerts (now : Timestamp) (feedback_data anomalies : Value) : Value :=
  match
    (entries <~ dict_items anomalies ;;
     alerts <~ anomaly_alerts now entries ;;
     items <~ iterate feedback_data ;;
     urgent_negative <~ select is_urgent_negative items ;;
     Ok (if (3 <=? List.length urgent_negative)%nat
         then alerts ++ [urgent_alert now (List.length urgent_negative)]
         else alerts))
  with
  | Ok alerts => VList alerts
  | Raise _ => VList []
  end.

End Dashboard.

(* ===================================================================== *)
(** ** The collectors that feed the pipeline *)
(* ===================================================================== *)

(** [d.pop(k, None)] on a copy of the dictionary. *)
Definition pop (k : string) (d : list (string * Value)) : list (string * Value) :=
  filter (fun kv => negb (String.eqb k (fst kv))) d.

(** The loop of [sanitize_data] and of [anonymize_data]: the dictionaries
    are cleaned, anything else is skipped. *)
Fixpoint clean_items (clean : list (string * Value) -> list (string * Value))
    (items : list Value) : list Value :=
  match items with
  | [] => []
  | VDict d :: rest => VDict (clean d) :: clean_items clean rest
  | _ :: rest => clean_items clean rest
  end.

Module SocialMedia.

Local Open Scope frame_scope.

(** The attributes the constructor sets: [self.platform] and [self.format]. *)
Record Collector := mkCollector {
  platform : Value;
  format : Value
}.

(** [SocialMediaCollector(platform, format)]. *)
Definition init (platform format : Value) : Collector :=
  mkCollector (if truthy platform then platform else VStr "Default") format.

(** [SocialMediaCollector.convert_media_to_text]. *)
Definition convert_media_to_text (media : Value) : Value :=
  match media with
  | VStr _ => media
  | _ => VStr "Media content not available in text format"
  end.

(** The body of the loop of [sanitize_data] for a dictionary. *)
Definition sanitize_item (item : list (string * Value)) : list (string * Value) :=
  let clean_item := item in
  let clean_item := pop "user_name" clean_item in
  let clean_item := pop "user_id" clean_item in
  let clean_item := pop "email" clean_item in
  let clean_item := pop "phone_number" clean_item in
  let clean_item := pop "location" clean_item in
  let clean_item := pop "media_url" clean_item in
  if Text.mem "media" (map fst clean_item) then
    set_field "media" (convert_media_to_text (cell "media" clean_item)) clean_item
  else clean_item.

(** [SocialMediaCollector.sanitize_data]. *)
Definition sanitize_data (data : Value) : res (list Value) :=
  items <~ iterate data ;;
  Ok (clean_items sanitize_item items).

(** [SocialMediaCollector.standardize_format]. *)
Definition standardize_format (self : Collector) (data : list Value) : Value :=
  VDict [("social_data", VList data);
         ("platform", platform self);
         ("format", format self)].

(** [SocialMediaCollector.observe]. *)
Definition observe (self : Collector) (data : Value) : res Value :=
  social_data <~ dict_get data "social_data" (VList []) ;;
  if negb (truthy social_data) then
    Ok (VDict [("social_data", VList []);
               ("platform", platform self);
               ("format", format self)])
  else
    sanitized_data <~ sanitize_data social_data ;;
    Ok (standardize_format self sanitized_data).

Definition orient (data : Value) : res Value := Ok data.
Definition decide (data : Value) : res Value := Ok data.
Definition act (analysis_result : Value) : res Value := Ok analysis_result.

End SocialMedia.

Module ReviewSite.

Local Open Scope frame_scope.

(** The body of the loop of [anonymize_data] for a dictionary. *)
Definition anonymize_item (item : list (string * Value)) : list (string * Value) :=
  let clean_item := item in
  let clean_item := pop "reviewer_name" clean_item in
  pop "email" clean_item.

(** [ReviewSiteCollector.anonymize_data]. *)
Definition anonymize_data (data : Value) : res (list Value) :=
  items <~ iterate data ;;
  Ok (clean_items anonymize_item items).

(** [ReviewSiteCollector.observe]. *)
Definition observe (data : Value) : res Value :=
  review_data <~ dict_get data "review_data" (VList []) ;;
  if negb (truthy review_data) then Ok (VList [])
  else
    anonymized_data <~ anonymize_data review_data ;;
    Ok (VList anonymized_data).

(** [ReviewSiteCollector.orient]. *)
Definition orient (data : Value) : res Value :=
  if negb (truthy data) then Ok (VList []) else Ok data.

End ReviewSite.

Section CollectorRuns.
Context {E : Externals}.

(** [SocialMediaCollector.run]: the generic loop on the collector's phases. *)
Definition social_run (self : SocialMedia.Collector) : Value -> res Value :=
  ooda_run (SocialMedia.observe self) SocialMedia.orient SocialMedia.decide
           SocialMedia.act.

End CollectorRuns.

(** *** What a cleaned record keeps *)

(** The record [clean] is the record [item] without the keys [dropped]: the
    remaining keys in their order, each with its value, except that the
    value under [media] may be rewritten by [rewrite]. *)
Definition stripped (dropped : list string) (rewrite : Value -> Value)
    (item clean : Value) : Prop :=
  exists d d',
    item = VDict d /\ clean = VDict d' /\
    (forall k, In k dropped -> assoc k d' = None) /\
    map fst d' = filter (fun k => negb (Text.mem k dropped)) (map fst d) /\
    (forall k, ~ In k dropped -> k <> "media" -> assoc k d' = assoc k d) /\
    (~ In "media" dropped ->
     assoc "media" d' = option_map rewrite (assoc "media" d)).

Definition social_sensitive : list string :=
  ["user_name"; "user_id"; "email"; "phone_number"; "location"; "media_url"].

Definition review_sensitive : list string := ["reviewer_name"; "email"].

(** *** What the phases do to one record *)

Section Records.
Context {E : Externals}.

(** Some item of the batch has the key. *)
Definition some_item_has (k : string) (rows : list Row) : bool :=
  existsb (fun row => Text.mem k (map fst row)) rows.

(** The record [orient] makes of a record of the frame pandas built, given
    the columns of that frame and whether [pd.to_datetime] raised. *)
Definition orient_row (now : Timestamp) (cols : list string) (raised : bool) (r : Row) : Row :=
  let r1 := if Text.mem "text" cols then r
            else set_field "text" (VStr "No text available") r in
  let r2 := if Text.mem "timestamp" cols then r1
            else set_field "timestamp" (VStr (strftime now)) r1 in
  let r3 := if Text.mem "platform" cols then r2
            else set_field "platform" (VStr "Unknown") r2 in
  let r4 := set_field "text" (VStr (py_str (cell "text" r3))) r3 in
  if raised then set_field "timestamp" (VTime now) r4
  else
    let r5 := set_field "timestamp" (coerce_datetime (cell "timestamp" r4)) r4 in
    set_field "timestamp" (fillna (VTime now) (cell "timestamp" r5)) r5.

(** The frame on which [orient] calls [pd.to_datetime]. *)
Definition before_timestamps (now : Timestamp) (df : DataFrame) : DataFrame :=
  with_text_as_str
    (with_default "platform" (VStr "Unknown")
       (with_default "timestamp" (VStr (strftime now))
          (with_default "text" (VStr "No text available") df))).

(** The record [decide] makes of a record of the oriented frame when it
    assigns the three classification columns. *)
Definition classify_row (r : Row) : Row :=
  let r1 := set_field "sentiment" (VStr (analyze_sentiment (cell "text" r))) r in
  let r2 := set_field "category" (VStr (categorize_feedback (cell "text" r1))) r1 in
  set_field "urgency" (VStr (row_urgency r2)) r2.

(** The record as it is serialised: the day assigned by [detect_trends],
    then the timestamp in ISO form. *)
Definition publish_row (r : Row) : Row :=
  let r1 := set_field "day" (VStr (day_of (cell "timestamp" r))) r in
  set_field "timestamp" (iso_value (cell "timestamp" r1)) r1.

(** The text of an item as the analysis reads it. *)
Definition item_text (rows : list Row) (row : Row) : string :=
  py_str (if some_item_has "text" rows then cell "text" row
          else VStr "No text available").

(** The timestamp entry of an item as [pd.to_datetime] receives it. *)
Definition raw_timestamp (now : Timestamp) (rows : list Row) (row : Row) : Value :=
  if some_item_has "timestamp" rows then cell "timestamp" row
  else VStr (strftime now).

(** The timestamp of an item as the analysis reads it: the clock when the
    conversion of the column raised or the entry does not parse. *)
Definition item_timestamp (now : Timestamp) (rows : list Row) (row : Row) : Timestamp :=
  if to_datetime_raises (map (raw_timestamp now rows) rows) then now
  else
    match to_datetime (raw_timestamp now rows row) with
    | Some t => t
    | None => now
    end.


End Records.

(** The counts tally the labels: one entry per distinct label with the
    number of its occurrences, by decreasing count. *)
Definition tallies (labels : list string) (counts : list (string * Z)) : Prop :=
  NoDup (map fst counts) /\
  (forall k c, In (k, c) counts <-> In k labels /\ c = count_of k labels) /\
  series_sum (map snd counts) = Z.of_nat (List.length labels) /\
  StronglySorted by_count_desc counts.

(** A mapping from labels to counts, as a value. *)
Definition counts_dict (counts : list (string * Z)) : Value :=
  VDict (map (fun kc => (fst kc, VInt (snd kc))) counts).

(** The sum of the integer entries of a record. *)
Definition entries_sum (entries : list (string * Value)) : Z :=
  series_sum (map (fun kv => match snd kv with VInt n => n | _ => 0 end) entries).

(** A row of a trend table splits the count of a row of [daily_count]: the
    same day, and entries that add up to the count of that day. *)
Definition splits_day (daily_row trend_row : Value) : Prop :=
  exists d c entries,
    daily_row = VDict [("day", VStr d); ("count", VInt c)] /\
    trend_row = VDict (("day", VStr d) :: entries) /\
    entries_sum entries = c.

(** The days of a [daily_count] table. *)
Definition days_of (daily : list Value) : list (option Value) :=
  map (field "day") daily.

(** *** What the dashboard reads in the records *)

(** [item.get('category', 'other')] on a dictionary. *)
Definition category_of (item : Value) : Value :=
  match field "category" item with
  | Some v => v
  | None => VStr "other"
  end.

Definition bucket_names : list string :=
  ["bugs"; "feature_requests"; "ux_issues"; "positive_feedback"; "other"].

(** The item belongs to the bucket. *)
Definition in_bucket (bucket : string) (item : Value) : bool :=
  String.eqb (Dashboard.bucket_of (category_of item)) bucket.

(** A copy of a record that keeps its [urgency] and [sentiment] entries, as
    [process_timestamps] makes one. *)
Definition keeps_urgency_and_sentiment (rec copy : Value) : Prop :=
  is_dict copy = true /\
  field "urgency" copy = field "urgency" rec /\
  field "sentiment" copy = field "sentiment" rec.

Section Readings.
Context {E : Externals}.

(** The item is classified as a bug of negative sentiment. *)
Definition negative_bug (rows : list Row) (row : Row) : bool :=
  String.eqb (categorize_feedback (VStr (item_text rows row))) "bug" &&
  String.eqb (analyze_sentiment (VStr (item_text rows row))) "negative".

End Readings.

(** *** A configuration and batches for the examples *)

(** An installation without the NLP libraries, in which pandas builds a
    frame from a list of dictionaries only and only a timestamp parses as
    one. *)
Definition plain_externals : Externals := {|
  nlp_available := false;
  polarity := fun _ => Raise LibraryError;
  str_other := fun _ => "nan";
  tfidf_features := fun _ _ => Raise LibraryError;
  pd_DataFrame_other := fun _ => Raise ValueError;
  to_datetime := fun v => match v with VTime t => Some t | _ => None end;
  to_datetime_raises := fun _ => false;
  exn_message := fun _ => "error"
|}.

Definition noon (day : Z) : Timestamp := mkTimestamp 2024 3 day 12 0 0 0.

Definition item_on (day : Z) (text : string) : Value :=
  VDict [("text", VStr text); ("timestamp", VTime (noon day))].

Definition row_on (day : Z) (text : string) : Row :=
  [("text", VStr text); ("timestamp", VTime (noon day))].

Definition small_items : list Value :=
  [item_on 1 "I love it"; item_on 1 "the app has a bug, terrible";
   item_on 2 "slow and bad"; item_on 3 "fine"].

Definition small_rows : list Row :=
  [row_on 1 "I love it"; row_on 1 "the app has a bug, terrible";
   row_on 2 "slow and bad"; row_on 3 "fine"].

(** Thirty items over five days, 2, 3, 2, 3 and 20 a day. *)
Definition spike_items : list Value :=
  repeat (item_on 1 "fine") 2 ++ repeat (item_on 2 "fine") 3 ++
  repeat (item_on 3 "fine") 2 ++ repeat (item_on 4 "fine") 3 ++
  repeat (item_on 5 "fine") 20.

(** A classified frame of three days with one negative row. *)
Definition three_day_frame : DataFrame :=
  mkDataFrame ["text"; "timestamp"; "sentiment"]
    [[("text", VStr "bad"); ("timestamp", VTime (noon 1)); ("sentiment", VStr "negative")];
     [("text", VStr "fine"); ("timestamp", VTime (noon 2)); ("sentiment", VStr "neutral")];
     [("text", VStr "fine"); ("timestamp", VTime (noon 3)); ("sentiment", VStr "neutral")]].

Definition spike_frame : DataFrame :=
  mkDataFrame ["timestamp"; "sentiment"]
    (map (fun v => match v with
                   | VDict d => ("sentiment", VStr "neutral") :: d
                   | _ => []
                   end) spike_items).

(* ===================================================================== *)
(** ** Properties of the string operations *)
(* ===================================================================== *)

Lemma starts_with_iff (p s : string) :
  Text.starts_with p s = true <-> exists q, s = (p ++ q)%string.
Proof.
  revert s. induction p as [|a p IH]; intros s; simpl.
  - split; [intros _; exists s; reflexivity | reflexivity].
  - destruct s as [|b s].
    + split; [discriminate | intros [q Hq]; discriminate].
    + rewrite andb_true_iff, Ascii.eqb_eq, IH. split.
      * intros [-> [q ->]]. exists q. reflexivity.
      * intros [q Hq]. injection Hq as -> ->. split; [reflexivity | now exists q].
Qed.

Lemma contains_iff (p s : string) :
  Text.contains p s = true <-> exists a b, s = (a ++ p ++ b)%string.
Proof.
  induction s as [|c s IH].
  - simpl. rewrite orb_false_r, starts_with_iff. split.
    + intros [q Hq]. exists EmptyString, q. exact Hq.
    + intros [a [b Hab]]. destruct a as [|x a]; [| discriminate].
      exists b. exact Hab.
  - simpl. rewrite orb_true_iff, starts_with_iff, IH. split.
    + intros [[q Hq] | [a [b Hab]]].
      * exists EmptyString, q. exact Hq.
      * exists (String c a), b. simpl. now rewrite Hab.
    + intros [a [b Hab]]. destruct a as [|x a].
      * left. exists b. exact Hab.
      * right. simpl in Hab. injection Hab as _ Hs. now exists a, b.
Qed.

Lemma lower_app (a b : string) :
  Text.lower (a ++ b)%string = (Text.lower a ++ Text.lower b)%string.
Proof. induction a as [|c a IH]; simpl; [reflexivity | now rewrite IH]. Qed.

Lemma lower_split (t x y : string) :
  Text.lower t = (x ++ y)%string ->
  exists t1 t2, t = (t1 ++ t2)%string /\ Text.lower t1 = x /\ Text.lower t2 = y.
Proof.
  revert t. induction x as [|c x IH]; intros t H.
  - exists EmptyString, t. auto.
  - destruct t as [|d t]; simpl in H; [discriminate |].
    injection H as Hc Ht. destruct (IH t Ht) as [t1 [t2 [-> [H1 H2]]]].
    exists (String d t1), t2. simpl. now rewrite Hc, H1.
Qed.

(** Searching a literal in the lowered text is the case-insensitive search
    of the literal in the text. *)
Lemma contains_lower_iff (lit text : string) :
  Text.contains lit (Text.lower text) = true <-> occurs_ignoring_case lit text.
Proof.
  rewrite contains_iff. split.
  - intros [a [b H]].
    destruct (lower_split _ _ _ H) as [p [r [-> [Hp Hr]]]].
    destruct (lower_split _ _ _ Hr) as [m [q [-> [Hm Hq]]]].
    now exists p, m, q.
  - intros [p [m [q [-> Hm]]]].
    exists (Text.lower p), (Text.lower q).
    now rewrite !lower_app, Hm.
Qed.

Lemma re_search_lower_iff (alternatives : list string) (text : string) :
  Text.re_search alternatives (Text.lower text) = true
  <-> matches_ignoring_case alternatives text.
Proof.
  unfold Text.re_search, matches_ignoring_case. rewrite existsb_exists.
  split; intros [lit [Hin H]]; exists lit; split; auto;
    now apply contains_lower_iff.
Qed.

Lemma re_search_lower_false (alternatives : list string) (text : string) :
  Text.re_search alternatives (Text.lower text) = false
  <-> ~ matches_ignoring_case alternatives text.
Proof.
  rewrite <- re_search_lower_iff.
  destruct (Text.re_search alternatives (Text.lower text)); split; intros;
    congruence.
Qed.

(* ===================================================================== *)
(** ** Text classifier: category and urgency *)
(* ===================================================================== *)

Section ClassifierProperties.
Context {E : Externals}.

(** C4. For every text, [categorize_feedback] returns one of the five
    categories, and which one is decided by the first case-insensitive
    search that succeeds, in the order bug, feature_request, ux_issue,
    positive_feedback, with other when none does; a text in which both
    "bug" and "love" occur is a bug. *)
Theorem categorize_feedback_priority (text : string) :
  let c := categorize_feedback (VStr text) in
  In c ["bug"; "feature_request"; "ux_issue"; "positive_feedback"; "other"] /\
  (c = "bug" <-> matches_ignoring_case bug_terms text) /\
  (c = "feature_request" <->
     ~ matches_ignoring_case bug_terms text /\
     matches_ignoring_case feature_terms text) /\
  (c = "ux_issue" <->
     ~ matches_ignoring_case bug_terms text /\
     ~ matches_ignoring_case feature_terms text /\
     matches_ignoring_case ux_terms text) /\
  (c = "positive_feedback" <->
     ~ matches_ignoring_case bug_terms text /\
     ~ matches_ignoring_case feature_terms text /\
     ~ matches_ignoring_case ux_terms text /\
     matches_ignoring_case praise_terms text) /\
  (c = "other" <->
     ~ matches_ignoring_case bug_terms text /\
     ~ matches_ignoring_case feature_terms text /\
     ~ matches_ignoring_case ux_terms text /\
     ~ matches_ignoring_case praise_terms text) /\
  (occurs_ignoring_case "bug" text -> occurs_ignoring_case "love" text ->
   c = "bug").
Proof.
  unfold categorize_feedback. simpl py_str.
  destruct (Text.re_search bug_terms (Text.lower text)) eqn:Hb;
  [| destruct (Text.re_search feature_terms (Text.lower text)) eqn:Hf;
   [| destruct (Text.re_search ux_terms (Text.lower text)) eqn:Hu;
    [| destruct (Text.re_search praise_terms (Text.lower text)) eqn:Hp]]];
  repeat match goal with
  | H : Text.re_search _ _ = true |- _ => apply re_search_lower_iff in H
  | H : Text.re_search _ _ = false |- _ => apply re_search_lower_false in H
  end;
  cbv zeta;
  repeat split; intros;
  try discriminate; try tauto;
  try (simpl; tauto).
  all: exfalso; apply Hb; exists "bug"; split; [simpl; tauto | assumption].
Qed.

Lemma eq_str_iff (x s : string) : eq_str (VStr x) s = true <-> x = s.
Proof. simpl. apply String.eqb_eq. Qed.

(** C5. For an item whose row holds the text, the sentiment and the
    category: urgency is high exactly when the category is bug and the text
    matches one of the urgent terms (searched in the lowered text) or the
    sentiment is negative; medium exactly when the category is bug or
    ux_issue, the sentiment is negative and high did not apply; low
    otherwise. So a negative bug is high whatever its text. *)
Theorem determine_urgency_rule (row : Row) (text sentiment category : string) :
  row_item row "text" = Ok (VStr text) ->
  row_item row "sentiment" = Ok (VStr sentiment) ->
  row_item row "category" = Ok (VStr category) ->
  let high_applies :=
    category = "bug" /\
    (matches_ignoring_case urgent_terms text \/ sentiment = "negative") in
  let medium_applies :=
    (category = "bug" \/ category = "ux_issue") /\ sentiment = "negative" /\
    ~ high_applies in
  exists u,
    determine_urgency row = Ok u /\
    In u ["high"; "medium"; "low"] /\
    (u = "high" <-> high_applies) /\
    (u = "medium" <-> medium_applies) /\
    (u = "low" <-> ~ high_applies /\ ~ medium_applies) /\
    (category = "bug" -> sentiment = "negative" -> u = "high").
Proof.
  intros Ht Hs Hc. unfold determine_urgency.
  rewrite Ht, Hs, Hc. cbn [rbind py_str]. unfold urgency_rule.
  destruct (eq_str (VStr category) "bug") eqn:Hbug;
  destruct (eq_str (VStr category) "ux_issue") eqn:Hux;
  destruct (eq_str (VStr sentiment) "negative") eqn:Hneg;
  destruct (Text.re_search urgent_terms (Text.lower text)) eqn:Hre;
  repeat match goal with
  | H : eq_str _ _ = true |- _ => apply eq_str_iff in H
  | H : eq_str (VStr ?x) ?s = false |- _ =>
      assert (x <> s) by (intros Hx; apply eq_str_iff in Hx; congruence);
      clear H
  | H : Text.re_search _ _ = true |- _ => apply re_search_lower_iff in H
  | H : Text.re_search _ _ = false |- _ => apply re_search_lower_false in H
  end;
  cbv zeta; simpl;
  eexists; (split; [reflexivity |]);
  repeat split; intros; subst;
  try discriminate; try congruence; try tauto.
Qed.

End ClassifierProperties.

(* ===================================================================== *)
(** ** Counting: distinct keys, group sizes *)
(* ===================================================================== *)

Lemma mem_iff (x : string) (l : list string) : Text.mem x l = true <-> In x l.
Proof.
  unfold Text.mem. rewrite existsb_exists. split.
  - intros [y [Hy Heq]]. apply String.eqb_eq in Heq. now subst.
  - intros H. exists x. split; [exact H | apply String.eqb_refl].
Qed.

Lemma in_distinct (x : string) (l : list string) : In x (distinct l) <-> In x l.
Proof.
  induction l as [|a l IH]; simpl; [tauto |].
  rewrite filter_In, IH, negb_true_iff, String.eqb_neq.
  destruct (string_dec a x); tauto.
Qed.

Lemma NoDup_distinct (l : list string) : NoDup (distinct l).
Proof.
  induction l as [|a l IH]; simpl; constructor.
  - rewrite filter_In, negb_true_iff, String.eqb_neq. tauto.
  - now apply NoDup_filter.
Qed.

Lemma insert_sorted_perm (x : string) (l : list string) :
  Permutation (insert_sorted x l) (x :: l).
Proof.
  induction l as [|y l IH]; simpl; [reflexivity |].
  destruct (String.leb x y); [reflexivity |].
  rewrite IH. apply perm_swap.
Qed.

Lemma sorted_unique_perm (keys : list string) :
  Permutation (sorted_unique keys) (distinct keys).
Proof.
  unfold sorted_unique. induction (distinct keys) as [|x l IH]; simpl.
  - reflexivity.
  - rewrite insert_sorted_perm. now constructor.
Qed.

Lemma in_sorted_unique (x : string) (keys : list string) :
  In x (sorted_unique keys) <-> In x keys.
Proof.
  rewrite <- (in_distinct x keys).
  split; apply Permutation_in; [| symmetry]; apply sorted_unique_perm.
Qed.

Lemma NoDup_sorted_unique (keys : list string) : NoDup (sorted_unique keys).
Proof.
  eapply Permutation_NoDup; [symmetry; apply sorted_unique_perm |].
  apply NoDup_distinct.
Qed.

Lemma count_of_cons (k x : string) (keys : list string) :
  count_of k (x :: keys) = (if String.eqb k x then 1 else 0) + count_of k keys.
Proof.
  unfold count_of. simpl. destruct (String.eqb k x); simpl List.length; lia.
Qed.

Lemma series_sum_cons (x : Z) (l : list Z) :
  series_sum (x :: l) = x + series_sum l.
Proof. reflexivity. Qed.

Lemma series_sum_indicator (x : string) (ks : list string) :
  NoDup ks -> In x ks ->
  series_sum (map (fun k => if String.eqb k x then 1 else 0) ks) = 1.
Proof.
  induction 1 as [|k ks Hk Hnd IH]; [intros [] |].
  cbn [map]. rewrite series_sum_cons. intros [-> | Hin].
  - rewrite String.eqb_refl.
    assert (Hz : series_sum (map (fun k => if String.eqb k x then 1 else 0) ks) = 0).
    { clear IH Hnd. induction ks as [|a ks IHk]; [reflexivity |].
      cbn [map]. rewrite series_sum_cons.
      destruct (String.eqb_spec a x) as [-> | _].
      - exfalso. apply Hk. now left.
      - rewrite IHk; [reflexivity |]. intros H. apply Hk. now right. }
    rewrite Hz. reflexivity.
  - destruct (String.eqb_spec k x) as [-> | _]; [contradiction |].
    now rewrite IH.
Qed.

Lemma series_sum_map_add {A : Type} (f g : A -> Z) (l : list A) :
  series_sum (map (fun a => f a + g a) l) = series_sum (map f l) + series_sum (map g l).
Proof.
  induction l as [|a l IH]; [reflexivity |].
  cbn [map]. rewrite !series_sum_cons. lia.
Qed.

(** Over a duplicate-free list of keys that covers [keys], the counts add up
    to the number of keys. *)
Lemma series_sum_counts (ks keys : list string) :
  NoDup ks -> (forall k, In k keys -> In k ks) ->
  series_sum (map (fun k => count_of k keys) ks) = Z.of_nat (List.length keys).
Proof.
  intros Hnd. induction keys as [|x keys IH]; intros Hcov.
  - clear. induction ks as [|k ks IHk]; [reflexivity |].
    cbn [map]. rewrite series_sum_cons, IHk. reflexivity.
  - rewrite (map_ext _ (fun k => (if String.eqb k x then 1 else 0) + count_of k keys))
      by (intros; apply count_of_cons).
    rewrite series_sum_map_add, series_sum_indicator, IH.
    + simpl List.length. lia.
    + intros k Hk. apply Hcov. now right.
    + exact Hnd.
    + apply Hcov. now left.
Qed.

(** The sizes of the groups add up to the number of grouped items. *)
Lemma group_sizes_total (keys : list string) :
  series_sum (map snd (group_sizes keys)) = Z.of_nat (List.length keys).
Proof.
  unfold group_sizes. rewrite map_map. simpl.
  apply series_sum_counts.
  - apply NoDup_sorted_unique.
  - intros k Hk. now apply in_sorted_unique.
Qed.

Lemma total_count_daily (days : list string) :
  total_count (daily_count days) = Z.of_nat (List.length days).
Proof.
  unfold total_count, daily_count. rewrite map_map. simpl.
  exact (group_sizes_total days).
Qed.

(* ===================================================================== *)
(** ** Cells, columns and assignments *)
(* ===================================================================== *)

Lemma cell_set_field_same (c : string) (v : Value) (r : Row) :
  cell c (set_field c v r) = v.
Proof.
  unfold cell. induction r as [|[k w] r IH]; simpl.
  - now rewrite String.eqb_refl.
  - destruct (String.eqb c k) eqn:Hck; simpl; rewrite Hck; [reflexivity | exact IH].
Qed.

Lemma cell_set_field_other (c c' : string) (v : Value) (r : Row) :
  c' <> c -> cell c' (set_field c v r) = cell c' r.
Proof.
  intros Hne. unfold cell. induction r as [|[k w] r IH]; simpl.
  - apply String.eqb_neq in Hne. now rewrite Hne.
  - destruct (String.eqb c k) eqn:Hck; simpl.
    + apply String.eqb_eq in Hck. subst k.
      apply String.eqb_neq in Hne. now rewrite Hne.
    + destruct (String.eqb c' k); [reflexivity | exact IH].
Qed.

Lemma columns_assign (c : string) (vals : list Value) (df : DataFrame) :
  columns (assign c vals df) = add_label c (columns df).
Proof. reflexivity. Qed.

Lemma mem_add_label (c c' : string) (cols : list string) :
  Text.mem c' (add_label c cols) = String.eqb c' c || Text.mem c' cols.
Proof.
  unfold add_label. destruct (Text.mem c cols) eqn:Hc.
  - destruct (String.eqb_spec c' c) as [-> | _]; [now rewrite Hc | reflexivity].
  - unfold Text.mem. rewrite existsb_app. simpl.
    rewrite orb_false_r. apply orb_comm.
Qed.

Lemma mem_columns_assign (c c' : string) (vals : list Value) (df : DataFrame) :
  Text.mem c' (columns (assign c vals df)) = String.eqb c' c || Text.mem c' (columns df).
Proof. apply mem_add_label. Qed.

Lemma add_label_nonempty (c : string) (cols : list string) : add_label c cols <> [].
Proof.
  unfold add_label. destruct (Text.mem c cols) eqn:Hc.
  - destruct cols; [discriminate | discriminate].
  - destruct cols; discriminate.
Qed.

Lemma length_records_assign (c : string) (vals : list Value) (df : DataFrame) :
  List.length vals = List.length (records df) ->
  List.length (records (assign c vals df)) = List.length (records df).
Proof.
  intros H. unfold assign. simpl.
  rewrite length_map, length_combine, H. apply Nat.min_id.
Qed.

Lemma length_column (c : string) (df : DataFrame) :
  List.length (column c df) = List.length (records df).
Proof. apply length_map. Qed.

Lemma column_assign_same (c : string) (vals : list Value) (df : DataFrame) :
  List.length vals = List.length (records df) ->
  column c (assign c vals df) = vals.
Proof.
  unfold column, assign. simpl. generalize (records df) as rows.
  induction vals as [|v vals IH]; intros [|r rows] H; simpl in *; try discriminate.
  - reflexivity.
  - rewrite cell_set_field_same. f_equal. apply IH. lia.
Qed.

Lemma column_assign_other (c c' : string) (vals : list Value) (df : DataFrame) :
  c' <> c ->
  List.length vals = List.length (records df) ->
  column c' (assign c vals df) = column c' df.
Proof.
  intros Hne. unfold column, assign. simpl. generalize (records df) as rows.
  induction vals as [|v vals IH]; intros [|r rows] H; simpl in *; try discriminate.
  - reflexivity.
  - rewrite cell_set_field_other by exact Hne. f_equal. apply IH. lia.
Qed.

Lemma records_assign_nonempty (c : string) (vals : list Value) (df : DataFrame) :
  List.length vals = List.length (records df) ->
  records df <> [] -> records (assign c vals df) <> [].
Proof.
  intros Hlen Hne Hnil.
  apply (f_equal (@List.length Row)) in Hnil.
  rewrite length_records_assign in Hnil by exact Hlen.
  destruct (records df); [now apply Hne | discriminate].
Qed.

Lemma df_empty_false (df : DataFrame) :
  columns df <> [] -> records df <> [] -> df_empty df = false.
Proof.
  unfold df_empty. destruct (columns df), (records df); intros; congruence.
Qed.

Lemma df_empty_records (df : DataFrame) : records df = [] -> df_empty df = true.
Proof. unfold df_empty. intros ->. now destruct (columns df). Qed.

Lemma mem_columns_nonempty (c : string) (df : DataFrame) :
  Text.mem c (columns df) = true -> columns df <> [].
Proof. intros H Hnil. rewrite Hnil in H. discriminate. Qed.

(* ===================================================================== *)
(** ** Steps of the frame computations *)
(* ===================================================================== *)

Lemma bind_ok {A B : Type} (m : M A) (k : A -> M B) (df df' : DataFrame) (a : A) :
  m df = (Ok a, df') -> bind m k df = k a df'.
Proof. unfold bind. now intros ->. Qed.

Lemma bind_raise {A B : Type} (m : M A) (k : A -> M B) (df df' : DataFrame) (e : exn) :
  m df = (Raise e, df') -> bind m k df = (Raise e, df').
Proof. unfold bind. now intros ->. Qed.

Lemma bind_ok_inv {A B : Type} (m : M A) (k : A -> M B) (df df2 : DataFrame) (b : B) :
  bind m k df = (Ok b, df2) ->
  exists a df1, m df = (Ok a, df1) /\ k a df1 = (Ok b, df2).
Proof.
  unfold bind. destruct (m df) as [[a | e] df1]; intros H.
  - now exists a, df1.
  - discriminate.
Qed.

Lemma try_except_ok {A : Type} (body : M A) (h : exn -> M A) (df df' : DataFrame) (a : A) :
  body df = (Ok a, df') -> try_except body h df = (Ok a, df').
Proof. unfold try_except. now intros ->. Qed.

Lemma get_col_ok (c : string) (df : DataFrame) :
  Text.mem c (columns df) = true -> get_col c df = (Ok (column c df), df).
Proof. unfold get_col. now intros ->. Qed.

Lemma set_col_ok (c : string) (vals : list Value) (df : DataFrame) :
  List.length vals = List.length (records df) ->
  set_col c vals df = (Ok tt, assign c vals df).
Proof. unfold set_col. intros ->. now rewrite Nat.eqb_refl. Qed.

Lemma apply_each_ok {A B : Type} (f : A -> res B) (g : A -> B) (l : list A) :
  (forall x, In x l -> f x = Ok (g x)) -> apply_each f l = Ok (map g l).
Proof.
  induction l as [|x l IH]; intros H; simpl; [reflexivity |].
  rewrite (H x) by now left. rewrite IH; [reflexivity |].
  intros y Hy. apply H. now right.
Qed.

(* ===================================================================== *)
(** ** The decide phase on an oriented frame *)
(* ===================================================================== *)

Ltac frame_len :=
  repeat first
    [ reflexivity
    | rewrite length_map
    | rewrite length_column
    | rewrite length_records_assign ].

Section Pipeline.
Context {E : Externals}.
Variable now : Timestamp.

Lemma ensure_datetime_ok (df : DataFrame) :
  Text.mem "timestamp" (columns df) = true ->
  is_datetime_col (column "timestamp" df) = true ->
  ensure_datetime now df = (Ok tt, df).
Proof.
  intros Hts Hdt. unfold ensure_datetime.
  rewrite (bind_ok _ _ _ _ _ (get_col_ok _ _ Hts)). now rewrite Hdt.
Qed.

Lemma assoc_row_view (c : string) (cols : list string) (r : Row) :
  Text.mem c cols = true ->
  assoc c (map (fun c => (c, cell c r)) cols) = Some (cell c r).
Proof.
  induction cols as [|k cols IH]; simpl; [discriminate |].
  destruct (String.eqb_spec c k) as [-> | Hne]; [reflexivity |].
  simpl. exact IH.
Qed.

Lemma row_item_view (c : string) (df : DataFrame) (r : Row) :
  Text.mem c (columns df) = true -> row_item (row_view df r) c = Ok (cell c r).
Proof.
  intros H. unfold row_item, row_view. now rewrite assoc_row_view.
Qed.

Lemma determine_urgency_view (df : DataFrame) (r : Row) :
  Text.mem "text" (columns df) = true ->
  Text.mem "sentiment" (columns df) = true ->
  Text.mem "category" (columns df) = true ->
  determine_urgency (row_view df r) = Ok (row_urgency r).
Proof.
  intros Ht Hs Hc. unfold determine_urgency.
  rewrite !row_item_view by assumption. reflexivity.
Qed.

Lemma apply_each_map_ok {A B C : Type} (f : B -> res C) (h : A -> B) (g : A -> C)
    (l : list A) :
  (forall x, In x l -> f (h x) = Ok (g x)) -> apply_each f (map h l) = Ok (map g l).
Proof.
  induction l as [|x l IH]; intros H; simpl; [reflexivity |].
  rewrite (H x) by now left. rewrite IH; [reflexivity |].
  intros y Hy. apply H. now right.
Qed.

Lemma df_apply_urgency (df : DataFrame) :
  Text.mem "text" (columns df) = true ->
  Text.mem "sentiment" (columns df) = true ->
  Text.mem "category" (columns df) = true ->
  df_apply determine_urgency df = (Ok (map row_urgency (records df)), df).
Proof.
  intros Ht Hs Hc. unfold df_apply. f_equal.
  apply apply_each_map_ok. intros r _. now apply determine_urgency_view.
Qed.

Lemma detect_trends_ok (df : DataFrame) :
  Text.mem "timestamp" (columns df) = true ->
  is_datetime_col (column "timestamp" df) = true ->
  records df <> [] ->
  Text.mem "sentiment" (columns df) = true ->
  Text.mem "category" (columns df) = true ->
  detect_trends now df = (Ok (trend_report (with_day df)), with_day df).
Proof.
  intros Hts Hdt Hne Hs Hc. unfold detect_trends.
  unfold has_column, is_empty. unfold bind at 1 2. rewrite Hts.
  rewrite df_empty_false by (eauto using mem_columns_nonempty).
  cbn [negb orb]. apply try_except_ok.
  rewrite (bind_ok _ _ _ _ _ (ensure_datetime_ok _ Hts Hdt)).
  rewrite (bind_ok _ _ _ _ _ (get_col_ok _ _ Hts)).
  erewrite bind_ok by (apply set_col_ok; frame_len).
  fold (with_day df).
  assert (Hlen : List.length (map (fun v => VStr (day_of v)) (column "timestamp" df))
                 = List.length (records df)) by frame_len.
  erewrite bind_ok by (apply get_col_ok; unfold with_day;
                       rewrite mem_columns_assign; reflexivity).
  erewrite bind_ok by (apply get_col_ok; unfold with_day;
                       rewrite mem_columns_assign, Hs; apply orb_true_r).
  erewrite bind_ok by (apply get_col_ok; unfold with_day;
                       rewrite mem_columns_assign, Hc; apply orb_true_r).
  reflexivity.
Qed.

Lemma negative_rows_ok (df : DataFrame) :
  Text.mem "sentiment" (columns df) = true ->
  negative_rows df = (Ok (negative_records df), df).
Proof. unfold negative_rows. now intros ->. Qed.

Lemma detect_anomalies_ok (df : DataFrame) :
  Text.mem "timestamp" (columns df) = true ->
  is_datetime_col (column "timestamp" df) = true ->
  records df <> [] ->
  Text.mem "sentiment" (columns df) = true ->
  detect_anomalies now df = (Ok (anomaly_report df), df).
Proof.
  intros Hts Hdt Hne Hs. unfold detect_anomalies.
  unfold has_column, is_empty. unfold bind at 1 2. rewrite Hts.
  rewrite df_empty_false by (eauto using mem_columns_nonempty).
  cbn [negb orb]. apply try_except_ok.
  rewrite (bind_ok _ _ _ _ _ (ensure_datetime_ok _ Hts Hdt)).
  rewrite (bind_ok _ _ _ _ _ (get_col_ok _ _ Hts)).
  unfold anomaly_report. cbv zeta.
  destruct (List.length (group_sizes (map day_of (column "timestamp" df))) <? 3)%nat;
    [reflexivity |].
  rewrite (bind_ok _ _ _ _ _ (negative_rows_ok _ Hs)). reflexivity.
Qed.

Lemma apply_each_iso_cell (col : list Value) :
  is_datetime_col col = true -> apply_each iso_cell col = Ok (map iso_value col).
Proof.
  intros H. apply apply_each_ok. intros v Hv.
  unfold is_datetime_col in H. rewrite forallb_forall in H.
  specialize (H v Hv). now destruct v.
Qed.

Lemma dataframe_to_serializable_ok (df : DataFrame) :
  Text.mem "timestamp" (columns df) = true ->
  is_datetime_col (column "timestamp" df) = true ->
  records df <> [] ->
  dataframe_to_serializable df = (Ok (serializable_records df), df).
Proof.
  intros Hts Hdt Hne. unfold dataframe_to_serializable.
  rewrite df_empty_false by (eauto using mem_columns_nonempty).
  rewrite Hts, (apply_each_iso_cell _ Hdt).
  rewrite set_col_ok by frame_len. reflexivity.
Qed.

Lemma serialize_item_counts (l : list (string * Z)) :
  serialize_item (map (fun dc => (fst dc, VInt (snd dc))) l)
  = map (fun dc => (fst dc, VInt (snd dc))) l.
Proof.
  unfold serialize_item. rewrite map_map. apply map_ext. now intros [d c].
Qed.

Lemma serialize_daily_count (days : list string) :
  serialize_daily (daily_count days) = daily_count days.
Proof.
  unfold daily_count. induction (group_sizes days) as [|[d c] l IH]; simpl.
  - reflexivity.
  - now rewrite IH.
Qed.

Lemma convert_pivot_counts (days labels : list string) :
  convert_timestamps_in_list (VList (pivot_counts days labels))
  = Ok (VList (pivot_counts days labels)).
Proof.
  unfold convert_timestamps_in_list, pivot_counts. simpl. do 2 f_equal.
  rewrite map_map. apply map_ext. intros d. f_equal.
  unfold serialize_item. simpl. f_equal.
  rewrite map_map. apply map_ext. reflexivity.
Qed.

Lemma make_time_trends_report (df : DataFrame) :
  make_time_trends_serializable (trend_report df) = Ok (trend_report df).
Proof.
  unfold make_time_trends_serializable, trend_report.
  cbn [truthy negb assoc].
  change (String.eqb "daily_count" "daily_count") with true.
  change (String.eqb "sentiment_trend" "daily_count") with false.
  change (String.eqb "sentiment_trend" "sentiment_trend") with true.
  change (String.eqb "category_trend" "daily_count") with false.
  change (String.eqb "category_trend" "sentiment_trend") with false.
  change (String.eqb "category_trend" "category_trend") with true.
  cbv iota. rewrite serialize_daily_count, !convert_pivot_counts.
  reflexivity.
Qed.

Lemma make_anomalies_report (df : DataFrame) :
  make_anomalies_serializable (anomaly_report df) = Ok (anomaly_report df).
Proof.
  unfold anomaly_report. cbv zeta.
  destruct (List.length (group_sizes (map day_of (column "timestamp" df))) <? 3)%nat;
    [reflexivity |].
  unfold make_anomalies_serializable, negative_anomalies_dict, anomalies_dict.
  cbn [truthy negb map fst snd].
  destruct (negative_records df) as [|r rs].
  - cbn [serialize_item map]. now rewrite serialize_item_counts.
  - now rewrite !serialize_item_counts.
Qed.

(** What the classification and day columns leave unchanged. *)
Lemma length_records_classified (df : DataFrame) :
  List.length (records (classified df)) = List.length (records df).
Proof. unfold classified, with_urgency, with_category, with_sentiment. frame_len. Qed.

Lemma records_classified_nonempty (df : DataFrame) :
  records df <> [] -> records (classified df) <> [].
Proof.
  intros Hne Hnil. apply (f_equal (@List.length Row)) in Hnil.
  rewrite length_records_classified in Hnil.
  destruct (records df); [now apply Hne | discriminate].
Qed.

Lemma mem_columns_classified (c : string) (df : DataFrame) :
  Text.mem c (columns (classified df))
  = String.eqb c "urgency" || (String.eqb c "category" ||
      (String.eqb c "sentiment" || Text.mem c (columns df))).
Proof.
  unfold classified, with_urgency, with_category, with_sentiment.
  now rewrite !mem_columns_assign.
Qed.

Lemma column_classified (c : string) (df : DataFrame) :
  c <> "sentiment" -> c <> "category" -> c <> "urgency" ->
  column c (classified df) = column c df.
Proof.
  intros Hs Hc Hu. unfold classified, with_urgency, with_category, with_sentiment.
  rewrite !column_assign_other by (assumption || frame_len). reflexivity.
Qed.

Lemma column_with_day (c : string) (df : DataFrame) :
  c <> "day" -> column c (with_day df) = column c df.
Proof.
  intros Hd. unfold with_day.
  rewrite column_assign_other by (assumption || frame_len). reflexivity.
Qed.

Lemma length_records_with_day (df : DataFrame) :
  List.length (records (with_day df)) = List.length (records df).
Proof. unfold with_day. frame_len. Qed.

Lemma mem_columns_with_day (c : string) (df : DataFrame) :
  Text.mem c (columns (with_day df)) = String.eqb c "day" || Text.mem c (columns df).
Proof. unfold with_day. apply mem_columns_assign. Qed.

Lemma nonempty_of_length {A B : Type} (l : list A) (l' : list B) :
  List.length l' = List.length l -> l <> [] -> l' <> [].
Proof. intros H Hne ->. destruct l; [now apply Hne | discriminate]. Qed.

(** On an oriented frame every step of [decide] succeeds, and the result is
    [analysis_of] the frame. *)
Lemma decide_oriented (df : DataFrame) :
  oriented df -> decide now df = Ok (analysis_of df).
Proof.
  intros (Ht & Hts & Hdt & Hne). unfold decide.
  rewrite df_empty_false by (eauto using mem_columns_nonempty).
  assert (Hbody : exists df', decide_body now df = (Ok (analysis_of df), df')).
  { unfold decide_body.
    rewrite (bind_ok _ _ _ _ _ (get_col_ok _ _ Ht)).
    erewrite bind_ok by (apply set_col_ok; frame_len).
    fold (with_sentiment df).
    erewrite bind_ok by (apply get_col_ok; unfold with_sentiment;
                         rewrite mem_columns_assign, Ht; apply orb_true_r).
    erewrite bind_ok by (apply set_col_ok; unfold with_sentiment; frame_len).
    fold (with_category (with_sentiment df)).
    erewrite bind_ok by
      (apply df_apply_urgency; unfold with_category, with_sentiment;
       rewrite !mem_columns_assign, ?Ht; reflexivity).
    erewrite bind_ok by
      (apply set_col_ok; unfold with_category, with_sentiment; frame_len).
    rewrite map_map. fold (with_urgency (with_category (with_sentiment df))).
    fold (classified df).
    assert (Ht3 : Text.mem "text" (columns (classified df)) = true)
      by (rewrite mem_columns_classified, Ht; reflexivity).
    assert (Hts3 : Text.mem "timestamp" (columns (classified df)) = true)
      by (rewrite mem_columns_classified, Hts; reflexivity).
    assert (Hs3 : Text.mem "sentiment" (columns (classified df)) = true)
      by (rewrite mem_columns_classified; reflexivity).
    assert (Hc3 : Text.mem "category" (columns (classified df)) = true)
      by (rewrite mem_columns_classified; reflexivity).
    assert (Hdt3 : is_datetime_col (column "timestamp" (classified df)) = true)
      by (rewrite column_classified by discriminate; exact Hdt).
    assert (Hne3 : records (classified df) <> [])
      by (now apply records_classified_nonempty).
    erewrite bind_ok by
      (apply try_except_ok; erewrite bind_ok by (apply get_col_ok; exact Ht3);
       reflexivity).
    erewrite bind_ok by
      (apply try_except_ok; apply detect_trends_ok; assumption).
    assert (Hts4 : Text.mem "timestamp" (columns (with_day (classified df))) = true)
      by (rewrite mem_columns_with_day, Hts3; reflexivity).
    assert (Hs4 : Text.mem "sentiment" (columns (with_day (classified df))) = true)
      by (rewrite mem_columns_with_day, Hs3; reflexivity).
    assert (Hc4 : Text.mem "category" (columns (with_day (classified df))) = true)
      by (rewrite mem_columns_with_day, Hc3; reflexivity).
    assert (Hdt4 : is_datetime_col (column "timestamp" (with_day (classified df))) = true)
      by (rewrite column_with_day by discriminate; exact Hdt3).
    assert (Hne4 : records (with_day (classified df)) <> [])
      by (eapply nonempty_of_length; [apply length_records_with_day | exact Hne3]).
    erewrite bind_ok by
      (apply try_except_ok; apply detect_anomalies_ok; assumption).
    erewrite bind_ok by (apply dataframe_to_serializable_ok; assumption).
    erewrite bind_ok by (apply get_col_ok; exact Hs4).
    erewrite bind_ok by (apply get_col_ok; exact Hc4).
    unfold lift, bind. rewrite make_time_trends_report, make_anomalies_report.
    eexists. reflexivity. }
  destruct Hbody as [df' ->]. reflexivity.
Qed.

End Pipeline.

(* ===================================================================== *)
(** ** The orient phase *)
(* ===================================================================== *)

Lemma mem_columns_assign_scalar (c c' : string) (v : Value) (df : DataFrame) :
  Text.mem c' (columns (assign_scalar c v df))
  = String.eqb c' c || Text.mem c' (columns df).
Proof. apply mem_add_label. Qed.

Lemma length_records_assign_scalar (c : string) (v : Value) (df : DataFrame) :
  List.length (records (assign_scalar c v df)) = List.length (records df).
Proof. apply length_map. Qed.

Lemma column_assign_scalar_same (c : string) (v : Value) (df : DataFrame) :
  column c (assign_scalar c v df) = map (fun _ => v) (records df).
Proof.
  unfold column, assign_scalar. simpl. rewrite map_map.
  apply map_ext. intros r. apply cell_set_field_same.
Qed.

Lemma column_assign_scalar_other (c c' : string) (v : Value) (df : DataFrame) :
  c' <> c -> column c' (assign_scalar c v df) = column c' df.
Proof.
  intros Hne. unfold column, assign_scalar. simpl. rewrite map_map.
  apply map_ext. intros r. now apply cell_set_field_other.
Qed.

Lemma mem_columns_with_default (c c' : string) (v : Value) (df : DataFrame) :
  Text.mem c' (columns (with_default c v df))
  = String.eqb c' c || Text.mem c' (columns df).
Proof.
  unfold with_default. destruct (Text.mem c (columns df)) eqn:Hc.
  - destruct (String.eqb_spec c' c) as [-> | _]; [now rewrite Hc | reflexivity].
  - apply mem_columns_assign_scalar.
Qed.

Lemma length_records_with_default (c : string) (v : Value) (df : DataFrame) :
  List.length (records (with_default c v df)) = List.length (records df).
Proof.
  unfold with_default. destruct (Text.mem c (columns df)); [reflexivity |].
  apply length_records_assign_scalar.
Qed.

Lemma column_with_default_other (c c' : string) (v : Value) (df : DataFrame) :
  c' <> c -> column c' (with_default c v df) = column c' df.
Proof.
  intros Hne. unfold with_default. destruct (Text.mem c (columns df)); [reflexivity |].
  now apply column_assign_scalar_other.
Qed.

Lemma with_default_present (c : string) (v : Value) (df : DataFrame) :
  Text.mem c (columns df) = true -> with_default c v df = df.
Proof. unfold with_default. now intros ->. Qed.

Lemma default_step {A : Type} (c : string) (v : Value) (k : M A) (df : DataFrame) :
  bind (has_column c)
       (fun present => bind (if present then ret tt else set_scalar c v) (fun _ => k)) df
  = k (with_default c v df).
Proof.
  unfold bind, has_column, with_default.
  destruct (Text.mem c (columns df)); reflexivity.
Qed.

Section Orient.
Context {E : Externals}.
Variable now : Timestamp.

Lemma convert_timestamps_guarded (df : DataFrame) :
  Text.mem "timestamp" (columns df) = true ->
  try_except (convert_timestamps now)
             (fun _ => set_scalar "timestamp" (VTime now)) df
  = (Ok tt, with_timestamps now df).
Proof.
  intros Hts. unfold try_except, convert_timestamps, with_timestamps.
  rewrite (bind_ok _ _ _ _ _ (get_col_ok _ _ Hts)).
  destruct (to_datetime_raises (column "timestamp" df)).
  - reflexivity.
  - erewrite bind_ok by (apply set_col_ok; frame_len).
    erewrite bind_ok by (apply get_col_ok; rewrite mem_columns_assign; reflexivity).
    rewrite set_col_ok; [reflexivity |].
    rewrite length_map, length_column. reflexivity.
Qed.

Lemma orient_body_ok (df : DataFrame) :
  orient_body now df = (Ok tt, oriented_frame now df).
Proof.
  unfold orient_body. rewrite !default_step.
  set (df3 := with_default "platform" _ _).
  assert (Ht : Text.mem "text" (columns df3) = true).
  { unfold df3. rewrite !mem_columns_with_default. reflexivity. }
  assert (Hts : Text.mem "timestamp" (columns df3) = true).
  { unfold df3. rewrite !mem_columns_with_default. reflexivity. }
  rewrite (bind_ok _ _ _ _ _ (get_col_ok _ _ Ht)).
  erewrite bind_ok by (apply set_col_ok; frame_len).
  fold (with_text_as_str df3).
  apply convert_timestamps_guarded.
  unfold with_text_as_str. rewrite mem_columns_assign, Hts. reflexivity.
Qed.

(** [orient] never raises: it yields the empty frame or the oriented one. *)
Lemma orient_cases (data : Value) :
  orient now data =
  Ok (if negb (truthy data) then empty_frame
      else match pd_DataFrame data with
           | Raise _ => empty_frame
           | Ok df => oriented_frame now df
           end).
Proof.
  unfold orient. destruct (negb (truthy data)); [reflexivity |].
  destruct (pd_DataFrame data) as [df | e]; [| reflexivity].
  now rewrite orient_body_ok.
Qed.

Lemma length_records_oriented_frame (df : DataFrame) :
  List.length (records (oriented_frame now df)) = List.length (records df).
Proof.
  unfold oriented_frame, with_timestamps, with_text_as_str.
  destruct (to_datetime_raises _).
  - rewrite length_records_assign_scalar. frame_len.
    now rewrite !length_records_with_default.
  - frame_len. now rewrite !length_records_with_default.
Qed.

Lemma mem_columns_with_timestamps (c : string) (df : DataFrame) :
  Text.mem c (columns (with_timestamps now df))
  = String.eqb c "timestamp" || Text.mem c (columns df).
Proof.
  unfold with_timestamps. destruct (to_datetime_raises _).
  - apply mem_columns_assign_scalar.
  - rewrite !mem_columns_assign. now destruct (String.eqb c "timestamp").
Qed.

Lemma is_time_fillna (v : Value) : is_time (fillna (VTime now) (coerce_datetime v)) = true.
Proof. unfold coerce_datetime. now destruct (to_datetime v). Qed.

Lemma datetime_with_timestamps (df : DataFrame) :
  is_datetime_col (column "timestamp" (with_timestamps now df)) = true.
Proof.
  unfold with_timestamps, is_datetime_col. destruct (to_datetime_raises _).
  - rewrite column_assign_scalar_same. apply forallb_forall.
    intros v Hv. apply in_map_iff in Hv. now destruct Hv as [r [<- _]].
  - rewrite column_assign_same by frame_len.
    rewrite column_assign_same by frame_len.
    apply forallb_forall. intros v Hv.
    apply in_map_iff in Hv. destruct Hv as [w [<- Hw]].
    apply in_map_iff in Hw. destruct Hw as [u [<- _]].
    apply is_time_fillna.
Qed.

Lemma oriented_frame_oriented (df : DataFrame) :
  records df <> [] -> oriented (oriented_frame now df).
Proof.
  intros Hne. unfold oriented. repeat split.
  - unfold oriented_frame, with_text_as_str.
    rewrite mem_columns_with_timestamps, mem_columns_assign. reflexivity.
  - unfold oriented_frame. rewrite mem_columns_with_timestamps. reflexivity.
  - apply datetime_with_timestamps.
  - eapply nonempty_of_length; [apply length_records_oriented_frame | exact Hne].
Qed.

End Orient.

(* ===================================================================== *)
(** ** The analysis of a batch *)
(* ===================================================================== *)

Section Analyze.
Context {E : Externals}.

Lemma decide_empty (now : Timestamp) (df : DataFrame) :
  records df = [] -> decide now df = Ok create_empty_analysis_result.
Proof. intros H. unfold decide. now rewrite df_empty_records. Qed.

(** The three ways of [analyze]: the canonical empty result for a batch that
    is empty, that pandas rejects or that gives no record, the analysis of
    the oriented frame otherwise. *)
Lemma analyze_cases (now : Timestamp) (batch : Value) :
  analyze now batch =
  Ok (if negb (truthy batch) then create_empty_analysis_result
      else match pd_DataFrame batch with
           | Raise _ => create_empty_analysis_result
           | Ok df =>
               match records df with
               | [] => create_empty_analysis_result
               | _ :: _ => analysis_of (oriented_frame now df)
               end
           end).
Proof.
  unfold analyze. rewrite orient_cases. cbn [rbind].
  destruct (negb (truthy batch)).
  - rewrite decide_empty by reflexivity. reflexivity.
  - destruct (pd_DataFrame batch) as [df | e].
    + destruct (records df) as [|r rs] eqn:Hrec.
      * rewrite decide_empty; [reflexivity |].
        apply length_zero_iff_nil.
        now rewrite length_records_oriented_frame, Hrec.
      * rewrite decide_oriented; [reflexivity |].
        apply oriented_frame_oriented. now rewrite Hrec.
    + rewrite decide_empty by reflexivity. reflexivity.
Qed.

Lemma as_records_length (items : list Value) (rows : list Row) :
  as_records items = Some rows -> List.length rows = List.length items.
Proof.
  revert rows. induction items as [|v items IH]; intros rows H; simpl in H.
  - now injection H as <-.
  - destruct v; try discriminate.
    destruct (as_records items) as [rs |]; [| discriminate].
    injection H as <-. simpl. f_equal. now apply IH.
Qed.

(** A non-empty batch of dictionaries is analysed through its oriented
    frame. *)
Lemma analyze_records (now : Timestamp) (items : list Value) (rows : list Row) :
  as_records items = Some rows -> items <> [] ->
  analyze now (VList items)
  = Ok (analysis_of (oriented_frame now (from_records rows))).
Proof.
  intros Hrec Hne. rewrite analyze_cases.
  destruct items as [|v items]; [congruence |].
  cbn [truthy negb pd_DataFrame]. rewrite Hrec.
  pose proof (as_records_length _ _ Hrec) as Hlen.
  unfold from_records at 1. cbn [records].
  destruct rows; [discriminate | reflexivity].
Qed.

Lemma length_records_analysed (now : Timestamp) (df : DataFrame) :
  List.length (records (with_day (classified (oriented_frame now df))))
  = List.length (records df).
Proof.
  now rewrite length_records_with_day, length_records_classified,
    length_records_oriented_frame.
Qed.

(** C7. For every non-empty batch of items, the analysis succeeds with a
    trend mapping, and the counts of the rows of its [daily_count] add up to
    the number of items in the batch. *)
Theorem daily_count_total (now : Timestamp) (items : list Value) (rows : list Row) :
  as_records items = Some rows -> items <> [] ->
  exists result trends daily,
    analyze now (VList items) = Ok result /\
    field "time_trends" result = Some trends /\
    field "daily_count" trends = Some (VList daily) /\
    total_count daily = Z.of_nat (List.length items).
Proof.
  intros Hrec Hne. rewrite (analyze_records _ _ _ Hrec Hne).
  eexists. eexists. eexists. repeat split.
  rewrite total_count_daily, length_map, length_column, length_records_analysed.
  cbn [from_records records]. f_equal. now apply as_records_length.
Qed.

End Analyze.

(* ===================================================================== *)
(** ** The day column in the serialised records *)
(* ===================================================================== *)

Lemma records_assign_map (c : string) (f : Row -> Value) (df : DataFrame) :
  records (assign c (map f (records df)) df)
  = map (fun r => set_field c (f r) r) (records df).
Proof.
  unfold assign. cbn [records].
  induction (records df) as [|r rows IH]; simpl; [reflexivity | now rewrite IH].
Qed.

Lemma records_assign_column (c c0 : string) (g : Value -> Value) (df : DataFrame) :
  records (assign c (map g (column c0 df)) df)
  = map (fun r => set_field c (g (cell c0 r)) r) (records df).
Proof.
  unfold column. rewrite map_map. apply (records_assign_map c (fun r => g (cell c0 r))).
Qed.

Lemma records_with_day (df : DataFrame) :
  records (with_day df)
  = map (fun r => set_field "day" (VStr (day_of (cell "timestamp" r))) r) (records df).
Proof.
  unfold with_day.
  apply (records_assign_column "day" "timestamp" (fun v => VStr (day_of v)) df).
Qed.

Lemma field_record (k : string) (cols : list string) (r : Row) :
  Text.mem k cols = true ->
  field k (VDict (map (fun c => (c, cell c r)) cols)) = Some (cell k r).
Proof. intros H. unfold field. now apply assoc_row_view. Qed.

Section DayColumn.
Context {E : Externals}.

Lemma mem_columns_oriented_frame (now : Timestamp) (c : string) (df : DataFrame) :
  In c ["text"; "timestamp"; "platform"] ->
  Text.mem c (columns (oriented_frame now df)) = true.
Proof.
  intros Hc. unfold oriented_frame, with_text_as_str.
  rewrite mem_columns_with_timestamps, mem_columns_assign,
    !mem_columns_with_default.
  simpl in Hc. destruct Hc as [<- | [<- | [<- | []]]]; reflexivity.
Qed.

Lemma serializable_records_carry_day (df : DataFrame) :
  oriented df -> Text.mem "platform" (columns df) = true ->
  exists recs,
    serializable_records (with_day (classified df)) = VList recs /\
    List.length recs = List.length (records df) /\
    Forall carries_day recs.
Proof.
  intros (Ht & Hts & Hdt & Hne) Hp. eexists. split; [reflexivity |]. split.
  - unfold to_dict_records. rewrite length_map.
    rewrite length_records_assign by frame_len.
    now rewrite length_records_with_day, length_records_classified.
  - unfold to_dict_records. apply Forall_map.
    rewrite (records_assign_column "timestamp" "timestamp" iso_value
               (with_day (classified df))).
    apply Forall_map. rewrite records_with_day. apply Forall_map.
    assert (Hall : Forall (fun r => is_time (cell "timestamp" r) = true)
                          (records (classified df))).
    { assert (Hdt3 : is_datetime_col (column "timestamp" (classified df)) = true)
        by (rewrite column_classified by discriminate; exact Hdt).
      unfold is_datetime_col, column in Hdt3. rewrite forallb_forall in Hdt3.
      apply Forall_forall. intros r Hr. apply Hdt3. now apply in_map. }
    apply (Forall_impl _ (P := fun r => is_time (cell "timestamp" r) = true));
      [| exact Hall].
    intros r Hr. destruct (cell "timestamp" r) as [| | | | | t | |] eqn:Hcell;
      try discriminate.
    set (cols := columns _).
    assert (Hcols : forall k, In k ["text"; "timestamp"; "platform"; "sentiment";
                                    "category"; "urgency"; "day"] ->
                              Text.mem k cols = true).
    { intros k Hk. unfold cols.
      rewrite mem_columns_assign, mem_columns_with_day, mem_columns_classified.
      simpl in Hk.
      repeat (destruct Hk as [<- | Hk];
              [rewrite ?Ht, ?Hts, ?Hp; reflexivity |]).
      destruct Hk. }
    exists t. repeat split.
    + rewrite field_record by (apply Hcols; simpl; tauto).
      rewrite cell_set_field_same, cell_set_field_other by discriminate.
      now rewrite Hcell.
    + rewrite field_record by (apply Hcols; simpl; tauto).
      rewrite cell_set_field_other by discriminate.
      now rewrite cell_set_field_same.
    + repeat constructor;
        rewrite field_record by (apply Hcols; simpl; tauto); discriminate.
Qed.

(** C9. [detect_trends] leaves the frame it was given with a [day] column
    (the day of each timestamp as text), and as [decide] serialises that
    same frame afterwards, every record of [feedback_data] of a non-empty
    batch carries the [day] entry besides text, timestamp, platform,
    sentiment, category and urgency. *)
Theorem feedback_data_carries_day (now : Timestamp) (items : list Value) (rows : list Row) :
  as_records items = Some rows -> items <> [] ->
  let df := classified (oriented_frame now (from_records rows)) in
  (snd (detect_trends now df) = with_day df /\
   Text.mem "day" (columns (with_day df)) = true /\
   column "day" (with_day df) = map (fun v => VStr (day_of v)) (column "timestamp" df)) /\
  exists result recs,
    analyze now (VList items) = Ok result /\
    field "feedback_data" result = Some (VList recs) /\
    List.length recs = List.length items /\
    Forall carries_day recs.
Proof.
  intros Hrec Hne df.
  assert (Hrows : records (from_records rows) <> []).
  { cbn [from_records records]. intros ->.
    apply as_records_length in Hrec. destruct items; [congruence | discriminate]. }
  pose proof (oriented_frame_oriented now _ Hrows) as Hor.
  assert (Hp : Text.mem "platform"
                 (columns (oriented_frame now (from_records rows))) = true)
    by (apply mem_columns_oriented_frame; simpl; tauto).
  split.
  - destruct Hor as (Ht & Hts & Hdt & Hne0). repeat split.
    + unfold df. rewrite detect_trends_ok; [reflexivity | | | | |].
      * rewrite mem_columns_classified, Hts. reflexivity.
      * rewrite column_classified by discriminate. exact Hdt.
      * now apply records_classified_nonempty.
      * rewrite mem_columns_classified. reflexivity.
      * rewrite mem_columns_classified. reflexivity.
    + rewrite mem_columns_with_day. reflexivity.
    + unfold with_day. apply column_assign_same. frame_len.
  - destruct (serializable_records_carry_day _ Hor Hp) as (recs & Hser & Hlen & Hall).
    exists (analysis_of (oriented_frame now (from_records rows))), recs.
    split; [now apply analyze_records |]. split; [| split].
    + unfold analysis_of, field. cbn [assoc]. rewrite String.eqb_refl.
      f_equal. exact Hser.
    + rewrite Hlen, length_records_oriented_frame. cbn [from_records records].
      now apply as_records_length.
    + exact Hall.
Qed.

End DayColumn.

(* ===================================================================== *)
(** ** Independence from the clock *)
(* ===================================================================== *)

Lemma assoc_in_keys {A : Type} (k : string) (d : list (string * A)) (v : A) :
  assoc k d = Some v -> In k (map fst d).
Proof.
  induction d as [|[k' w] d IH]; simpl; [discriminate |].
  destruct (String.eqb_spec k k') as [-> | _]; [now left | right; now apply IH].
Qed.

Section Clock.
Context {E : Externals}.

Lemma fillna_coerced (fill : Value) (col : list Value) :
  all_parse col ->
  map (fillna fill) (map coerce_datetime col) = map coerce_datetime col.
Proof.
  induction 1 as [|v col Hv _ IH]; simpl; [reflexivity |].
  rewrite IH. f_equal. unfold coerce_datetime.
  destruct (to_datetime v); [reflexivity | contradiction].
Qed.

Lemma with_timestamps_clock (now1 now2 : Timestamp) (df : DataFrame) :
  to_datetime_raises (column "timestamp" df) = false ->
  all_parse (column "timestamp" df) ->
  with_timestamps now1 df = with_timestamps now2 df.
Proof.
  intros Hr Hp. unfold with_timestamps. rewrite Hr.
  rewrite column_assign_same by frame_len.
  now rewrite !fillna_coerced.
Qed.

Lemma oriented_frame_clock (now1 now2 : Timestamp) (df : DataFrame) :
  Text.mem "timestamp" (columns df) = true ->
  to_datetime_raises (column "timestamp" df) = false ->
  all_parse (column "timestamp" df) ->
  oriented_frame now1 df = oriented_frame now2 df.
Proof.
  intros Hts Hr Hp. unfold oriented_frame.
  rewrite !(with_default_present "timestamp")
    by (rewrite mem_columns_with_default, Hts; apply orb_true_r).
  set (d := with_text_as_str _).
  assert (Hcol : column "timestamp" d = column "timestamp" df).
  { unfold d, with_text_as_str.
    rewrite column_assign_other by (discriminate || frame_len).
    now rewrite !column_with_default_other by discriminate. }
  apply with_timestamps_clock; now rewrite Hcol.
Qed.

Lemma mem_columns_from_records (k : string) (row : Row) (rows : list Row) (v : Value) :
  assoc k row = Some v ->
  Text.mem k (columns (from_records (row :: rows))) = true.
Proof.
  intros H. apply mem_iff. cbn [from_records columns]. apply in_distinct.
  cbn [flat_map]. apply in_or_app. left. eapply assoc_in_keys. exact H.
Qed.

(** C8. Two runs of the analysis on the same batch, at two readings of the
    clock, give the same result (hence the same serialised output) when
    every item of the batch has a timestamp that parses. *)
Theorem analyze_repeatable (now1 now2 : Timestamp) (items : list Value) (rows : list Row) :
  as_records items = Some rows ->
  Forall (fun row => exists v t, assoc "timestamp" row = Some v /\ to_datetime v = Some t)
         rows ->
  to_datetime_raises (map (cell "timestamp") rows) = false ->
  analyze now1 (VList items) = analyze now2 (VList items).
Proof.
  intros Hrec Hall Hr.
  destruct items as [|item items].
  - reflexivity.
  - rewrite !(analyze_records _ _ _ Hrec) by discriminate.
    do 2 f_equal.
    destruct rows as [|row rows];
      [apply as_records_length in Hrec; discriminate |].
    apply oriented_frame_clock.
    + inversion Hall as [| ? ? (v & t & Hv & _) _]; subst.
      eapply mem_columns_from_records. exact Hv.
    + exact Hr.
    + unfold all_parse, column. cbn [from_records records].
      apply Forall_map. eapply Forall_impl; [| exact Hall].
      intros r (v & t & Hv & Ht). unfold cell. rewrite Hv. congruence.
Qed.

End Clock.

(* ===================================================================== *)
(** ** The shape of the result; errors never escape *)
(* ===================================================================== *)

Lemma forallb_map_true {A B : Type} (p : B -> bool) (f : A -> B) (l : list A) :
  (forall x, p (f x) = true) -> forallb p (map f l) = true.
Proof.
  intros H. apply forallb_forall. intros y Hy.
  apply in_map_iff in Hy. destruct Hy as [x [<- _]]. apply H.
Qed.

Lemma result_shape_intro (trends_ok anomalies_ok : Value -> bool)
    (fb ss ti kw tt an : Value) :
  list_of is_dict fb = true -> dict_of is_int ss = true -> dict_of is_int ti = true ->
  list_of is_str kw = true -> trends_ok tt = true -> anomalies_ok an = true ->
  result_shape trends_ok anomalies_ok
    (VDict [("feedback_data", fb); ("sentiment_summary", ss); ("top_issues", ti);
            ("trend_keywords", kw); ("time_trends", tt); ("anomalies", an)]) = true.
Proof.
  intros Hfb Hss Hti Hkw Htt Han. unfold result_shape, checks.
  cbn. now rewrite Hfb, Hss, Hti, Hkw, Htt, Han.
Qed.

Lemma value_counts_shape (labels : list string) :
  dict_of is_int (value_counts labels) = true.
Proof. unfold value_counts. cbn [dict_of]. now apply forallb_map_true. Qed.

Lemma anomalies_dict_shape (l : list (string * Z)) :
  dict_of is_int (anomalies_dict l) = true.
Proof. unfold anomalies_dict. cbn [dict_of]. now apply forallb_map_true. Qed.

Lemma negative_anomalies_dict_shape (rows : list Row) :
  dict_of is_int (negative_anomalies_dict rows) = true.
Proof.
  unfold negative_anomalies_dict. destruct rows; [reflexivity |].
  apply anomalies_dict_shape.
Qed.

Lemma daily_count_shape (days : list string) :
  forallb is_dict (daily_count days) = true.
Proof. unfold daily_count. now apply forallb_map_true. Qed.

Lemma pivot_counts_shape (days labels : list string) :
  forallb is_dict (pivot_counts days labels) = true.
Proof. unfold pivot_counts. now apply forallb_map_true. Qed.

(** *** The decide phase on any frame *)

Lemma ret_inv {A : Type} (a b : A) (df df' : DataFrame) :
  ret a df = (Ok b, df') -> a = b.
Proof. unfold ret. now intros [= ->]. Qed.

Lemma make_time_trends_tables (days1 days2 days3 ls cs : list string) :
  make_time_trends_serializable
    (VDict [("daily_count", VList (daily_count days1));
            ("sentiment_trend", VList (pivot_counts days2 ls));
            ("category_trend", VList (pivot_counts days3 cs))])
  = Ok (VDict [("daily_count", VList (daily_count days1));
               ("sentiment_trend", VList (pivot_counts days2 ls));
               ("category_trend", VList (pivot_counts days3 cs))]).
Proof.
  unfold make_time_trends_serializable.
  cbn [truthy negb assoc].
  change (String.eqb "daily_count" "daily_count") with true.
  change (String.eqb "sentiment_trend" "daily_count") with false.
  change (String.eqb "sentiment_trend" "sentiment_trend") with true.
  change (String.eqb "category_trend" "daily_count") with false.
  change (String.eqb "category_trend" "sentiment_trend") with false.
  change (String.eqb "category_trend" "category_trend") with true.
  cbv iota. rewrite serialize_daily_count, !convert_pivot_counts.
  reflexivity.
Qed.

Lemma make_anomalies_maps (spikes : list (string * Z)) (negative_df : list Row) :
  make_anomalies_serializable
    (VDict [("volume_anomalies", anomalies_dict spikes);
            ("negative_sentiment_anomalies", negative_anomalies_dict negative_df)])
  = Ok (VDict [("volume_anomalies", anomalies_dict spikes);
               ("negative_sentiment_anomalies", negative_anomalies_dict negative_df)]).
Proof.
  unfold make_anomalies_serializable, negative_anomalies_dict, anomalies_dict.
  cbn [truthy negb map fst snd].
  destruct negative_df as [|r rs].
  - cbn [serialize_item map]. now rewrite serialize_item_counts.
  - now rewrite !serialize_item_counts.
Qed.

Section AnyFrame.
Context {E : Externals}.
Variable now : Timestamp.

Lemma detect_trends_outcome (df df' : DataFrame) (v : Value) :
  try_except (detect_trends now) (fun _ => ret (VList [])) df = (Ok v, df') ->
  trends_outcome v.
Proof.
  unfold try_except, detect_trends, has_column, is_empty.
  unfold bind at 1 2.
  destruct (negb (Text.mem "timestamp" (columns df)) || df_empty df).
  - intros H. apply ret_inv in H. now left.
  - unfold try_except.
    match goal with
    | |- context [match ?body df with _ => _ end] => destruct (body df) as [[w | e] df1] eqn:Hbody
    end.
    + intros [= <- <-].
      repeat (apply bind_ok_inv in Hbody; destruct Hbody as (? & ? & ? & Hbody)).
      apply ret_inv in Hbody. right. eexists. eexists. eexists. symmetry. exact Hbody.
    + intros H. apply ret_inv in H. now left.
Qed.

Lemma detect_anomalies_outcome (df df' : DataFrame) (v : Value) :
  try_except (detect_anomalies now) (fun _ => ret (VDict [])) df = (Ok v, df') ->
  anomalies_outcome v.
Proof.
  unfold try_except, detect_anomalies, has_column, is_empty.
  unfold bind at 1 2.
  destruct (negb (Text.mem "timestamp" (columns df)) || df_empty df).
  - intros H. apply ret_inv in H. now left.
  - unfold try_except.
    match goal with
    | |- context [match ?body df with _ => _ end] => destruct (body df) as [[w | e] df1] eqn:Hbody
    end.
    + intros [= <- <-].
      apply bind_ok_inv in Hbody. destruct Hbody as (? & ? & ? & Hbody).
      apply bind_ok_inv in Hbody. destruct Hbody as (ts & ? & ? & Hbody).
      cbv zeta in Hbody.
      destruct (List.length (group_sizes (map day_of ts)) <? 3)%nat.
      * apply ret_inv in Hbody. now left.
      * apply bind_ok_inv in Hbody. destruct Hbody as (nd & ? & ? & Hbody).
        apply ret_inv in Hbody. right. eexists. eexists. symmetry. exact Hbody.
    + intros H. apply ret_inv in H. now left.
Qed.

Lemma dataframe_to_serializable_shape (df df' : DataFrame) (v : Value) :
  dataframe_to_serializable df = (Ok v, df') -> list_of is_dict v = true.
Proof.
  unfold dataframe_to_serializable. destruct (df_empty df).
  - now intros [= <- _].
  - destruct (Text.mem "timestamp" (columns df)).
    + destruct (apply_each iso_cell (column "timestamp" df)) as [stamps | e];
        [| discriminate].
      destruct (set_col "timestamp" stamps df) as [[u | e] df1]; [| discriminate].
      intros [= <- _]. cbn [list_of]. unfold to_dict_records.
      now apply forallb_map_true.
    + intros [= <- _]. cbn [list_of]. unfold to_dict_records.
      now apply forallb_map_true.
Qed.

Lemma trends_outcome_serializable (v w : Value) :
  trends_outcome v -> make_time_trends_serializable v = Ok w ->
  is_empty_list w || is_time_trends w = true.
Proof.
  intros [-> | (days & ls & cs & ->)].
  - now intros [= <-].
  - rewrite make_time_trends_tables. intros [= <-].
    unfold is_time_trends. cbn.
    now rewrite daily_count_shape, !pivot_counts_shape.
Qed.

Lemma anomalies_outcome_serializable (v w : Value) :
  anomalies_outcome v -> make_anomalies_serializable v = Ok w ->
  is_empty_dict w || is_anomalies w = true.
Proof.
  intros [-> | (spikes & nd & ->)].
  - now intros [= <-].
  - rewrite make_anomalies_maps. intros [= <-].
    unfold is_anomalies. cbn.
    change (forallb (fun kv => is_int (snd kv))
              (map (fun dc => (fst dc, VInt (snd dc))) spikes))
      with (dict_of is_int (anomalies_dict spikes)).
    rewrite anomalies_dict_shape.
    change (match negative_anomalies_dict nd with
            | VDict d => forallb (fun kv => is_int (snd kv)) d
            | _ => false
            end)
      with (dict_of is_int (negative_anomalies_dict nd)).
    now rewrite negative_anomalies_dict_shape.
Qed.

Lemma lift_inv {A : Type} (r : res A) (a : A) (df df' : DataFrame) :
  lift r df = (Ok a, df') -> r = Ok a.
Proof. unfold lift. now intros [= ->]. Qed.

(** Whatever the frame, a result of the body of [decide] has the shape of a
    possibly degraded AnalysisResult. *)
Lemma decide_body_shape (df df' : DataFrame) (r : Value) :
  decide_body now df = (Ok r, df') -> matches_degraded_AnalysisResult r = true.
Proof.
  unfold decide_body. intros H.
  do 6 (apply bind_ok_inv in H; destruct H as (? & ? & _ & H)).
  apply bind_ok_inv in H. destruct H as (kw & ? & _ & H).
  apply bind_ok_inv in H. destruct H as (tt & ? & Htt & H).
  apply bind_ok_inv in H. destruct H as (an & ? & Han & H).
  apply bind_ok_inv in H. destruct H as (fb & ? & Hfb & H).
  apply bind_ok_inv in H. destruct H as (ss & ? & _ & H).
  apply bind_ok_inv in H. destruct H as (cs & ? & _ & H).
  apply bind_ok_inv in H. destruct H as (tt' & ? & Htt' & H).
  apply bind_ok_inv in H. destruct H as (an' & ? & Han' & H).
  apply ret_inv in H. subst r.
  apply lift_inv in Htt', Han'.
  apply result_shape_intro.
  - eapply dataframe_to_serializable_shape. exact Hfb.
  - apply value_counts_shape.
  - apply value_counts_shape.
  - cbn [list_of]. now apply forallb_map_true.
  - eapply trends_outcome_serializable; [| exact Htt'].
    eapply detect_trends_outcome. exact Htt.
  - eapply anomalies_outcome_serializable; [| exact Han'].
    eapply detect_anomalies_outcome. exact Han.
Qed.

Lemma decide_shape (df : DataFrame) :
  exists r, decide now df = Ok r /\ matches_degraded_AnalysisResult r = true.
Proof.
  unfold decide. destruct (df_empty df); [now eexists |].
  destruct (decide_body now df) as [[r | e] df'] eqn:Hbody.
  - exists r. split; [reflexivity |]. eapply decide_body_shape. exact Hbody.
  - now eexists.
Qed.

End AnyFrame.

Section Shape.
Context {E : Externals}.

Lemma trend_report_shape (df : DataFrame) : is_time_trends (trend_report df) = true.
Proof.
  unfold is_time_trends, trend_report. cbn.
  now rewrite daily_count_shape, !pivot_counts_shape.
Qed.

Lemma anomaly_report_shape (df : DataFrame) :
  is_empty_dict (anomaly_report df) || is_anomalies (anomaly_report df) = true.
Proof.
  unfold anomaly_report. cbv zeta.
  destruct (List.length _ <? 3)%nat; [reflexivity |].
  unfold is_anomalies. cbn.
  change (forallb (fun kv => is_int (snd kv))
            (map (fun dc => (fst dc, VInt (snd dc))) ?l))
    with (dict_of is_int (anomalies_dict l)).
  rewrite anomalies_dict_shape.
  change (match negative_anomalies_dict ?r with VDict d => forallb (fun kv => is_int (snd kv)) d | _ => false end)
    with (dict_of is_int (negative_anomalies_dict r)).
  now rewrite negative_anomalies_dict_shape.
Qed.

Lemma analysis_of_shape (df : DataFrame) :
  matches_degraded_AnalysisResult (analysis_of df) = true.
Proof.
  unfold matches_degraded_AnalysisResult, analysis_of.
  apply result_shape_intro.
  - unfold serializable_records, to_dict_records. cbn [list_of].
    now apply forallb_map_true.
  - apply value_counts_shape.
  - apply value_counts_shape.
  - cbn [list_of]. now apply forallb_map_true.
  - rewrite trend_report_shape. apply orb_true_r.
  - apply anomaly_report_shape.
Qed.

Lemma analyze_shape (now : Timestamp) (batch : Value) :
  exists r, analyze now batch = Ok r /\ matches_degraded_AnalysisResult r = true.
Proof.
  rewrite analyze_cases. eexists. split; [reflexivity |].
  destruct (negb (truthy batch)); [reflexivity |].
  destruct (pd_DataFrame batch) as [df | e]; [| reflexivity].
  destruct (records df); [reflexivity | apply analysis_of_shape].
Qed.

Lemma run_body_observed (now : Timestamp) (input batch : Value) :
  truthy input = true -> observe input = Ok batch ->
  run_body now input =
  rbind (analyze now batch)
        (fun r => Ok (VDict [("status", VStr "success"); ("data", r)])).
Proof.
  intros Ht Ho. unfold run_body, analyze. rewrite Ht, Ho. cbn [negb rbind].
  destruct (orient now batch) as [df | e]; [| reflexivity]. cbn [rbind].
  destruct (decide now df) as [r | e]; reflexivity.
Qed.

(** C1, as the code has it. [run] returns an envelope for every input and
    never raises. With status success its data is the analysis of the
    observed batch, a mapping with the six fields of an AnalysisResult in
    which [time_trends] is the three-trend mapping or the empty list and
    [anomalies] the two-map mapping or the empty mapping; with status
    warning (empty input) or error (an exception in the observe phase) its
    data is the empty list. The analysis of any batch, and the decide phase
    on any frame, return a result of that shape and never raise. *)
Theorem run_always_returns (now : Timestamp) (input : Value) :
  (exists envelope,
     run now input = Ok envelope /\
     ((field "status" envelope = Some (VStr "success") /\
       exists batch r,
         observe input = Ok batch /\ analyze now batch = Ok r /\
         field "data" envelope = Some r /\
         matches_degraded_AnalysisResult r = true) \/
      (field "status" envelope = Some (VStr "warning") /\
       truthy input = false /\ field "data" envelope = Some (VList [])) \/
      (field "status" envelope = Some (VStr "error") /\
       (exists e, observe input = Raise e) /\
       field "data" envelope = Some (VList [])))) /\
  (forall batch, exists r,
     analyze now batch = Ok r /\ matches_degraded_AnalysisResult r = true) /\
  (forall df, exists r,
     decide now df = Ok r /\ matches_degraded_AnalysisResult r = true).
Proof.
  split; [| split].
  - unfold run. destruct (truthy input) eqn:Ht.
    + destruct (observe input) as [batch | e] eqn:Ho.
      * rewrite (run_body_observed _ _ _ Ht Ho).
        destruct (analyze_shape now batch) as (r & Hr & Hshape).
        rewrite Hr. cbn [rbind]. eexists. split; [reflexivity |].
        left. split; [reflexivity |]. exists batch, r. auto.
      * unfold run_body. rewrite Ht, Ho. cbn [negb rbind].
        eexists. split; [reflexivity |].
        right. right. split; [reflexivity |]. split; [now exists e | reflexivity].
    + unfold run_body. rewrite Ht. cbn [negb].
      eexists. split; [reflexivity |]. right. left. auto.
  - apply analyze_shape.
  - apply decide_shape.
Qed.

(** C2, as the code has it. For a batch that is empty, or from which pandas
    builds no frame or a frame without records, the analysis returns the
    canonical empty result: an empty sequence for [feedback_data],
    [trend_keywords] and [time_trends], an empty mapping for
    [sentiment_summary], [top_issues] and [anomalies]. *)
Theorem analyze_empty_batch (now : Timestamp) (batch : Value) :
  truthy batch = false \/
  (exists e, pd_DataFrame batch = Raise e) \/
  (exists df, pd_DataFrame batch = Ok df /\ records df = []) ->
  analyze now batch = Ok create_empty_analysis_result /\
  has_keys result_labels create_empty_analysis_result = true /\
  field "feedback_data" create_empty_analysis_result = Some (VList []) /\
  field "sentiment_summary" create_empty_analysis_result = Some (VDict []) /\
  field "top_issues" create_empty_analysis_result = Some (VDict []) /\
  field "trend_keywords" create_empty_analysis_result = Some (VList []) /\
  field "time_trends" create_empty_analysis_result = Some (VList []) /\
  field "anomalies" create_empty_analysis_result = Some (VDict []).
Proof.
  intros H. split; [| repeat split].
  rewrite analyze_cases. destruct (negb (truthy batch)) eqn:Ht; [reflexivity |].
  destruct H as [H | [[e H] | [df [H Hrec]]]].
  - rewrite H in Ht. discriminate.
  - now rewrite H.
  - now rewrite H, Hrec.
Qed.

End Shape.

(* ===================================================================== *)
(** ** The threshold test and the real-number comparison *)
(* ===================================================================== *)

Lemma Qlt_bool_iff (a b : Q) : Qlt_bool a b = true <-> (a < b)%Q.
Proof.
  unfold Qlt_bool. rewrite negb_true_iff. split.
  - intros H. apply Qnot_le_lt. intros Hle. apply Qle_bool_iff in Hle. congruence.
  - intros H. destruct (Qle_bool b a) eqn:Hle; [| reflexivity].
    apply Qle_bool_iff in Hle. exfalso. exact (Qlt_not_le _ _ H Hle).
Qed.

Lemma above_twice_sqrt (x v : R) :
  (0 <= v)%R -> (x > 2 * sqrt v)%R <-> (0 < x /\ 4 * v < x * x)%R.
Proof.
  intros Hv. pose proof (sqrt_pos v) as Hs. pose proof (sqrt_sqrt v Hv) as Hsq.
  set (s := sqrt v) in *. split.
  - intros H. split; [lra |]. rewrite <- Hsq. nra.
  - intros [Hx H]. rewrite <- Hsq in H.
    destruct (Rlt_le_dec (2 * s) x) as [Hlt | Hle]; [exact Hlt | nra].
Qed.

(** [above_threshold count mean var] decides [count > mean + 2 * std] for
    the real number [std = sqrt var]. *)
Lemma above_threshold_real (count : Z) (mean var : Q) :
  (0 <= var)%Q ->
  above_threshold count mean var = true
  <-> (IZR count > Q2R mean + 2 * sqrt (Q2R var))%R.
Proof.
  intros Hvar. unfold above_threshold. cbv zeta.
  rewrite andb_true_iff, !Qlt_bool_iff.
  assert (Hv : (0 <= Q2R var)%R).
  { replace 0%R with (Q2R 0) by (unfold Q2R; simpl; lra). now apply Qle_Rle. }
  assert (Hd : Q2R (inject_Z count - mean) = (IZR count - Q2R mean)%R).
  { rewrite Q2R_minus. f_equal. unfold Q2R, inject_Z. simpl. lra. }
  assert (H0 : Q2R 0 = 0%R) by (unfold Q2R; simpl; lra).
  assert (H4 : Q2R 4 = 4%R) by (unfold Q2R; simpl; lra).
  split.
  - intros [Hpos Hsq]. apply Qlt_Rlt in Hpos, Hsq.
    rewrite H0, Hd in Hpos. rewrite !Q2R_mult, H4, Hd in Hsq.
    assert (Hx : (IZR count - Q2R mean > 2 * sqrt (Q2R var))%R)
      by (apply above_twice_sqrt; auto).
    lra.
  - intros H.
    assert (Hx : (IZR count - Q2R mean > 2 * sqrt (Q2R var))%R) by lra.
    apply above_twice_sqrt in Hx; [| exact Hv]. destruct Hx as [Hpos Hsq].
    split; apply Rlt_Qlt.
    + now rewrite H0, Hd.
    + now rewrite !Q2R_mult, H4, Hd.
Qed.

Lemma Qsum_nonneg (l : list Q) : Forall (fun q => 0 <= q)%Q l -> (0 <= Qsum l)%Q.
Proof.
  induction 1 as [|q l Hq _ IH]; simpl.
  - apply Qle_refl.
  - change 0%Q with (0 + 0)%Q. now apply Qplus_le_compat.
Qed.

Lemma series_std_sq_nonneg (counts : list Z) : (0 <= series_std_sq counts)%Q.
Proof.
  unfold series_std_sq. destruct (Nat.ltb_spec 1 (List.length counts)) as [Hn | _];
    [| apply Qle_refl].
  unfold series_var. apply Qle_shift_div_l.
  - unfold series_len. unfold Qminus. 
    change (- (1))%Q with (inject_Z (-1)). rewrite <- inject_Z_plus.
    change 0%Q with (inject_Z 0). rewrite <- Zlt_Qlt. lia.
  - rewrite Qmult_0_l. apply Qsum_nonneg. apply Forall_map, Forall_forall.
    intros x _. set (d := (inject_Z x - series_mean counts)%Q).
    destruct (Qlt_le_dec d 0) as [Hneg | Hpos].
    + setoid_replace (d * d)%Q with ((- d) * (- d))%Q by ring.
      apply Qmult_le_0_compat; apply Qlt_le_weak; 
        setoid_replace 0%Q with (- 0)%Q by ring; now apply Qopp_lt_compat.
    + now apply Qmult_le_0_compat.
Qed.

(** A day is in [volume_spikes] exactly when its count is above the mean of
    the daily counts by more than twice their standard deviation. *)
Lemma volume_spikes_real (day_counts : list (string * Z)) (d : string) (c : Z) :
  In (d, c) (volume_spikes day_counts)
  <-> In (d, c) day_counts /\
      (IZR c > Q2R (series_mean (map snd day_counts))
               + 2 * sqrt (Q2R (series_std_sq (map snd day_counts))))%R.
Proof.
  unfold volume_spikes. cbv zeta. rewrite filter_In. cbn [snd].
  rewrite above_threshold_real by apply series_std_sq_nonneg. reflexivity.
Qed.

(* ===================================================================== *)
(** ** Anomaly detector *)
(* ===================================================================== *)

Lemma volume_spikes_by_counts (day_counts : list (string * Z)) :
  volume_spikes day_counts
  = filter (fun dc => above_threshold (snd dc)
                        (series_mean (map snd day_counts))
                        (series_std_sq (map snd day_counts)))
           day_counts.
Proof. reflexivity. Qed.

(** The statistics of the five counts of the example. *)
Lemma example_statistics :
  (series_mean example_counts == 6)%Q /\
  (series_std_sq example_counts == 123 # 2)%Q.
Proof. split; vm_compute; reflexivity. Qed.

Lemma example_no_spike (day_counts : list (string * Z)) :
  map snd day_counts = example_counts -> volume_spikes day_counts = [].
Proof.
  unfold example_counts. intros H. rewrite volume_spikes_by_counts, H.
  destruct day_counts as [|[d1 c1] [|[d2 c2] [|[d3 c3] [|[d4 c4] [|[d5 c5] [|]]]]]];
    try discriminate.
  cbn [map snd] in H. injection H as -> -> -> -> ->.
  reflexivity.
Qed.

Lemma series_mean_single (c : Z) : (series_mean [c] == inject_Z c)%Q.
Proof.
  unfold series_mean, series_sum, series_len. cbn [fold_right List.length].
  rewrite Z.add_0_r. change (inject_Z (Z.of_nat 1)) with 1%Q. field.
Qed.

Lemma series_std_sq_single (c : Z) : series_std_sq [c] = 0%Q.
Proof. reflexivity. Qed.

Lemma above_threshold_at_mean (c : Z) (mean var : Q) :
  (mean == inject_Z c)%Q -> above_threshold c mean var = false.
Proof.
  intros H. unfold above_threshold, Qlt_bool. cbv zeta.
  assert (Hle : Qle_bool (inject_Z c - mean) 0 = true).
  { apply Qle_bool_iff. rewrite H. setoid_replace (inject_Z c - inject_Z c)%Q with 0%Q by ring.
    apply Qle_refl. }
  now rewrite Hle.
Qed.

Lemma negative_spikes_single (d : string) (c : Z) : negative_spikes [(d, c)] = [].
Proof.
  unfold negative_spikes. cbn [map snd filter].
  now rewrite above_threshold_at_mean by apply series_mean_single.
Qed.

Section Anomalies.
Context {E : Externals}.

(** C3, as the code has it. When the per-day counts of the frame are 2, 3,
    2, 3 and 20 over five days, the detector flags no day: the mean is 6,
    the square of the sample standard deviation is 61.5, and none of the
    counts, 20 included, is above the mean by more than two standard
    deviations (for 20 that would need (20 - 6)^2 > 4 * 61.5). *)
Theorem example_counts_flag_nothing (now : Timestamp) (df : DataFrame) :
  Text.mem "timestamp" (columns df) = true ->
  is_datetime_col (column "timestamp" df) = true ->
  Text.mem "sentiment" (columns df) = true ->
  map snd (group_sizes (map day_of (column "timestamp" df))) = example_counts ->
  (exists negative,
     detect_anomalies now df
     = (Ok (VDict [("volume_anomalies", VDict []);
                   ("negative_sentiment_anomalies", negative)]), df)) /\
  (series_mean example_counts == 6)%Q /\
  (series_std_sq example_counts == 123 # 2)%Q /\
  (forall c, In c example_counts ->
     above_threshold c (series_mean example_counts) (series_std_sq example_counts)
     = false /\
     ~ (IZR c > Q2R (series_mean example_counts)
                + 2 * sqrt (Q2R (series_std_sq example_counts)))%R).
Proof.
  intros Hts Hdt Hs Hcounts. split; [| split; [| split]];
    try apply example_statistics;
    [| intros c Hc;
       assert (Hfalse : above_threshold c (series_mean example_counts)
                          (series_std_sq example_counts) = false)
         by (simpl in Hc;
             repeat (destruct Hc as [<- | Hc]; [reflexivity |]); destruct Hc);
       split; [exact Hfalse |];
       intros Hreal; apply above_threshold_real in Hreal;
       [congruence | apply series_std_sq_nonneg]].
  assert (Hne : records df <> []).
  { intros Hnil. unfold column in Hcounts. rewrite Hnil in Hcounts. discriminate. }
  rewrite detect_anomalies_ok by assumption.
  unfold anomaly_report. cbv zeta.
  assert (Hlen : List.length (group_sizes (map day_of (column "timestamp" df))) = 5%nat).
  { rewrite <- (length_map snd), Hcounts. reflexivity. }
  rewrite Hlen. cbn [Nat.ltb Nat.leb].
  rewrite (example_no_spike _ Hcounts). eexists. reflexivity.
Qed.

(** C10. The minimum of three distinct days is checked on the overall
    per-day counts only. On a frame with at least three days overall and at
    least one negative row, the negative pass runs whatever the number of
    days the negative rows span: its entry is the spikes of the negative
    per-day counts. With exactly one negative day the mean is that day's
    count, the standard deviation is set to 0, and nothing is flagged. *)
Theorem negative_pass_has_no_day_minimum (now : Timestamp) (df : DataFrame) :
  Text.mem "timestamp" (columns df) = true ->
  is_datetime_col (column "timestamp" df) = true ->
  Text.mem "sentiment" (columns df) = true ->
  (3 <= List.length (group_sizes (map day_of (column "timestamp" df))))%nat ->
  negative_records df <> [] ->
  let day_counts := group_sizes (map day_of (column "timestamp" df)) in
  let negative_counts :=
    group_sizes (map (fun r => day_of (cell "timestamp" r)) (negative_records df)) in
  detect_anomalies now df
  = (Ok (VDict [("volume_anomalies", anomalies_dict (volume_spikes day_counts));
                ("negative_sentiment_anomalies",
                 anomalies_dict (negative_spikes negative_counts))]), df) /\
  negative_counts <> [] /\
  negative_spikes negative_counts
  = filter (fun dc => above_threshold (snd dc)
                        (series_mean (map snd negative_counts))
                        (series_std_sq (map snd negative_counts)))
           negative_counts /\
  (forall d c, negative_counts = [(d, c)] ->
     (series_mean (map snd negative_counts) == inject_Z c)%Q /\
     series_std_sq (map snd negative_counts) = 0%Q /\
     above_threshold c (series_mean (map snd negative_counts))
                       (series_std_sq (map snd negative_counts)) = false /\
     negative_spikes negative_counts = []).
Proof.
  intros Hts Hdt Hs Hdays Hneg day_counts negative_counts.
  assert (Hne : records df <> []).
  { intros Hnil. unfold negative_records in Hneg. rewrite Hnil in Hneg. now apply Hneg. }
  assert (Hnc : negative_counts <> []).
  { unfold negative_counts, group_sizes. intros Hnil.
    apply map_eq_nil in Hnil.
    destruct (negative_records df) as [|r rs]; [now apply Hneg |].
    assert (Hin : In (day_of (cell "timestamp" r))
                     (sorted_unique (map (fun r => day_of (cell "timestamp" r)) (r :: rs))))
      by (apply in_sorted_unique; now left).
    rewrite Hnil in Hin. exact Hin. }
  split; [| split; [exact Hnc | split]].
  - rewrite detect_anomalies_ok by assumption.
    unfold anomaly_report. cbv zeta. fold day_counts.
    destruct (Nat.ltb_spec (List.length day_counts) 3) as [Hlt | _];
      [unfold day_counts in Hlt; lia |].
    unfold negative_anomalies_dict. fold negative_counts.
    destruct (negative_records df); [now contradiction Hneg | reflexivity].
  - unfold negative_spikes. destruct negative_counts; [now contradiction Hnc | reflexivity].
  - intros d c ->. cbn [map snd]. repeat split.
    + apply series_mean_single.
    + apply above_threshold_at_mean, series_mean_single.
    + apply negative_spikes_single.
Qed.

End Anomalies.

(* ===================================================================== *)
(** ** Keyword extractor *)
(* ===================================================================== *)

Lemma all_chars_app (p : ascii -> bool) (a b : string) :
  all_chars p (a ++ b)%string = all_chars p a && all_chars p b.
Proof.
  induction a as [|c a IH]; simpl; [reflexivity |].
  now rewrite IH, andb_assoc.
Qed.

Lemma flush_chars (p : ascii -> bool) (acc : string) :
  all_chars p acc = true -> Forall (fun tok => all_chars p tok = true) (flush acc).
Proof. intros H. destruct acc; simpl; [constructor | now repeat constructor]. Qed.

(** A token is made of word characters of the string that satisfy whatever
    all characters of the string satisfy. *)
Lemma findall_words_from_chars (p : ascii -> bool) (s acc : string) :
  all_chars p s = true -> all_chars p acc = true ->
  all_chars is_word_char acc = true ->
  Forall (fun tok => all_chars p tok = true /\ all_chars is_word_char tok = true)
         (findall_words_from acc s).
Proof.
  revert acc. induction s as [|c s IH]; intros acc Hs Hacc Hw; simpl.
  - destruct acc; simpl; [constructor | now repeat constructor].
  - simpl in Hs. apply andb_true_iff in Hs. destruct Hs as [Hc Hs].
    destruct (is_word_char c) eqn:Hwc.
    + apply IH; [exact Hs | |]; rewrite all_chars_app; simpl;
        rewrite ?Hacc, ?Hw, ?Hc, ?Hwc; reflexivity.
    + apply Forall_app. split.
      * destruct acc; simpl; [constructor | now repeat constructor].
      * now apply IH.
Qed.

Lemma lower_char_idempotent (c : ascii) :
  Text.lower_char (Text.lower_char c) = Text.lower_char c.
Proof.
  unfold Text.lower_char.
  destruct ((65 <=? nat_of_ascii c) && (nat_of_ascii c <=? 90))%nat eqn:Hup;
    [| now rewrite Hup].
  apply andb_true_iff in Hup. destruct Hup as [H1 H2].
  apply Nat.leb_le in H1, H2.
  rewrite nat_ascii_embedding by lia.
  destruct (Nat.leb_spec (nat_of_ascii c + 32) 90) as [H3 | H3]; [lia |].
  now rewrite andb_false_r.
Qed.

Lemma all_chars_lower (s : string) : all_chars is_lowered (Text.lower s) = true.
Proof.
  induction s as [|c s IH]; simpl; [reflexivity |].
  unfold is_lowered at 1. now rewrite lower_char_idempotent, Ascii.eqb_refl, IH.
Qed.

Lemma lower_fixed (s : string) : all_chars is_lowered s = true -> Text.lower s = s.
Proof.
  induction s as [|c s IH]; simpl; [reflexivity |].
  intros H. apply andb_true_iff in H. destruct H as [Hc Hs].
  apply Ascii.eqb_eq in Hc. now rewrite Hc, IH.
Qed.

(** The tokens of a lowered text are lower case and made of word
    characters. *)
Lemma findall_words_lower (s tok : string) :
  In tok (findall_words (Text.lower s)) ->
  Text.lower tok = tok /\ all_chars is_word_char tok = true.
Proof.
  intros H.
  pose proof (findall_words_from_chars is_lowered (Text.lower s) ""
                (all_chars_lower s) eq_refl eq_refl) as Hall.
  rewrite Forall_forall in Hall. destruct (Hall tok H) as [Hl Hw].
  split; [now apply lower_fixed | exact Hw].
Qed.

Lemma string_app_assoc (a b c : string) :
  ((a ++ b) ++ c)%string = (a ++ (b ++ c))%string.
Proof. induction a as [|x a IH]; simpl; [reflexivity | now rewrite IH]. Qed.

Lemma string_app_nil_r (a : string) : (a ++ "")%string = a.
Proof. induction a as [|x a IH]; simpl; [reflexivity | now rewrite IH]. Qed.

Lemma findall_words_from_word (w acc rest : string) :
  all_chars is_word_char w = true ->
  findall_words_from acc (w ++ rest)%string
  = findall_words_from (acc ++ w)%string rest.
Proof.
  revert acc. induction w as [|c w IH]; intros acc H; simpl.
  - now rewrite string_app_nil_r.
  - simpl in H. apply andb_true_iff in H. destruct H as [Hc Hw].
    rewrite Hc, IH by exact Hw. now rewrite string_app_assoc.
Qed.

Lemma findall_words_from_separator (sep acc rest : string) :
  is_separator sep ->
  findall_words_from acc (sep ++ rest)%string
  = flush acc ++ findall_words_from "" rest.
Proof.
  intros [Hne Hsep]. destruct sep as [|c sep]; [congruence |].
  simpl in Hsep. apply andb_true_iff in Hsep. destruct Hsep as [Hc Hsep].
  apply negb_true_iff in Hc. simpl. rewrite Hc. f_equal.
  clear Hne Hc c. induction sep as [|c sep IH]; simpl; [reflexivity |].
  simpl in Hsep. apply andb_true_iff in Hsep. destruct Hsep as [Hc Hsep].
  apply negb_true_iff in Hc. rewrite Hc. simpl. now apply IH.
Qed.

Lemma findall_words_from_tail (tail acc : string) :
  all_chars (fun c => negb (is_word_char c)) tail = true ->
  findall_words_from acc tail = flush acc.
Proof.
  intros H. destruct tail as [|c tail]; [reflexivity |].
  replace (String c tail) with (String c tail ++ "")%string
    by apply string_app_nil_r.
  rewrite findall_words_from_separator by (split; [discriminate | exact H]).
  apply app_nil_r.
Qed.

(** [findall_words] returns the words of a laid-out text, in order: the
    tokens are the maximal runs of word characters. *)
Lemma findall_words_layout (w0 : string) (pairs : list (string * string)) (tail : string) :
  all_chars is_word_char w0 = true ->
  Forall (fun sw => is_separator (fst sw) /\ is_word (snd sw)) pairs ->
  all_chars (fun c => negb (is_word_char c)) tail = true ->
  findall_words (w0 ++ layout pairs tail)%string = flush w0 ++ map snd pairs.
Proof.
  intros Hw0 Hpairs Htail. unfold findall_words.
  rewrite findall_words_from_word by exact Hw0. simpl.
  generalize w0 as acc. clear Hw0 w0.
  induction Hpairs as [|[sep w] pairs [Hsep [Hne Hw]] _ IH]; intros acc; simpl.
  - rewrite app_nil_r. now apply findall_words_from_tail.
  - rewrite findall_words_from_separator by exact Hsep.
    rewrite findall_words_from_word by exact Hw. simpl.
    rewrite IH. f_equal. simpl in Hne. destruct w; [congruence | reflexivity].
Qed.

Lemma insert_desc_perm (x : string * Z) (l : list (string * Z)) :
  Permutation (insert_desc x l) (x :: l).
Proof.
  induction l as [|y l IH]; simpl; [reflexivity |].
  destruct (Z.leb (snd y) (snd x)); [reflexivity |].
  rewrite IH. apply perm_swap.
Qed.

Lemma sort_desc_perm (l : list (string * Z)) : Permutation (sort_desc l) l.
Proof.
  unfold sort_desc. induction l as [|x l IH]; simpl; [reflexivity |].
  rewrite insert_desc_perm. now constructor.
Qed.

Lemma insert_desc_sorted (x : string * Z) (l : list (string * Z)) :
  StronglySorted by_count_desc l -> StronglySorted by_count_desc (insert_desc x l).
Proof.
  induction 1 as [|y l Hs IH Hy]; simpl.
  - constructor; constructor.
  - destruct (Z.leb_spec (snd y) (snd x)) as [Hle | Hgt].
    + constructor; [constructor; assumption |].
      constructor; [exact Hle |].
      eapply Forall_impl; [| exact Hy].
      intros z Hz. unfold by_count_desc in *. lia.
    + constructor; [exact IH |].
      eapply Permutation_Forall; [symmetry; apply insert_desc_perm |].
      constructor; [unfold by_count_desc; lia | exact Hy].
Qed.

Lemma sort_desc_sorted (l : list (string * Z)) :
  StronglySorted by_count_desc (sort_desc l).
Proof.
  unfold sort_desc. induction l as [|x l IH]; simpl; [constructor |].
  now apply insert_desc_sorted.
Qed.

Lemma in_skipn {A : Type} (n : nat) (l : list A) (x : A) :
  In x (skipn n l) -> In x l.
Proof. intros H. rewrite <- (firstn_skipn n l). apply in_or_app. now right. Qed.

Lemma in_firstn {A : Type} (n : nat) (l : list A) (x : A) :
  In x (firstn n l) -> In x l.
Proof. intros H. rewrite <- (firstn_skipn n l). apply in_or_app. now left. Qed.

Lemma sorted_firstn_skipn (n : nat) (l : list (string * Z)) :
  StronglySorted by_count_desc l ->
  forall a b, In a (firstn n l) -> In b (skipn n l) -> snd b <= snd a.
Proof.
  intros Hs. revert n. induction Hs as [|y l Hs IH Hy]; intros n a b Ha Hb.
  - destruct n; destruct Ha.
  - destruct n as [|n]; [destruct Ha |].
    simpl in Ha, Hb. destruct Ha as [<- | Ha].
    + rewrite Forall_forall in Hy. apply (Hy b).
      eapply in_skipn. exact Hb.
    + eapply IH; eassumption.
Qed.

Lemma NoDup_firstn {A : Type} (n : nat) (l : list A) : NoDup l -> NoDup (firstn n l).
Proof.
  intros H. rewrite <- (firstn_skipn n l) in H. eapply NoDup_app_remove_r. exact H.
Qed.

Lemma in_Counter (w : string) (c : Z) (words : list string) :
  In (w, c) (Counter words) <-> In w words /\ c = count_of w words.
Proof.
  unfold Counter. rewrite in_map_iff. split.
  - intros [x [Hx Hin]]. injection Hx as <- <-. split; [| reflexivity].
    now apply in_distinct.
  - intros [Hin ->]. exists w. split; [reflexivity | now apply in_distinct].
Qed.

Lemma keys_Counter (words : list string) : map fst (Counter words) = distinct words.
Proof. unfold Counter. rewrite map_map. simpl. apply map_id. Qed.

(** The ranking of [most_common]: distinct words of the list, with their
    counts, at most [n] of them, none left out that is more frequent than
    one that is in. *)
Lemma most_common_ranking (n : nat) (words : list string) :
  let top := most_common n (Counter words) in
  NoDup (map fst top) /\
  List.length top = Nat.min n (List.length (distinct words)) /\
  (forall k c, In (k, c) top -> In k words /\ c = count_of k words) /\
  (forall k w, In k (map fst top) -> In w words -> ~ In w (map fst top) ->
     count_of w words <= count_of k words).
Proof.
  unfold most_common. cbv zeta.
  pose proof (sort_desc_perm (Counter words)) as Hperm.
  pose proof (sort_desc_sorted (Counter words)) as Hsorted.
  assert (Hin : forall k c, In (k, c) (sort_desc (Counter words)) ->
                            In k words /\ c = count_of k words).
  { intros k c H. apply in_Counter. eapply Permutation_in; eassumption. }
  split; [| split; [| split]].
  - rewrite <- firstn_map. apply NoDup_firstn.
    eapply Permutation_NoDup; [symmetry; apply Permutation_map; exact Hperm |].
    rewrite keys_Counter. apply NoDup_distinct.
  - rewrite length_firstn. f_equal.
    rewrite (Permutation_length Hperm). unfold Counter. apply length_map.
  - intros k c H. apply Hin. eapply in_firstn. exact H.
  - intros k w Hk Hw Hnot.
    apply in_map_iff in Hk. destruct Hk as [[k' c] [Hfst Hk]]. simpl in Hfst. subst k'.
    destruct (Hin k c (in_firstn _ _ _ Hk)) as [_ ->].
    assert (Hwin : In (w, count_of w words) (sort_desc (Counter words))).
    { eapply Permutation_in; [symmetry; exact Hperm |]. now apply in_Counter. }
    rewrite <- (firstn_skipn n (sort_desc (Counter words))) in Hwin.
    apply in_app_or in Hwin. destruct Hwin as [Hw1 | Hw2].
    + exfalso. apply Hnot. apply in_map_iff. now exists (w, count_of w words).
    + apply (sorted_firstn_skipn n _ Hsorted (k, count_of k words)
               (w, count_of w words) Hk Hw2).
Qed.

Section Keywords.
Context {E : Externals}.

(** C6. [extract_keywords] takes the word-frequency branch on fewer than
    three texts and the TF-IDF branch on three or more, and gives the empty
    list when the branch raises. On texts that are strings the frequency
    branch does not raise; its keywords are distinct words of the lowered,
    joined text (lower case, made of word characters) that are no stop word
    and longer than two characters, at most [top_n] of them, and no such
    word left out is more frequent than a keyword. The words of a text are
    its maximal runs of word characters: on a text laid out as separators
    and words, [findall_words] returns the words. *)
Theorem extract_keywords_branches (texts : list Value) (top_n : nat) :
  ((List.length texts < 3)%nat ->
   extract_keywords texts top_n
   = match frequency_keywords texts top_n with Ok l => l | Raise _ => [] end) /\
  ((3 <= List.length texts)%nat ->
   extract_keywords texts top_n
   = match tfidf_features texts top_n with Ok l => l | Raise _ => [] end) /\
  (forall strs, str_items texts = Ok strs ->
   let tokens := findall_words (Text.lower (String.concat " " strs)) in
   let kept := filter keep_word tokens in
   exists keywords,
     frequency_keywords texts top_n = Ok keywords /\
     NoDup keywords /\
     List.length keywords = Nat.min top_n (List.length (distinct kept)) /\
     (forall k, In k keywords ->
        In k tokens /\ ~ In k common_words /\ (2 < String.length k)%nat /\
        Text.lower k = k /\ all_chars is_word_char k = true) /\
     (forall k w, In k keywords -> In w kept -> ~ In w keywords ->
        count_of w kept <= count_of k kept)) /\
  (forall w0 pairs tail,
     all_chars is_word_char w0 = true ->
     Forall (fun sw => is_separator (fst sw) /\ is_word (snd sw)) pairs ->
     all_chars (fun c => negb (is_word_char c)) tail = true ->
     findall_words (w0 ++ layout pairs tail)%string = flush w0 ++ map snd pairs).
Proof.
  split; [| split; [| split]]; [| | | apply findall_words_layout].
  - intros H. unfold extract_keywords.
    destruct (Nat.ltb_spec (List.length texts) 3); [reflexivity | lia].
  - intros H. unfold extract_keywords.
    destruct (Nat.ltb_spec (List.length texts) 3); [lia | reflexivity].
  - intros strs Hstrs tokens kept. unfold frequency_keywords. rewrite Hstrs.
    cbn [rbind]. fold tokens. fold kept.
    destruct (most_common_ranking top_n kept) as (Hnd & Hlen & Hin & Htop).
    eexists. split; [reflexivity |]. split; [exact Hnd |]. split; [| split].
    + rewrite length_map. exact Hlen.
    + intros k Hk. apply in_map_iff in Hk. destruct Hk as [[k' c] [Hfst Hk]].
      simpl in Hfst. subst k'. destruct (Hin k c Hk) as [Hkept _].
      unfold kept in Hkept. apply filter_In in Hkept.
      destruct Hkept as [Htok Hkeep]. unfold keep_word in Hkeep.
      apply andb_true_iff in Hkeep. destruct Hkeep as [Hcommon Hlong].
      split; [exact Htok |]. split; [| split].
      * intros Hc. apply mem_iff in Hc. rewrite Hc in Hcommon. discriminate.
      * now apply Nat.ltb_lt.
      * apply (findall_words_lower (String.concat " " strs)). exact Htok.
    + exact Htop.
Qed.

End Keywords.

(* ===================================================================== *)
(** ** Instances and counterexamples *)
(* ===================================================================== *)

Section Instances.
#[local] Existing Instance plain_externals.

Lemma categorize_feedback_priority_witness :
  categorize_feedback (VStr "I love it but found a BUG") = "bug".
Proof.
  destruct (categorize_feedback_priority "I love it but found a BUG")
    as (_ & _ & _ & _ & _ & _ & H).
  apply H.
  - exists "I love it but found a ", "BUG", "". split; reflexivity.
  - exists "I ", "love", " it but found a BUG". split; reflexivity.
Defined.

Lemma determine_urgency_rule_witness :
  row_item [("text", VStr "minor typo"); ("sentiment", VStr "negative");
            ("category", VStr "bug")] "text" = Ok (VStr "minor typo") /\
  determine_urgency [("text", VStr "minor typo"); ("sentiment", VStr "negative");
                     ("category", VStr "bug")] = Ok "high".
Proof.
  split; [reflexivity |].
  destruct (determine_urgency_rule
              [("text", VStr "minor typo"); ("sentiment", VStr "negative");
               ("category", VStr "bug")]
              "minor typo" "negative" "bug" eq_refl eq_refl eq_refl)
    as (u & Hu & _ & _ & _ & _ & Hhigh).
  rewrite Hu. f_equal. apply Hhigh; reflexivity.
Defined.

Lemma extract_keywords_branches_witness :
  (List.length [VStr "The cat and the hat"; VStr "a cat is a CAT"] < 3)%nat /\
  extract_keywords [VStr "The cat and the hat"; VStr "a cat is a CAT"] 10
  = ["cat"; "hat"].
Proof.
  split; [simpl; lia |].
  destruct (extract_keywords_branches
              [VStr "The cat and the hat"; VStr "a cat is a CAT"] 10) as (H & _ & _).
  rewrite H by (simpl; lia). reflexivity.
Defined.

Lemma daily_count_total_witness :
  as_records small_items = Some small_rows /\ small_items <> [] /\
  exists result trends daily,
    analyze (noon 9) (VList small_items) = Ok result /\
    field "time_trends" result = Some trends /\
    field "daily_count" trends = Some (VList daily) /\
    total_count daily = 4.
Proof.
  split; [reflexivity |]. split; [discriminate |].
  apply (daily_count_total (noon 9) small_items small_rows);
    [reflexivity | discriminate].
Defined.

Lemma feedback_data_carries_day_witness :
  as_records small_items = Some small_rows /\ small_items <> [] /\
  exists result recs,
    analyze (noon 9) (VList small_items) = Ok result /\
    field "feedback_data" result = Some (VList recs) /\
    List.length recs = 4%nat /\
    Forall carries_day recs.
Proof.
  split; [reflexivity |]. split; [discriminate |].
  apply (feedback_data_carries_day (noon 9) small_items small_rows);
    [reflexivity | discriminate].
Defined.

Lemma analyze_repeatable_witness :
  as_records small_items = Some small_rows /\
  analyze (noon 9) (VList small_items) = analyze (noon 27) (VList small_items).
Proof.
  split; [reflexivity |].
  apply (analyze_repeatable (noon 9) (noon 27) small_items small_rows).
  - reflexivity.
  - repeat constructor; eexists; eexists; split; reflexivity.
  - reflexivity.
Defined.

Lemma analyze_empty_batch_witness :
  truthy (VList []) = false /\
  analyze (noon 9) (VList []) = Ok create_empty_analysis_result.
Proof.
  split; [reflexivity |].
  apply (analyze_empty_batch (noon 9) (VList [])). now left.
Defined.

Lemma example_counts_flag_nothing_witness :
  map snd (group_sizes (map day_of (column "timestamp" spike_frame))) = example_counts /\
  exists negative,
    detect_anomalies (noon 9) spike_frame
    = (Ok (VDict [("volume_anomalies", VDict []);
                  ("negative_sentiment_anomalies", negative)]), spike_frame).
Proof.
  split; [vm_compute; reflexivity |].
  apply (example_counts_flag_nothing (noon 9) spike_frame);
    vm_compute; reflexivity.
Defined.

Lemma negative_pass_has_no_day_minimum_witness :
  (3 <= List.length (group_sizes (map day_of (column "timestamp" three_day_frame))))%nat /\
  negative_records three_day_frame <> [] /\
  List.length (group_sizes (map (fun r => day_of (cell "timestamp" r))
                                (negative_records three_day_frame))) = 1%nat /\
  detect_anomalies (noon 9) three_day_frame
  = (Ok (VDict [("volume_anomalies", VDict []);
                ("negative_sentiment_anomalies", VDict [])]), three_day_frame).
Proof.
  split; [vm_compute; lia |]. split; [discriminate |]. split; [reflexivity |].
  assert (Hdays : (3 <= List.length (group_sizes
                           (map day_of (column "timestamp" three_day_frame))))%nat)
    by (vm_compute; lia).
  assert (Hneg : negative_records three_day_frame <> []) by discriminate.
  destruct (negative_pass_has_no_day_minimum (noon 9) three_day_frame
              eq_refl eq_refl eq_refl Hdays Hneg) as (H & _).
  rewrite H. reflexivity.
Defined.

(** The claim of C1 fails on a number given as input: [run] catches the
    exception of the observe phase and returns an envelope whose data is the
    empty list, which has none of the fields of an AnalysisResult; and the
    analysis of that input is the canonical empty result, whose
    [time_trends] is a list. *)
Lemma run_on_number_has_no_analysis :
  run (noon 9) (VInt 5)
  = Ok (VDict [("status", VStr "error"); ("message", VStr "error"); ("data", VList [])]) /\
  matches_AnalysisResult (VList []) = false /\
  has_keys result_labels (VList []) = false /\
  analyze (noon 9) (VInt 5) = Ok create_empty_analysis_result /\
  matches_AnalysisResult create_empty_analysis_result = false.
Proof. repeat split. Qed.

(** The claim of C2 fails on the empty batch: [time_trends] of the result is
    the empty list, not a mapping. *)
Lemma empty_batch_time_trends_is_a_list :
  exists result,
    analyze (noon 9) (VList []) = Ok result /\
    field "time_trends" result = Some (VList []) /\
    is_dict (VList []) = false /\
    checks "time_trends" is_time_trends result = false.
Proof. eexists. repeat split. Qed.

(** The claim of C3 fails on thirty items spread 2, 3, 2, 3 and 20 over five
    days: the day with 20 items is not in [volume_anomalies], which is
    empty. *)
Lemma spike_of_20_is_not_flagged :
  exists result trends anomalies,
    analyze (noon 9) (VList spike_items) = Ok result /\
    field "time_trends" result = Some trends /\
    field "daily_count" trends
    = Some (VList [VDict [("day", VStr "2024-03-01"); ("count", VInt 2)];
                   VDict [("day", VStr "2024-03-02"); ("count", VInt 3)];
                   VDict [("day", VStr "2024-03-03"); ("count", VInt 2)];
                   VDict [("day", VStr "2024-03-04"); ("count", VInt 3)];
                   VDict [("day", VStr "2024-03-05"); ("count", VInt 20)]]) /\
    field "anomalies" result = Some anomalies /\
    field "volume_anomalies" anomalies = Some (VDict []).
Proof.
  eexists. eexists. eexists.
  split; [vm_compute; reflexivity |]. repeat split.
Qed.

End Instances.

(* ===================================================================== *)
(** ** The observe phase, the callers and the generic loop *)
(* ===================================================================== *)

Lemma assoc_none_iff {A : Type} (k : string) (d : list (string * A)) :
  assoc k d = None <-> Text.mem k (map fst d) = false.
Proof.
  induction d as [|[k' v] d IH]; simpl; [tauto |].
  destruct (String.eqb k k'); simpl; [split; discriminate | exact IH].
Qed.

Lemma assoc_some_mem {A : Type} (k : string) (d : list (string * A)) (v : A) :
  assoc k d = Some v -> Text.mem k (map fst d) = true.
Proof.
  intros H. destruct (Text.mem k (map fst d)) eqn:Hm; [reflexivity |].
  apply assoc_none_iff in Hm. congruence.
Qed.

Lemma same_labels_eq (a b : list string) : same_labels a b = true -> a = b.
Proof.
  revert b. induction a as [|x a IH]; intros [|y b] H; simpl in H;
    try discriminate; [reflexivity |].
  apply andb_true_iff in H. destruct H as [Hxy Hab].
  apply String.eqb_eq in Hxy. subst. f_equal. now apply IH.
Qed.

Lemma has_keys_inv (labels : list string) (v : Value) :
  has_keys labels v = true -> exists d, v = VDict d /\ map fst d = labels.
Proof.
  destruct v; simpl; try discriminate. intros H. eexists. split; [reflexivity |].
  now apply same_labels_eq.
Qed.

(** A possibly degraded AnalysisResult is a mapping with the six labels. *)
Lemma degraded_result_inv (r : Value) :
  matches_degraded_AnalysisResult r = true ->
  exists d, r = VDict d /\ map fst d = result_labels.
Proof.
  unfold matches_degraded_AnalysisResult, result_shape. intros H.
  repeat (apply andb_true_iff in H; destruct H as [H _]).
  now apply has_keys_inv.
Qed.

Section CallerProperties.
Context {E : Externals}.


(** X2. The generic loop never raises. It answers the warning envelope on
    an empty input without calling a phase; otherwise it chains the four
    phases and answers success with what [act] returned, or, when a phase
    raises, the error envelope with the message of that exception and the
    empty list as data, the later phases not being called. The [run] of the
    analysis agent is this loop on its four phases. *)
Theorem ooda_run_envelope {A B C : Type}
    (observing : Value -> res A) (orienting : A -> res B)
    (deciding : B -> res C) (acting : C -> res Value) (input : Value) :
  let failed (e : exn) :=
    observing input = Raise e \/
    exists a, observing input = Ok a /\
      (orienting a = Raise e \/
       exists b, orienting a = Ok b /\
         (deciding b = Raise e \/
          exists c, deciding b = Ok c /\ acting c = Raise e)) in
  (exists envelope,
     ooda_run observing orienting deciding acting input = Ok envelope /\
     ((truthy input = false /\
       envelope = VDict [("status", VStr "warning");
                         ("message", VStr "Empty input data");
                         ("data", VList [])]) \/
      (truthy input = true /\
       exists a b c result,
         observing input = Ok a /\ orienting a = Ok b /\ deciding b = Ok c /\
         acting c = Ok result /\
         envelope = VDict [("status", VStr "success"); ("data", result)]) \/
      (truthy input = true /\
       exists e,
         failed e /\
         envelope = VDict [("status", VStr "error");
                           ("message", VStr (exn_message e));
                           ("data", VList [])]))) /\
  (forall now, run now input
               = ooda_run observe (orient now)
                          (decide now) act input).
Proof.
  intros failed. split; [| reflexivity].
  unfold ooda_run, failed. destruct (truthy input); cbn [negb].
  - destruct (observing input) as [a | e]; cbn [rbind].
    + destruct (orienting a) as [b | e] eqn:Hb; cbn [rbind].
      * destruct (deciding b) as [c | e] eqn:Hc; cbn [rbind].
        -- destruct (acting c) as [r | e] eqn:Hr; cbn [rbind].
           ++ eexists. split; [reflexivity |]. right. left.
              split; [reflexivity |]. now exists a, b, c, r.
           ++ eexists. split; [reflexivity |]. right. right.
              split; [reflexivity |]. exists e. split; [| reflexivity].
              right. exists a. split; [reflexivity |]. right. exists b.
              split; [assumption |]. right. now exists c.
        -- eexists. split; [reflexivity |]. right. right.
           split; [reflexivity |]. exists e. split; [| reflexivity].
           right. exists a. split; [reflexivity |]. right. exists b. auto.
      * eexists. split; [reflexivity |]. right. right.
        split; [reflexivity |]. exists e. split; [| reflexivity].
        right. exists a. auto.
    + eexists. split; [reflexivity |]. right. right.
      split; [reflexivity |]. exists e. split; [now left | reflexivity].
  - eexists. split; [reflexivity |]. now left.
Qed.

(** X3. The alert and the report agents run the generic loop on phases that
    ignore what they are given: for every non-empty input the alert agent
    answers the same alert and the report agent the same report, and for an
    empty input both answer the warning envelope; neither ever answers an
    error. *)
Theorem alert_and_report_ignore_their_input (input : Value) :
  alert_run input
  = Ok (if truthy input then
          VDict [("status", VStr "success");
                 ("data", VDict [("alert", VStr "ALERT: Spike in complaints!")])]
        else
          VDict [("status", VStr "warning"); ("message", VStr "Empty input data");
                 ("data", VList [])]) /\
  report_run input
  = Ok (if truthy input then
          VDict [("status", VStr "success");
                 ("data", VDict [("report", VStr "Summary Report")])]
        else
          VDict [("status", VStr "warning"); ("message", VStr "Empty input data");
                 ("data", VList [])]).
Proof.
  unfold alert_run, report_run, ooda_run. now destruct (truthy input).
Qed.

(** X4. [analyze_data] of [main.py] returns the envelope of [run] when the
    run succeeded, and raises [AttributeError] in every other case: the data
    of a warning or error envelope is a list, which has no [get]. *)
Theorem analyze_data_raises_unless_success (now : Timestamp) (input : Value) :
  (forall batch,
     truthy input = true -> observe input = Ok batch ->
     exists envelope,
       run now input = Ok envelope /\
       field "status" envelope = Some (VStr "success") /\
       analyze_data now input = Ok envelope) /\
  (truthy input = false \/ (exists e, observe input = Raise e) ->
   exists envelope,
     run now input = Ok envelope /\
     field "data" envelope = Some (VList []) /\
     analyze_data now input = Raise AttributeError).
Proof.
  split.
  - intros batch Ht Ho. unfold analyze_data, run.
    rewrite (run_body_observed _ _ _ Ht Ho).
    destruct (analyze_shape now batch) as (r & Hr & Hshape).
    rewrite Hr. cbn [rbind]. eexists. split; [reflexivity |]. split; [reflexivity |].
    destruct (degraded_result_inv r Hshape) as (d & -> & Hkeys).
    unfold result_labels in Hkeys.
    destruct d as [|[k1 v1] [|[k2 v2] [|[k3 v3] [|[k4 v4] [|[k5 v5] [|[k6 v6] [|]]]]]]];
      try discriminate.
    cbn in Hkeys. injection Hkeys as -> -> -> -> -> ->. reflexivity.
  - intros H. unfold analyze_data, run, run_body.
    destruct H as [Ht | [e He]].
    + rewrite Ht. cbn [negb rbind]. eexists. split; [reflexivity |]. split; reflexivity.
    + destruct (truthy input) eqn:Ht.
      * cbn [negb]. rewrite He. cbn [rbind].
        eexists. split; [reflexivity |]. split; reflexivity.
      * unfold observe in He. rewrite Ht in He. discriminate.
Qed.

(** X5. The dashboard's observe phase on what the analysis agent's [run]
    returned: with a successful run it hands on the analysis result as it
    is (the canonical empty result included), with a warning or an error
    envelope it falls back to the empty dashboard data; it does not raise. *)
Theorem dashboard_observes_analysis_run (now : Timestamp) (input : Value) :
  exists envelope,
    run now input = Ok envelope /\
    ((exists batch result,
        truthy input = true /\ observe input = Ok batch /\
        analyze now batch = Ok result /\
        Dashboard.observe envelope = Ok result) \/
     ((truthy input = false \/ exists e, observe input = Raise e) /\
      Dashboard.observe envelope = Ok Dashboard.create_empty_dashboard_data)).
Proof.
  unfold run. destruct (truthy input) eqn:Ht.
  - destruct (observe input) as [batch | e] eqn:Ho.
    + rewrite (run_body_observed _ _ _ Ht Ho).
      destruct (analyze_shape now batch) as (r & Hr & Hshape).
      rewrite Hr. cbn [rbind]. eexists. split; [reflexivity |].
      left. exists batch, r. repeat split; try assumption.
      destruct (degraded_result_inv r Hshape) as (d & -> & Hkeys).
      unfold Dashboard.observe. cbn [truthy negb str_in map fst rbind].
      change (Text.mem "data" ["status"; "data"]) with true.
      cbn [negb subscript assoc rbind].
      change (String.eqb "data" "status") with false.
      change (String.eqb "data" "data") with true. cbv iota. cbn [rbind].
      assert (Htd : truthy (VDict d) = true)
        by (destruct d; [discriminate | reflexivity]).
      rewrite Htd. cbn [negb str_in rbind]. rewrite Hkeys. reflexivity.
    + unfold run_body. rewrite Ht, Ho. cbn [negb rbind].
      eexists. split; [reflexivity |]. right. split; [right; now exists e | reflexivity].
  - unfold run_body. rewrite Ht. cbn [negb].
    eexists. split; [reflexivity |]. right. split; [now left | reflexivity].
Qed.

End CallerProperties.

(* ===================================================================== *)
(** ** Record by record: what orient and decide do to an item *)
(* ===================================================================== *)

Lemma records_with_default (c : string) (v : Value) (df : DataFrame) :
  records (with_default c v df)
  = map (fun r => if Text.mem c (columns df) then r else set_field c v r) (records df).
Proof.
  unfold with_default. destruct (Text.mem c (columns df)).
  - now rewrite map_id.
  - reflexivity.
Qed.

Lemma some_item_has_columns (k : string) (rows : list Row) :
  Text.mem k (columns (from_records rows)) = some_item_has k rows.
Proof.
  cbn [from_records columns]. unfold some_item_has.
  apply eq_true_iff_eq. rewrite mem_iff, in_distinct, in_flat_map, existsb_exists.
  split; intros [row [Hrow Hk]]; exists row; split; auto; now apply mem_iff.
Qed.

Section RecordProperties.
Context {E : Externals}.

Lemma records_before_timestamps (now : Timestamp) (df : DataFrame) :
  records (before_timestamps now df)
  = map (fun r =>
           let r1 := if Text.mem "text" (columns df) then r
                     else set_field "text" (VStr "No text available") r in
           let r2 := if Text.mem "timestamp" (columns df) then r1
                     else set_field "timestamp" (VStr (strftime now)) r1 in
           let r3 := if Text.mem "platform" (columns df) then r2
                     else set_field "platform" (VStr "Unknown") r2 in
           set_field "text" (VStr (py_str (cell "text" r3))) r3)
        (records df).
Proof.
  unfold before_timestamps, with_text_as_str.
  rewrite (records_assign_column "text" "text" (fun v => VStr (py_str v))).
  rewrite !records_with_default, !map_map.
  rewrite !mem_columns_with_default. cbn [String.eqb Ascii.eqb Bool.eqb orb].
  reflexivity.
Qed.

Lemma records_oriented_frame (now : Timestamp) (df : DataFrame) :
  records (oriented_frame now df)
  = map (orient_row now (columns df)
           (to_datetime_raises (column "timestamp" (before_timestamps now df))))
        (records df).
Proof.
  unfold oriented_frame. fold (before_timestamps now df).
  unfold with_timestamps.
  destruct (to_datetime_raises (column "timestamp" (before_timestamps now df))).
  - unfold assign_scalar. cbn [records].
    rewrite records_before_timestamps, map_map. reflexivity.
  - rewrite (records_assign_column "timestamp" "timestamp" (fillna (VTime now))).
    rewrite (records_assign_column "timestamp" "timestamp" coerce_datetime).
    rewrite records_before_timestamps, !map_map. reflexivity.
Qed.

Lemma records_classified (df : DataFrame) :
  records (classified df) = map classify_row (records df).
Proof.
  unfold classified, with_urgency.
  rewrite (records_assign_map "urgency" (fun r => VStr (row_urgency r))).
  unfold with_category.
  rewrite (records_assign_column "category" "text"
             (fun t => VStr (categorize_feedback t))).
  unfold with_sentiment.
  rewrite (records_assign_column "sentiment" "text"
             (fun t => VStr (analyze_sentiment t))).
  rewrite !map_map. reflexivity.
Qed.

Lemma records_published (df : DataFrame) :
  records (assign "timestamp" (map iso_value (column "timestamp" (with_day df)))
                  (with_day df))
  = map publish_row (records df).
Proof.
  rewrite (records_assign_column "timestamp" "timestamp" iso_value).
  rewrite records_with_day, map_map. reflexivity.
Qed.

Ltac cells :=
  repeat (rewrite cell_set_field_same ||
          rewrite cell_set_field_other by discriminate).

Lemma column_before_timestamps (now : Timestamp) (rows : list Row) :
  column "timestamp" (before_timestamps now (from_records rows))
  = map (raw_timestamp now rows) rows.
Proof.
  unfold column. rewrite records_before_timestamps, map_map.
  unfold raw_timestamp. rewrite <- some_item_has_columns.
  cbn [from_records records]. apply map_ext. intros r. cbn zeta.
  destruct (Text.mem "text" _), (Text.mem "timestamp" _), (Text.mem "platform" _);
    cells; reflexivity.
Qed.

(** The cells of an oriented record. *)
Lemma cell_orient_row (now : Timestamp) (cols : list string) (raised : bool) (r : Row) :
  cell "text" (orient_row now cols raised r)
  = VStr (py_str (if Text.mem "text" cols then cell "text" r
                  else VStr "No text available")) /\
  cell "platform" (orient_row now cols raised r)
  = (if Text.mem "platform" cols then cell "platform" r else VStr "Unknown") /\
  cell "timestamp" (orient_row now cols raised r)
  = VTime (if raised then now
           else match to_datetime (if Text.mem "timestamp" cols then cell "timestamp" r
                                   else VStr (strftime now)) with
                | Some t => t
                | None => now
                end) /\
  forall k, k <> "text" -> k <> "timestamp" -> k <> "platform" ->
            cell k (orient_row now cols raised r) = cell k r.
Proof.
  unfold orient_row.
  destruct (Text.mem "text" cols), (Text.mem "timestamp" cols),
           (Text.mem "platform" cols), raised; cbn zeta;
    repeat split; intros; cells;
    try (rewrite !cell_set_field_other by congruence);
    try reflexivity;
    unfold coerce_datetime, fillna;
    match goal with
    | |- context [to_datetime ?v] => destruct (to_datetime v); reflexivity
    end.
Qed.

Lemma cell_classify_row (r : Row) :
  cell "sentiment" (classify_row r) = VStr (analyze_sentiment (cell "text" r)) /\
  cell "category" (classify_row r) = VStr (categorize_feedback (cell "text" r)) /\
  cell "urgency" (classify_row r)
  = VStr (urgency_rule (Text.lower (py_str (cell "text" r)))
            (VStr (analyze_sentiment (cell "text" r)))
            (VStr (categorize_feedback (cell "text" r)))) /\
  forall k, k <> "sentiment" -> k <> "category" -> k <> "urgency" ->
            cell k (classify_row r) = cell k r.
Proof.
  unfold classify_row, row_urgency. cbn zeta.
  repeat split; intros; cells; try reflexivity.
  now rewrite !cell_set_field_other by congruence.
Qed.

Lemma cell_publish_row (r : Row) :
  cell "day" (publish_row r) = VStr (day_of (cell "timestamp" r)) /\
  cell "timestamp" (publish_row r) = iso_value (cell "timestamp" r) /\
  forall k, k <> "day" -> k <> "timestamp" -> cell k (publish_row r) = cell k r.
Proof.
  unfold publish_row. cbn zeta.
  repeat split; intros; cells; try reflexivity.
  now rewrite !cell_set_field_other by congruence.
Qed.

(** The records of [feedback_data] are the items of the batch, one by one
    and in order, each passed through the three record functions. *)
Lemma feedback_records (now : Timestamp) (rows : list Row) :
  exists cols,
    (forall k, Text.mem k cols
               = (String.eqb k "day" || (String.eqb k "urgency" ||
                   (String.eqb k "category" || (String.eqb k "sentiment" ||
                     Text.mem k (columns (oriented_frame now (from_records rows))))))))
    /\
    serializable_records
      (with_day (classified (oriented_frame now (from_records rows))))
    = VList (map (fun r =>
                    VDict (map (fun c =>
                      (c, cell c (publish_row (classify_row
                            (orient_row now (columns (from_records rows))
                               (to_datetime_raises (map (raw_timestamp now rows) rows))
                               r)))))
                      cols))
                 rows).
Proof.
  set (df := oriented_frame now (from_records rows)).
  exists (columns (assign "timestamp"
                     (map iso_value (column "timestamp" (with_day (classified df))))
                     (with_day (classified df)))).
  split.
  - intros k. rewrite mem_columns_assign, mem_columns_with_day, mem_columns_classified.
    destruct (String.eqb_spec k "timestamp") as [-> | Hk]; [| reflexivity].
    cbn [String.eqb Ascii.eqb Bool.eqb orb].
    subst df. symmetry. apply mem_columns_oriented_frame. simpl; auto.
  - unfold serializable_records, to_dict_records.
    rewrite (records_published (classified df)), records_classified.
    subst df. rewrite records_oriented_frame, column_before_timestamps.
    cbn [from_records records columns]. rewrite !map_map. reflexivity.
Qed.

Lemma Forall2_map_r {A B : Type} (P : A -> B -> Prop) (f : A -> B) (l : list A) :
  (forall x, In x l -> P x (f x)) -> Forall2 P l (map f l).
Proof.
  induction l as [|x l IH]; intros H; simpl; constructor.
  - apply H. now left.
  - apply IH. intros y Hy. apply H. now right.
Qed.

End RecordProperties.

(* ===================================================================== *)
(** ** The orient phase and the records of the analysis *)
(* ===================================================================== *)


Section ItemProperties.
Context {E : Externals}.

Lemma mem_columns_oriented (now : Timestamp) (k : string) (df : DataFrame) :
  Text.mem k (columns (oriented_frame now df))
  = (String.eqb k "timestamp" || (String.eqb k "text" ||
      (String.eqb k "platform" || (String.eqb k "timestamp" ||
         (String.eqb k "text" || Text.mem k (columns df)))))).
Proof.
  unfold oriented_frame, with_text_as_str.
  rewrite mem_columns_with_timestamps, mem_columns_assign.
  now rewrite !mem_columns_with_default.
Qed.

(** The analysis of a non-empty batch of dictionaries, record by record. *)
Lemma analysed_records (now : Timestamp) (items : list Value) (rows : list Row) :
  as_records items = Some rows -> items <> [] ->
  exists result cols,
    analyze now (VList items) = Ok result /\
    (forall k, Text.mem k cols
               = (String.eqb k "day" || (String.eqb k "urgency" ||
                   (String.eqb k "category" || (String.eqb k "sentiment" ||
                     (String.eqb k "timestamp" || (String.eqb k "text" ||
                       (String.eqb k "platform" || some_item_has k rows)))))))) /\
    field "feedback_data" result
    = Some (VList (map (fun r =>
                    VDict (map (fun c =>
                      (c, cell c (publish_row (classify_row
                            (orient_row now (columns (from_records rows))
                               (to_datetime_raises (map (raw_timestamp now rows) rows))
                               r)))))
                      cols))
                 rows)).
Proof.
  intros Hrows Hne.
  destruct (feedback_records now rows) as (cols & Hcols & Hrecs).
  exists (analysis_of (oriented_frame now (from_records rows))), cols.
  split; [now apply analyze_records |]. split.
  - intros k. rewrite Hcols, mem_columns_oriented, some_item_has_columns.
    destruct (String.eqb k "timestamp"), (String.eqb k "text"),
      (String.eqb k "platform"), (String.eqb k "day"), (String.eqb k "urgency"),
      (String.eqb k "category"), (String.eqb k "sentiment"); reflexivity.
  - unfold analysis_of. cbn [field assoc String.eqb Ascii.eqb Bool.eqb].
    now rewrite Hrecs.
Qed.




(** X8. The [timestamp] of each record of [feedback_data] is the ISO form,
    and its [day] the date, of the item's own timestamp when that parses,
    and of the clock when the item has none, when it does not parse or when
    the conversion of the column raised. *)
Theorem feedback_data_timestamps_fall_back_to_clock
    (now : Timestamp) (items : list Value) (rows : list Row) :
  as_records items = Some rows -> items <> [] ->
  exists result recs,
    analyze now (VList items) = Ok result /\
    field "feedback_data" result = Some (VList recs) /\
    Forall2 (fun row rec =>
      field "timestamp" rec = Some (VStr (isoformat (item_timestamp now rows row))) /\
      field "day" rec = Some (VStr (date_str (item_timestamp now rows row))))
      rows recs.
Proof.
  intros Hrows Hne.
  destruct (analysed_records now items rows Hrows Hne) as (result & cols & Hrun & Hcols & Hfd).
  eexists. eexists. split; [exact Hrun |]. split; [exact Hfd |].
  apply Forall2_map_r. intros row _. cbn beta.
  set (o := orient_row now _ _ row).
  destruct (cell_orient_row now (columns (from_records rows))
              (to_datetime_raises (map (raw_timestamp now rows) rows)) row)
    as (_ & _ & Hts & _). fold o in Hts.
  rewrite some_item_has_columns in Hts.
  fold (raw_timestamp now rows row) in Hts.
  assert (Hts' : cell "timestamp" o = VTime (item_timestamp now rows row)).
  { rewrite Hts. unfold item_timestamp.
    now destruct (to_datetime_raises _). }
  destruct (cell_classify_row o) as (_ & _ & _ & Hk).
  destruct (cell_publish_row (classify_row o)) as (Hday & Hiso & _).
  rewrite Hk, Hts' in Hday, Hiso by discriminate.
  split; rewrite field_record by (rewrite Hcols; reflexivity).
  - now rewrite Hiso.
  - now rewrite Hday.
Qed.


End ItemProperties.

(* ===================================================================== *)
(** ** The two summaries *)
(* ===================================================================== *)

Lemma series_sum_perm (l l' : list Z) :
  Permutation l l' -> series_sum l = series_sum l'.
Proof.
  induction 1; rewrite ?series_sum_cons; lia.
Qed.

Lemma count_of_pos (k : string) (keys : list string) :
  In k keys -> 0 < count_of k keys.
Proof.
  induction keys as [|x keys IH]; intros H; [destruct H |].
  rewrite count_of_cons.
  assert (0 <= count_of k keys) by (unfold count_of; lia).
  destruct (String.eqb_spec k x) as [-> | Hne]; [lia |].
  destruct H as [-> | H]; [congruence |]. specialize (IH H). lia.
Qed.

(** [value_counts] tallies its labels. *)
Lemma value_counts_tallies (labels : list string) :
  value_counts labels = counts_dict (sort_desc (Counter labels)) /\
  tallies labels (sort_desc (Counter labels)).
Proof.
  split; [reflexivity |].
  pose proof (sort_desc_perm (Counter labels)) as Hperm.
  unfold tallies. split; [| split; [| split]].
  - apply (Permutation_NoDup (l := map fst (Counter labels))).
    + symmetry. now apply Permutation_map.
    + rewrite keys_Counter. apply NoDup_distinct.
  - intros k c. rewrite <- in_Counter. split; intros H.
    + now apply (Permutation_in _ Hperm).
    + now apply (Permutation_in _ (Permutation_sym Hperm)).
  - rewrite (series_sum_perm _ _ (Permutation_map snd Hperm)).
    unfold Counter. rewrite map_map. cbn [snd].
    apply series_sum_counts; [apply NoDup_distinct |].
    intros k Hk. now apply in_distinct.
  - apply sort_desc_sorted.
Qed.

Section Summaries.
Context {E : Externals}.

Lemma analyze_sentiment_label (text : Value) :
  In (analyze_sentiment text) ["positive"; "negative"; "neutral"].
Proof.
  unfold analyze_sentiment.
  destruct (negb nlp_available).
  - destruct (_ <? _)%nat; [simpl; auto |]. destruct (_ <? _)%nat; simpl; auto.
  - destruct (polarity _) as [p|]; [| simpl; auto].
    destruct (Qlt_bool _ p); [simpl; auto |]. destruct (Qlt_bool p _); simpl; auto.
Qed.

Lemma categorize_feedback_label (text : Value) :
  In (categorize_feedback text)
     ["bug"; "feature_request"; "ux_issue"; "positive_feedback"; "other"].
Proof.
  unfold categorize_feedback.
  repeat (destruct (Text.re_search _ _); [simpl; auto 6 |]). simpl; auto 6.
Qed.

(** The classified columns of the analysed frame, in terms of the items. *)
Lemma classified_columns (now : Timestamp) (rows : list Row) :
  let df := with_day (classified (oriented_frame now (from_records rows))) in
  map py_str (column "sentiment" df)
  = map (fun row => analyze_sentiment (VStr (item_text rows row))) rows /\
  map py_str (column "category" df)
  = map (fun row => categorize_feedback (VStr (item_text rows row))) rows /\
  map py_str (column "day" df)
  = map (fun row => date_str (item_timestamp now rows row)) rows.
Proof.
  cbn zeta. unfold column.
  rewrite records_with_day, records_classified, records_oriented_frame,
    column_before_timestamps.
  cbn [from_records records columns]. rewrite !map_map.
  repeat split; apply map_ext; intros row;
    set (o := orient_row now _ _ row);
    destruct (cell_orient_row now (distinct (flat_map (map fst) rows))
                (to_datetime_raises (map (raw_timestamp now rows) rows)) row)
      as (Htext & _ & Hts & _); fold o in Htext, Hts;
    change (distinct (flat_map (map fst) rows)) with (columns (from_records rows))
      in Htext, Hts;
    rewrite some_item_has_columns in Htext, Hts;
    destruct (cell_classify_row o) as (Hs & Hc & _ & Hk).
  - rewrite cell_set_field_other by discriminate. now rewrite Hs, Htext.
  - rewrite cell_set_field_other by discriminate. now rewrite Hc, Htext.
  - rewrite cell_set_field_same, Hk, Hts by discriminate. cbn [py_str day_of].
    unfold item_timestamp, raw_timestamp. now destruct (to_datetime_raises _).
Qed.

(** X10. The two summaries tally the items: [sentiment_summary] has one entry
    per sentiment that occurs, with the number of items of that sentiment,
    by decreasing count, and [top_issues] the same for the categories; the
    counts of each add up to the size of the batch, and only the three
    sentiments and the five categories occur as keys. *)
Theorem summaries_tally_the_items
    (now : Timestamp) (items : list Value) (rows : list Row) :
  as_records items = Some rows -> items <> [] ->
  let sentiments := map (fun row => analyze_sentiment (VStr (item_text rows row))) rows in
  let categories := map (fun row => categorize_feedback (VStr (item_text rows row))) rows in
  exists result by_sentiment by_category,
    analyze now (VList items) = Ok result /\
    field "sentiment_summary" result = Some (counts_dict by_sentiment) /\
    field "top_issues" result = Some (counts_dict by_category) /\
    tallies sentiments by_sentiment /\
    tallies categories by_category /\
    series_sum (map snd by_sentiment) = Z.of_nat (List.length items) /\
    series_sum (map snd by_category) = Z.of_nat (List.length items) /\
    incl (map fst by_sentiment) ["positive"; "negative"; "neutral"] /\
    incl (map fst by_category)
         ["bug"; "feature_request"; "ux_issue"; "positive_feedback"; "other"].
Proof.
  intros Hrows Hne sentiments categories.
  destruct (classified_columns now rows) as (Hs & Hc & _).
  fold sentiments in Hs. fold categories in Hc.
  destruct (value_counts_tallies sentiments) as (Hvs & Hts).
  destruct (value_counts_tallies categories) as (Hvc & Htc).
  exists (analysis_of (oriented_frame now (from_records rows))),
    (sort_desc (Counter sentiments)), (sort_desc (Counter categories)).
  assert (Hlen : List.length rows = List.length items)
    by (pose proof (as_records_length items rows Hrows); congruence).
  split; [now apply analyze_records |].
  unfold analysis_of. cbn [field assoc String.eqb Ascii.eqb Bool.eqb].
  rewrite Hs, Hc, Hvs, Hvc.
  split; [reflexivity |]. split; [reflexivity |].
  split; [exact Hts |]. split; [exact Htc |].
  split; [| split; [| split]].
  - destruct Hts as (_ & _ & Hsum & _). rewrite Hsum.
    unfold sentiments. now rewrite length_map, Hlen.
  - destruct Htc as (_ & _ & Hsum & _). rewrite Hsum.
    unfold categories. now rewrite length_map, Hlen.
  - intros k Hk. apply in_map_iff in Hk. destruct Hk as ([k' c] & <- & Hin).
    apply Hts in Hin. destruct Hin as [Hin _].
    apply in_map_iff in Hin. destruct Hin as (row & <- & _).
    apply analyze_sentiment_label.
  - intros k Hk. apply in_map_iff in Hk. destruct Hk as ([k' c] & <- & Hin).
    apply Htc in Hin. destruct Hin as [Hin _].
    apply in_map_iff in Hin. destruct Hin as (row & <- & _).
    apply categorize_feedback_label.
Qed.

End Summaries.

Section BatchKeywords.
Context {E : Externals}.



End BatchKeywords.

(* ===================================================================== *)
(** ** The trend tables *)
(* ===================================================================== *)

Lemma count_pair_cons (d l : string) (p : string * string)
    (pairs : list (string * string)) :
  count_pair d l (p :: pairs)
  = (if String.eqb d (fst p) && String.eqb l (snd p) then 1 else 0)
    + count_pair d l pairs.
Proof.
  unfold count_pair. cbn [filter].
  destruct (String.eqb d (fst p) && String.eqb l (snd p)); cbn [List.length]; lia.
Qed.

Lemma series_sum_zero {A : Type} (l : list A) :
  series_sum (map (fun _ => 0) l) = 0.
Proof.
  induction l as [|a l IH]; [reflexivity |].
  cbn [map]. rewrite series_sum_cons. lia.
Qed.

(** Over labels that cover the second components, the counts of the pairs of
    a day add up to the number of pairs of that day. *)
Lemma count_pair_sum (d : string) (ks : list string) (pairs : list (string * string)) :
  NoDup ks -> (forall p, In p pairs -> In (snd p) ks) ->
  series_sum (map (fun l => count_pair d l pairs) ks) = count_of d (map fst pairs).
Proof.
  intros Hnd. induction pairs as [|p pairs IH]; intros Hin.
  - unfold count_pair, count_of. simpl. apply series_sum_zero.
  - cbn [map]. rewrite count_of_cons.
    rewrite (map_ext _ (fun l => (if String.eqb d (fst p) && String.eqb l (snd p)
                                  then 1 else 0) + count_pair d l pairs))
      by (intros; apply count_pair_cons).
    rewrite (series_sum_map_add
               (fun l => if String.eqb d (fst p) && String.eqb l (snd p) then 1 else 0)
               (fun l => count_pair d l pairs)).
    rewrite IH by (intros q Hq; apply Hin; now right). f_equal.
    destruct (String.eqb d (fst p)); cbn [andb].
    + apply series_sum_indicator; [exact Hnd |]. apply Hin. now left.
    + apply series_sum_zero.
Qed.

Lemma map_fst_combine {A B : Type} (l : list A) (l' : list B) :
  List.length l = List.length l' -> map fst (combine l l') = l.
Proof.
  revert l'. induction l as [|x l IH]; intros [|y l'] H; simpl in *;
    try discriminate; [reflexivity |]. f_equal. apply IH. lia.
Qed.

(** Each row of a pivot table splits the row of [daily_count] at the same
    position. *)
Lemma pivot_counts_split (days labels : list string) :
  List.length days = List.length labels ->
  Forall2 splits_day (daily_count days) (pivot_counts days labels).
Proof.
  intros Hlen. unfold daily_count, pivot_counts, group_sizes.
  rewrite map_map. induction (sorted_unique days) as [|d ds IH]; cbn [map].
  - constructor.
  - constructor; [| exact IH].
    exists d, (count_of d days),
      (map (fun l => (l, VInt (count_pair d l (combine days labels))))
           (sorted_unique labels)).
    split; [reflexivity |]. split; [reflexivity |].
    unfold entries_sum. rewrite map_map. cbn [snd].
    rewrite count_pair_sum.
    + now rewrite map_fst_combine.
    + apply NoDup_sorted_unique.
    + intros [a b] Hp. apply in_combine_r in Hp. now apply in_sorted_unique.
Qed.

Lemma insert_sorted_ascending (x : string) (l : list string) :
  Sorted (fun a b => String.leb a b = true) l ->
  Sorted (fun a b => String.leb a b = true) (insert_sorted x l).
Proof.
  induction 1 as [|y l Hs IH Hhd]; simpl.
  - repeat constructor.
  - destruct (String.leb x y) eqn:Hxy.
    + constructor; [now constructor |]. now constructor.
    + constructor; [exact IH |].
      assert (Hyx : String.leb y x = true)
        by (destruct (String.leb_total x y); congruence).
      destruct l as [|z l]; simpl.
      * now constructor.
      * destruct (String.leb x z); constructor; [exact Hyx |].
        now inversion Hhd.
Qed.

Lemma sorted_unique_ascending (keys : list string) :
  Sorted (fun a b => String.leb a b = true) (sorted_unique keys).
Proof.
  unfold sorted_unique. induction (distinct keys); simpl.
  - constructor.
  - now apply insert_sorted_ascending.
Qed.

(** The days of [daily_count]: each day that occurs, once, in ascending
    order. *)
Lemma daily_count_days (days : list string) :
  days_of (daily_count days) = map (fun d => Some (VStr d)) (sorted_unique days).
Proof.
  unfold days_of, daily_count, group_sizes. rewrite !map_map. reflexivity.
Qed.

Section Trends.
Context {E : Externals}.

(** X12. The three tables of [time_trends] agree: the rows of
    [sentiment_trend] and of [category_trend] are those of [daily_count] day
    by day, and the counts in a row add up to the count of that day. The
    days are the dates of the items, each once and in ascending order. *)
Theorem trend_tables_split_the_daily_counts
    (now : Timestamp) (items : list Value) (rows : list Row) :
  as_records items = Some rows -> items <> [] ->
  exists result daily by_sentiment by_category days,
    analyze now (VList items) = Ok result /\
    field "time_trends" result
    = Some (VDict [("daily_count", VList daily);
                   ("sentiment_trend", VList by_sentiment);
                   ("category_trend", VList by_category)]) /\
    Forall2 splits_day daily by_sentiment /\
    Forall2 splits_day daily by_category /\
    days_of daily = map (fun d => Some (VStr d)) days /\
    NoDup days /\
    Sorted (fun a b => String.leb a b = true) days /\
    forall d, In d days
              <-> exists row, In row rows /\ d = date_str (item_timestamp now rows row).
Proof.
  intros Hrows Hne.
  destruct (classified_columns now rows) as (Hs & Hc & Hd).
  set (df := with_day (classified (oriented_frame now (from_records rows)))) in *.
  exists (analysis_of (oriented_frame now (from_records rows))).
  exists (daily_count (map py_str (column "day" df))),
    (pivot_counts (map py_str (column "day" df)) (map py_str (column "sentiment" df))),
    (pivot_counts (map py_str (column "day" df)) (map py_str (column "category" df))),
    (sorted_unique (map py_str (column "day" df))).
  split; [now apply analyze_records |].
  split; [reflexivity |].
  split; [apply pivot_counts_split; now rewrite Hd, Hs, !length_map |].
  split; [apply pivot_counts_split; now rewrite Hd, Hc, !length_map |].
  split; [apply daily_count_days |].
  split; [apply NoDup_sorted_unique |].
  split; [apply sorted_unique_ascending |].
  intros d. rewrite in_sorted_unique, Hd, in_map_iff.
  split; intros (row & H1 & H2); exists row; auto.
Qed.

End Trends.

(* ===================================================================== *)
(** ** How many days the spike test needs *)
(* ===================================================================== *)

Lemma filter_none {A : Type} (f : A -> bool) (l : list A) :
  (forall x, In x l -> f x = false) -> filter f l = [].
Proof.
  induction l as [|x l IH]; intros H; simpl; [reflexivity |].
  rewrite (H x) by now left. apply IH. intros y Hy. apply H. now right.
Qed.

Lemma Qlt_bool_false (a b : Q) : (b <= a)%Q -> Qlt_bool a b = false.
Proof.
  intros H. destruct (Qlt_bool a b) eqn:Hlt; [| reflexivity].
  apply Qlt_bool_iff in Hlt. exfalso. now apply (Qlt_not_le a b).
Qed.

(** A squared deviation is at most the sum of the squared deviations. *)
Lemma square_le_Qsum (m : Q) (c : Z) (l : list Z) :
  In c l ->
  ((inject_Z c - m) * (inject_Z c - m)
   <= Qsum (map (fun x => (inject_Z x - m) * (inject_Z x - m)) l))%Q.
Proof.
  assert (Hsq : forall q : Q, (0 <= q * q)%Q).
  { intros q. destruct (Qlt_le_dec q 0) as [Hq | Hq].
    - setoid_replace (q * q)%Q with ((- q) * (- q))%Q by ring.
      apply Qmult_le_0_compat; apply (Qopp_le_compat q 0); now apply Qlt_le_weak.
    - now apply Qmult_le_0_compat. }
  induction l as [|x l IH]; intros H; [destruct H |].
  cbn [map Qsum fold_right].
  assert (Hrest : (0 <= Qsum (map (fun x => (inject_Z x - m) * (inject_Z x - m)) l))%Q).
  { apply Qsum_nonneg, Forall_map, Forall_forall. intros y _. apply Hsq. }
  destruct H as [-> | H].
  - rewrite <- (Qplus_0_r ((inject_Z c - m) * (inject_Z c - m))) at 1.
    apply Qplus_le_compat; [apply Qle_refl | exact Hrest].
  - rewrite <- (Qplus_0_l ((inject_Z c - m) * (inject_Z c - m))).
    apply Qplus_le_compat; [apply Hsq | now apply IH].
Qed.

Lemma Qle_four_times_quotient (T k : Q) :
  (0 <= T)%Q -> (0 < k)%Q -> (k <= 4)%Q -> (T <= 4 * (T / k))%Q.
Proof.
  intros HT Hk Hk4.
  assert (Hq : (0 <= T / k)%Q).
  { apply Qle_shift_div_l; [exact Hk |]. now rewrite Qmult_0_l. }
  assert (Hne : ~ (k == 0)%Q) by (intros H; rewrite H in Hk; now apply (Qlt_irrefl 0)).
  rewrite <- (Qmult_div_r T k Hne) at 1.
  now apply Qmult_le_compat_r.
Qed.

(** With at most five counts, no count is above the mean by more than two
    standard deviations. *)
Lemma no_spike_within_five (l : list Z) (c : Z) :
  In c l -> (List.length l <= 5)%nat ->
  above_threshold c (series_mean l) (series_std_sq l) = false.
Proof.
  intros Hin Hlen. unfold series_std_sq.
  destruct (Nat.ltb_spec 1 (List.length l)) as [Hn | Hn].
  - unfold above_threshold. cbv zeta.
    rewrite (Qlt_bool_false (4 * series_var l)); [apply andb_false_r |].
    apply Qle_trans with (1 := square_le_Qsum (series_mean l) c l Hin).
    unfold series_var. apply Qle_four_times_quotient.
    + apply Qsum_nonneg, Forall_map, Forall_forall. intros y _.
      destruct (Qlt_le_dec (inject_Z y - series_mean l) 0) as [Hq | Hq].
      * setoid_replace ((inject_Z y - series_mean l) * (inject_Z y - series_mean l))%Q
          with ((- (inject_Z y - series_mean l)) * (- (inject_Z y - series_mean l)))%Q
          by ring.
        apply Qmult_le_0_compat;
          apply (Qopp_le_compat (inject_Z y - series_mean l) 0); now apply Qlt_le_weak.
      * now apply Qmult_le_0_compat.
    + unfold series_len, Qminus. change (- (1))%Q with (inject_Z (-1)).
      rewrite <- inject_Z_plus. change 0%Q with (inject_Z 0).
      rewrite <- Zlt_Qlt. lia.
    + unfold series_len, Qminus. change (- (1))%Q with (inject_Z (-1)).
      rewrite <- inject_Z_plus. change 4%Q with (inject_Z 4).
      rewrite <- Zle_Qle. lia.
  - destruct l as [|x [|y l]]; [destruct Hin | | simpl in Hn; lia].
    destruct Hin as [-> | []].
    apply above_threshold_at_mean, series_mean_single.
Qed.

(** Neither pass flags a day when there are at most five days. *)
Lemma volume_spikes_need_six_days (day_counts : list (string * Z)) :
  (List.length day_counts <= 5)%nat -> volume_spikes day_counts = [].
Proof.
  intros Hlen. unfold volume_spikes. apply filter_none. intros [d c] Hin.
  apply no_spike_within_five.
  - apply in_map_iff. now exists (d, c).
  - now rewrite length_map.
Qed.

Lemma negative_spikes_need_six_days (negative_counts : list (string * Z)) :
  (List.length negative_counts <= 5)%nat -> negative_spikes negative_counts = [].
Proof.
  intros Hlen. unfold negative_spikes.
  destruct negative_counts as [|p negative_counts]; [reflexivity |].
  apply filter_none. intros [d c] Hin.
  apply no_spike_within_five.
  - apply in_map_iff. now exists (d, c).
  - now rewrite length_map.
Qed.

Lemma length_group_sizes (keys : list string) :
  List.length (group_sizes keys) = List.length (distinct keys).
Proof.
  unfold group_sizes. rewrite length_map.
  apply Permutation_length, sorted_unique_perm.
Qed.

Lemma length_distinct_incl (keys keys' : list string) :
  incl keys keys' ->
  (List.length (distinct keys) <= List.length (distinct keys'))%nat.
Proof.
  intros H. apply NoDup_incl_length; [apply NoDup_distinct |].
  intros k Hk. apply (proj2 (in_distinct k keys')), H.
  exact (proj1 (in_distinct k keys) Hk).
Qed.

Section Spikes.
Context {E : Externals}.

(** The anomaly report of a frame with at most five days. *)
Lemma anomaly_report_within_five (df : DataFrame) :
  (List.length (distinct (map day_of (column "timestamp" df))) <= 5)%nat ->
  anomaly_report df
  = if (List.length (distinct (map day_of (column "timestamp" df))) <? 3)%nat
    then VDict []
    else VDict [("volume_anomalies", VDict []);
                ("negative_sentiment_anomalies", VDict [])].
Proof.
  intros Hdays. unfold anomaly_report. cbv zeta.
  rewrite length_group_sizes.
  destruct (_ <? 3)%nat; [reflexivity |].
  rewrite volume_spikes_need_six_days by now rewrite length_group_sizes.
  unfold negative_anomalies_dict.
  destruct (negative_records df) as [|r rs] eqn:Hneg; [reflexivity |].
  rewrite negative_spikes_need_six_days; [reflexivity |].
  rewrite length_group_sizes.
  apply Nat.le_trans with (2 := Hdays). apply length_distinct_incl.
  intros d Hd. apply in_map_iff in Hd. destruct Hd as (r' & <- & Hr').
  rewrite <- Hneg in Hr'. unfold negative_records in Hr'.
  apply filter_In in Hr'. destruct Hr' as [Hr' _].
  unfold column. rewrite map_map. apply in_map_iff. now exists r'.
Qed.

(** X13. A batch whose items fall on at most five days has no anomaly: with
    fewer than three days [anomalies] is the empty mapping, with three to
    five days both of its maps are empty (a count can exceed the mean by
    more than two sample standard deviations only among six counts or
    more). *)
Theorem anomalies_need_six_days
    (now : Timestamp) (items : list Value) (rows : list Row) :
  as_records items = Some rows -> items <> [] ->
  let days := distinct (map (fun row => date_str (item_timestamp now rows row)) rows) in
  (List.length days <= 5)%nat ->
  exists result,
    analyze now (VList items) = Ok result /\
    field "anomalies" result
    = Some (if (List.length days <? 3)%nat then VDict []
            else VDict [("volume_anomalies", VDict []);
                        ("negative_sentiment_anomalies", VDict [])]).
Proof.
  intros Hrows Hne days Hdays.
  exists (analysis_of (oriented_frame now (from_records rows))).
  split; [now apply analyze_records |].
  unfold analysis_of. cbn [field assoc String.eqb Ascii.eqb Bool.eqb].
  set (df := with_day (classified (oriented_frame now (from_records rows)))).
  assert (Hcol : map day_of (column "timestamp" df)
                 = map (fun row => date_str (item_timestamp now rows row)) rows).
  { destruct (classified_columns now rows) as (_ & _ & Hd). fold df in Hd.
    rewrite <- Hd. unfold df at 2. unfold with_day.
    rewrite column_assign_same by (now rewrite length_map, length_column).
    rewrite map_map. cbn [py_str].
    unfold df. now rewrite column_with_day by discriminate. }
  rewrite anomaly_report_within_five; rewrite Hcol; [reflexivity | exact Hdays].
Qed.

End Spikes.

Lemma five_level_counts_statistics (a b : Z) :
  (series_mean [a; a; a; a; a; b] == (5 * inject_Z a + inject_Z b) / 6)%Q /\
  (series_std_sq [a; a; a; a; a; b]
   == (inject_Z b - inject_Z a) * (inject_Z b - inject_Z a) / 6)%Q.
Proof.
  assert (Hsum : (inject_Z (a + (a + (a + (a + (a + (b + 0))))))
                  == 5 * inject_Z a + inject_Z b)%Q).
  { replace (a + (a + (a + (a + (a + (b + 0)))))) with (5 * a + b) by lia.
    now rewrite inject_Z_plus, inject_Z_mult. }
  split.
  - unfold series_mean, series_sum, series_len. cbn [fold_right List.length].
    rewrite Hsum. reflexivity.
  - unfold series_std_sq. cbn [List.length Nat.ltb Nat.leb].
    unfold series_var, series_mean, series_sum, series_len.
    cbn [fold_right List.length map Qsum].
    rewrite Hsum. change (inject_Z (Z.of_nat 6)) with 6%Q. field.
Qed.

(** X14. Six days are enough for the spike test: after five days of the
    same count, a day of any larger count is flagged, and it alone. *)
Theorem a_sixth_day_above_five_level_days_is_flagged
    (d1 d2 d3 d4 d5 d6 : string) (a b : Z) :
  a < b ->
  volume_spikes [(d1, a); (d2, a); (d3, a); (d4, a); (d5, a); (d6, b)] = [(d6, b)].
Proof.
  intros Hab.
  destruct (five_level_counts_statistics a b) as (Hmean & Hvar).
  assert (Hlow : above_threshold a (series_mean [a; a; a; a; a; b])
                   (series_std_sq [a; a; a; a; a; b]) = false).
  { unfold above_threshold. cbv zeta.
    rewrite (Qlt_bool_false 0); [reflexivity |].
    rewrite Hmean.
    assert (H : (inject_Z a <= inject_Z b)%Q) by (rewrite <- Zle_Qle; lia).
    apply Qle_minus_iff.
    setoid_replace (0 + - (inject_Z a - (5 * inject_Z a + inject_Z b) / 6))%Q
      with ((inject_Z b + - inject_Z a) / 6)%Q by field.
    apply Qle_shift_div_l; [reflexivity |]. rewrite Qmult_0_l.
    now apply Qle_minus_iff in H. }
  assert (Hhigh : above_threshold b (series_mean [a; a; a; a; a; b])
                    (series_std_sq [a; a; a; a; a; b]) = true).
  { unfold above_threshold. cbv zeta.
    assert (Hk : (0 < inject_Z b - inject_Z a)%Q).
    { rewrite <- (Qplus_opp_r (inject_Z a)). unfold Qminus.
      apply Qplus_lt_le_compat; [rewrite <- Zlt_Qlt; lia | apply Qle_refl]. }
    apply andb_true_iff. split; apply Qlt_bool_iff.
    - rewrite Hmean.
      setoid_replace (inject_Z b - (5 * inject_Z a + inject_Z b) / 6)%Q
        with ((inject_Z b - inject_Z a) * (5 / 6))%Q by field.
      rewrite <- (Qmult_0_l (5 / 6)). now apply Qmult_lt_compat_r.
    - rewrite Hmean, Hvar.
      apply Qlt_minus_iff.
      setoid_replace
        ((inject_Z b - (5 * inject_Z a + inject_Z b) / 6)
         * (inject_Z b - (5 * inject_Z a + inject_Z b) / 6)
         + - (4 * ((inject_Z b - inject_Z a) * (inject_Z b - inject_Z a) / 6)))%Q
        with ((inject_Z b - inject_Z a) * ((inject_Z b - inject_Z a) * (1 / 36)))%Q
        by field.
      rewrite <- (Qmult_0_r (inject_Z b - inject_Z a)).
      apply Qmult_lt_l; [exact Hk |].
      rewrite <- (Qmult_0_l (1 / 36)). now apply Qmult_lt_compat_r. }
  unfold volume_spikes. cbn [map snd filter].
  now rewrite Hlow, Hhigh.
Qed.

(* ===================================================================== *)
(** ** The classifiers on their edge cases *)
(* ===================================================================== *)

Lemma contains_longer (p q s : string) :
  Text.contains (p ++ q)%string s = true -> Text.contains q s = true.
Proof.
  intros H. apply contains_iff in H. destruct H as (a & b & ->).
  apply contains_iff. exists (a ++ p)%string, b.
  now rewrite <- !string_app_assoc.
Qed.

Section Classifiers.
Context {E : Externals}.

(** X15. Without the NLP libraries, the word "dislike" alone never makes a
    text negative, because it contains "like": a text in which "dislike" is
    the only negative word is positive when one of the other positive words
    occurs, and neutral otherwise. *)
Theorem dislike_alone_is_not_negative (text : Value) :
  nlp_available = false ->
  let lowered := Text.lower (py_str text) in
  Text.contains "dislike" lowered = true ->
  Text.re_search ["bad"; "poor"; "terrible"; "awful"; "hate"] lowered = false ->
  analyze_sentiment text
  = if Text.re_search ["good"; "great"; "excellent"; "amazing"; "love"] lowered
    then "positive" else "neutral".
Proof.
  intros Hnlp lowered Hdis Hneg.
  assert (Hlike : Text.contains "like" lowered = true)
    by exact (contains_longer "dis" "like" lowered Hdis).
  unfold analyze_sentiment. rewrite Hnlp. cbn [negb]. fold lowered.
  unfold count_present, positive_words, negative_words.
  cbn [Text.re_search existsb] in Hneg |- *.
  rewrite !orb_false_iff in Hneg.
  destruct Hneg as (Hbad & Hpoor & Hterrible & Hawful & Hhate & _).
  cbn [filter]. rewrite Hbad, Hpoor, Hterrible, Hawful, Hhate, Hdis, Hlike.
  destruct (Text.contains "good" lowered), (Text.contains "great" lowered),
    (Text.contains "excellent" lowered), (Text.contains "amazing" lowered),
    (Text.contains "love" lowered); reflexivity.
Qed.

(** X16. [determine_urgency] raises exactly when the row lacks one of the
    keys [text], [sentiment] and [category], and then a [KeyError]; the
    values may be of any type. When it returns, the urgency is one of the
    three levels, and it is medium exactly for a negative UX issue: a bug is
    never of medium urgency. *)
Theorem determine_urgency_raises_on_a_missing_key (row : Row) :
  (forallb (fun k => Text.mem k (map fst row)) ["text"; "sentiment"; "category"] = false
   <-> determine_urgency row = Raise KeyError) /\
  (forall e, determine_urgency row = Raise e -> e = KeyError) /\
  (forall u, determine_urgency row = Ok u ->
     In u ["high"; "medium"; "low"] /\
     (u = "medium" <->
      cell "category" row = VStr "ux_issue" /\ cell "sentiment" row = VStr "negative") /\
     (cell "category" row = VStr "bug" -> u <> "medium")).
Proof.
  unfold determine_urgency, row_item, cell. cbn [forallb andb].
  destruct (assoc "text" row) as [t|] eqn:Ht;
    [rewrite (assoc_some_mem _ _ _ Ht)
    |rewrite (proj1 (assoc_none_iff _ _) Ht)];
    (destruct (assoc "sentiment" row) as [s|] eqn:Hs;
     [rewrite (assoc_some_mem _ _ _ Hs)
     |rewrite (proj1 (assoc_none_iff _ _) Hs)]);
    (destruct (assoc "category" row) as [c|] eqn:Hc;
     [rewrite (assoc_some_mem _ _ _ Hc)
     |rewrite (proj1 (assoc_none_iff _ _) Hc)]);
    cbn [rbind andb];
    try (split; [split; [reflexivity | reflexivity] |];
         split; [intros e He; now injection He | discriminate]).
  split; [split; discriminate |]. split; [discriminate |].
  intros u Hu. injection Hu as <-. unfold urgency_rule.
  assert (Hc' : forall x, eq_str c x = true <-> c = VStr x).
  { intros x. destruct c; cbn [eq_str]; try (split; discriminate).
    rewrite String.eqb_eq. split; congruence. }
  assert (Hs' : forall x, eq_str s x = true <-> s = VStr x).
  { intros x. destruct s; cbn [eq_str]; try (split; discriminate).
    rewrite String.eqb_eq. split; congruence. }
  destruct (eq_str c "bug") eqn:Hbug, (eq_str c "ux_issue") eqn:Hux,
    (eq_str s "negative") eqn:Hn, (Text.re_search urgent_terms _);
    cbn [andb orb];
    try apply Hc' in Hbug; try apply Hc' in Hux; try apply Hs' in Hn;
    (split; [simpl; tauto |]);
    (split; [split; [try discriminate; intros _ | intros [H1 H2]] | intros H1]);
    subst; try discriminate; try congruence; try (split; reflexivity).
  all: try (exfalso; rewrite H1 in Hux; discriminate).
  all: try (exfalso; rewrite H2 in Hn; discriminate).
Qed.

End Classifiers.

(* ===================================================================== *)
(** ** Serialisation of the trend tables *)
(* ===================================================================== *)




(* ===================================================================== *)
(** ** The dashboard on the records of an analysis *)
(* ===================================================================== *)

Lemma bucket_of_name (category : Value) :
  In (Dashboard.bucket_of category) bucket_names.
Proof.
  unfold Dashboard.bucket_of, bucket_names.
  repeat (destruct (eq_str category _); [simpl; auto 6 |]). simpl; auto 6.
Qed.

Lemma length_filter_in_bucket (b : string) (item : Value) (items : list Value) :
  Z.of_nat (List.length (filter (in_bucket b) (item :: items)))
  = (if String.eqb (Dashboard.bucket_of (category_of item)) b then 1 else 0)
    + Z.of_nat (List.length (filter (in_bucket b) items)).
Proof.
  cbn [filter]. unfold in_bucket at 1.
  destruct (String.eqb _ b); cbn [List.length]; lia.
Qed.

(** The loop of [categorize_feedback] appends each item to its bucket. *)
Lemma bucket_all_filter (items : list Value) (acc : string -> list Value) :
  Forall (fun item => is_dict item = true) items ->
  Dashboard.bucket_all items (map (fun b => (b, VList (acc b))) bucket_names)
  = Ok (map (fun b => (b, VList (acc b ++ filter (in_bucket b) items))) bucket_names).
Proof.
  intros Hd. revert acc. induction Hd as [|item items Hitem _ IH]; intros acc.
  - cbn [Dashboard.bucket_all filter]. f_equal. apply map_ext. intros b.
    now rewrite app_nil_r.
  - cbn [Dashboard.bucket_all].
    destruct item as [| | | | | | |d]; try discriminate.
    assert (Hget : dict_get (VDict d) "category" (VStr "other")
                   = Ok (category_of (VDict d))).
    { unfold dict_get, category_of, field. now destruct (assoc "category" d). }
    rewrite Hget. cbn [rbind].
    set (c := category_of (VDict d)).
    assert (Happ :
      Dashboard.bucket_append (Dashboard.bucket_of c) (VDict d)
        (map (fun b => (b, VList (acc b))) bucket_names)
      = map (fun b => (b, VList ((fun b => acc b ++
                                    (if in_bucket b (VDict d) then [VDict d] else []))
                                 b)))
            bucket_names).
    { unfold in_bucket. fold c.
      pose proof (bucket_of_name c) as Hin. unfold bucket_names in *.
      cbn [In] in Hin.
      destruct Hin as [<- | [<- | [<- | [<- | [<- | []]]]]];
        cbn; now rewrite ?app_nil_r. }
    rewrite Happ, IH. f_equal. apply map_ext. intros b. cbn [filter].
    rewrite <- app_assoc. now destruct (in_bucket b (VDict d)).
Qed.

(** X18. The dashboard's [categorize_feedback] partitions a list of records:
    each of the five buckets holds, in order, the records whose category is
    the bucket's (and [other] those of any other or of no category), so that
    the sizes of the buckets add up to the number of records. *)
Theorem dashboard_buckets_partition_the_records (items : list Value) :
  Forall (fun item => is_dict item = true) items ->
  Dashboard.categorize_feedback (VList items)
  = VDict (map (fun b => (b, VList (filter (in_bucket b) items))) bucket_names) /\
  series_sum (map (fun b => Z.of_nat (List.length (filter (in_bucket b) items)))
                  bucket_names)
  = Z.of_nat (List.length items).
Proof.
  intros Hd. split.
  - unfold Dashboard.categorize_feedback.
    destruct items as [|item items]; [reflexivity |].
    cbn [truthy negb iterate rbind].
    change Dashboard.empty_buckets
      with (map (fun b => (b, VList ((fun _ => []) b))) bucket_names).
    now rewrite (bucket_all_filter _ _ Hd).
  - clear Hd. induction items as [|item items IH]; [reflexivity |].
    rewrite (map_ext _ (fun b =>
               (if String.eqb (Dashboard.bucket_of (category_of item)) b then 1 else 0)
               + Z.of_nat (List.length (filter (in_bucket b) items))))
      by (intros b; apply length_filter_in_bucket).
    rewrite (series_sum_map_add
               (fun b => if String.eqb (Dashboard.bucket_of (category_of item)) b
                         then 1 else 0)
               (fun b => Z.of_nat (List.length (filter (in_bucket b) items)))).
    rewrite IH. cbn [List.length]. rewrite Nat2Z.inj_succ.
    pose proof (bucket_of_name (category_of item)) as Hin.
    unfold bucket_names in *. cbn [In] in Hin.
    generalize (Z.of_nat (List.length items)). intros n.
    destruct Hin as [<- | [<- | [<- | [<- | [<- | []]]]]];
      cbn [map String.eqb Ascii.eqb Bool.eqb]; rewrite !series_sum_cons;
      change (series_sum []) with 0; lia.
Qed.

(** A day is never the word [detected]. *)
Lemma day_of_not_detected (v : Value) : day_of v <> "detected".
Proof.
  destruct v; discriminate.
Qed.

Lemma assoc_counts_none (k : string) (l : list (string * Z)) :
  ~ In k (map fst l) ->
  assoc k (map (fun dc => (fst dc, VInt (snd dc))) l) = None.
Proof.
  induction l as [|[d c] l IH]; intros H; [reflexivity |].
  cbn [map assoc fst snd].
  destruct (String.eqb_spec k d) as [-> | Hne].
  - exfalso. apply H. now left.
  - apply IH. intros Hin. apply H. now right.
Qed.

(** An entry without a true [detected] gives no alert. *)
Lemma anomaly_alerts_none (clock : Timestamp) (entries : list (string * Value)) :
  Forall (fun e => exists d, snd e = VDict d /\ assoc "detected" d = None) entries ->
  Dashboard.anomaly_alerts clock entries = Ok [].
Proof.
  induction 1 as [|[k v] entries (d & Hv & Hd) _ IH]; [reflexivity |].
  cbn [snd] in Hv. subst v. cbn [Dashboard.anomaly_alerts is_dict dict_get].
  rewrite Hd. cbn [rbind truthy]. now rewrite IH.
Qed.

Lemma keys_group_sizes (keys : list string) :
  map fst (group_sizes keys) = sorted_unique keys.
Proof. unfold group_sizes. rewrite map_map. cbn [fst]. apply map_id. Qed.

Lemma in_keys_filter {A : Type} (f : string * A -> bool) (l : list (string * A))
    (k : string) :
  In k (map fst (filter f l)) -> In k (map fst l).
Proof.
  intros H. apply in_map_iff in H. destruct H as (p & <- & Hp).
  apply filter_In in Hp. apply in_map. now destruct Hp.
Qed.

Section Alerts.
Context {E : Externals}.

Lemma anomaly_report_undetected (df : DataFrame) :
  exists entries,
    anomaly_report df = VDict entries /\
    Forall (fun e => exists d, snd e = VDict d /\ assoc "detected" d = None) entries.
Proof.
  unfold anomaly_report. cbv zeta.
  destruct (_ <? 3)%nat; [exists []; split; [reflexivity | constructor] |].
  eexists. split; [reflexivity |].
  constructor; [| constructor; [| constructor]]; cbn [snd].
  - eexists. split; [reflexivity |]. apply assoc_counts_none.
    intros Hin. unfold volume_spikes in Hin. apply in_keys_filter in Hin.
    rewrite keys_group_sizes, in_sorted_unique, in_map_iff in Hin.
    destruct Hin as (v & Hv & _). now apply (day_of_not_detected v).
  - unfold negative_anomalies_dict.
    destruct (negative_records df) as [|r rs]; [now exists [] |].
    eexists. split; [reflexivity |]. apply assoc_counts_none.
    intros Hin. unfold negative_spikes in Hin.
    destruct (group_sizes _) as [|p ps] eqn:Hg; [destruct Hin |].
    apply in_keys_filter in Hin. rewrite <- Hg in Hin.
    rewrite keys_group_sizes, in_sorted_unique, in_map_iff in Hin.
    destruct Hin as (r' & Hv & _). now apply (day_of_not_detected (cell "timestamp" r')).
Qed.

(** The comprehension of [generate_alerts] on dictionaries. *)
Lemma select_urgent_negative (items : list Value) :
  Forall (fun item => is_dict item = true) items ->
  Dashboard.select Dashboard.is_urgent_negative items
  = Ok (filter (fun item =>
                  match field "urgency" item, field "sentiment" item with
                  | Some u, Some s => eq_str u "high" && eq_str s "negative"
                  | _, _ => false
                  end) items).
Proof.
  induction 1 as [|item items Hitem _ IH]; [reflexivity |].
  cbn [Dashboard.select filter]. rewrite IH.
  destruct item as [| | | | | | |d]; try discriminate.
  unfold Dashboard.is_urgent_negative, dict_get. cbn [field].
  destruct (assoc "urgency" d) as [u|]; cbn [rbind eq_str].
  - destruct (eq_str u "high"); cbn [andb].
    + destruct (assoc "sentiment" d) as [s|]; cbn [rbind eq_str]; reflexivity.
    + now destruct (assoc "sentiment" d).
  - reflexivity.
Qed.

Lemma length_filter_Forall2 {A B : Type} (p : A -> bool) (q : B -> bool)
    (l : list A) (l' : list B) :
  Forall2 (fun x y => q y = p x) l l' ->
  List.length (filter q l') = List.length (filter p l).
Proof.
  induction 1 as [|x y l l' Hxy _ IH]; [reflexivity |].
  cbn [filter]. rewrite Hxy. destruct (p x); cbn [List.length]; now rewrite IH.
Qed.

Lemma Forall2_map_l {A B C : Type} (R : B -> C -> Prop) (f : A -> B)
    (l : list A) (l' : list C) :
  Forall2 R (map f l) l' <-> Forall2 (fun x y => R (f x) y) l l'.
Proof.
  revert l'. induction l as [|x l IH]; intros l'; split; intros H;
    inversion H; subst; constructor; auto; now apply IH.
Qed.

Lemma Forall2_weaken {A B : Type} (R R' : A -> B -> Prop) (l : list A) (l' : list B) :
  (forall x y, R x y -> R' x y) -> Forall2 R l l' -> Forall2 R' l l'.
Proof. intros H. induction 1; constructor; auto. Qed.

(** High urgency with negative sentiment is a bug with negative sentiment. *)
Lemma high_and_negative (text sentiment category : string) :
  eq_str (VStr (urgency_rule text (VStr sentiment) (VStr category))) "high"
  && eq_str (VStr sentiment) "negative"
  = String.eqb category "bug" && String.eqb sentiment "negative".
Proof.
  unfold urgency_rule. cbn [eq_str].
  destruct (String.eqb category "bug"), (String.eqb sentiment "negative"),
    (Text.re_search urgent_terms text), (String.eqb category "ux_issue");
    reflexivity.
Qed.

(** X19. The alerts the dashboard derives from an analysis. Given the
    anomalies of the analysis and its feedback records, or copies of them
    that keep their urgency and sentiment, [generate_alerts] never gives an
    anomaly alert, since no entry of the anomalies has a [detected] key; it
    gives the one alert on urgent negative feedback when at least three
    items of the batch are bugs of negative sentiment, and nothing
    otherwise. *)
Theorem dashboard_alerts_of_an_analysis
    (now clock : Timestamp) (items : list Value) (rows : list Row) :
  as_records items = Some rows -> items <> [] ->
  exists result recs anomalies,
    analyze now (VList items) = Ok result /\
    field "feedback_data" result = Some (VList recs) /\
    field "anomalies" result = Some anomalies /\
    Forall2 keeps_urgency_and_sentiment recs recs /\
    forall feedback,
      Forall2 keeps_urgency_and_sentiment recs feedback ->
      Dashboard.generate_alerts clock (VList feedback) anomalies
      = VList (let n := List.length (filter (negative_bug rows) rows) in
               if (3 <=? n)%nat then [Dashboard.urgent_alert clock n] else []).
Proof.
  intros Hrows Hne.
  destruct (analysed_records now items rows Hrows Hne)
    as (result & cols & Hrun & Hcols & Hfd).
  pose proof (analyze_records now items rows Hrows Hne) as Hrun'.
  rewrite Hrun in Hrun'. injection Hrun' as Hres.
  destruct (anomaly_report_undetected
              (with_day (classified (oriented_frame now (from_records rows)))))
    as (entries & Hentries & Hundetected).
  match type of Hfd with
  | _ = Some (VList (map ?g rows)) => set (rec_of := g) in *
  end.
  exists result, (map rec_of rows), (VDict entries).
  split; [exact Hrun |]. split; [exact Hfd |].
  split.
  { rewrite Hres. unfold analysis_of.
    cbn [field assoc String.eqb Ascii.eqb Bool.eqb]. now rewrite Hentries. }
  split.
  { generalize rows. intros l.
    induction l as [|r l IH]; cbn [map]; constructor; [| exact IH].
    repeat split. }
  intros feedback Hcopies.
  assert (Hdicts : Forall (fun item => is_dict item = true) feedback).
  { clear - Hcopies. induction Hcopies as [|x y l l' (Hd & _) _ IH]; constructor; auto. }
  unfold Dashboard.generate_alerts. cbn [Dashboard.dict_items rbind].
  rewrite (anomaly_alerts_none clock entries Hundetected). cbn [rbind iterate].
  rewrite (select_urgent_negative feedback Hdicts). cbn [rbind app].
  rewrite (length_filter_Forall2 (negative_bug rows) _ rows feedback);
    [reflexivity |].
  apply (proj1 (Forall2_map_l _ rec_of rows feedback)) in Hcopies.
  refine (Forall2_weaken _ _ _ _ _ Hcopies).
  intros row copy (_ & Hu & Hs). rewrite Hu, Hs. unfold rec_of.
  rewrite !field_record by (rewrite Hcols; reflexivity).
  set (o := orient_row now _ _ row).
  destruct (cell_orient_row now (columns (from_records rows))
              (to_datetime_raises (map (raw_timestamp now rows) rows)) row)
    as (Htext & _ & _ & _). fold o in Htext.
  rewrite some_item_has_columns in Htext. fold (item_text rows row) in Htext.
  destruct (cell_classify_row o) as (Hsent & Hcat & Hurg & _).
  destruct (cell_publish_row (classify_row o)) as (_ & _ & Hp).
  rewrite !Hp by discriminate. rewrite Hurg, Hsent, Htext. cbn [py_str].
  apply high_and_negative.
Qed.

End Alerts.

(** The comprehension raises on an item that is no dictionary. *)
Lemma select_raises_on_a_bad_item (items : list Value) :
  Exists (fun item => is_dict item = false) items ->
  exists e, Dashboard.select Dashboard.is_urgent_negative items = Raise e.
Proof.
  induction 1 as [item items Hbad | item items _ (e & IH)];
    cbn [Dashboard.select].
  - destruct item; try discriminate; eexists; reflexivity.
  - rewrite IH. destruct (Dashboard.is_urgent_negative item) as [keep | e'];
      eexists; reflexivity.
Qed.

(** X20. [generate_alerts] is all or nothing: when an item of the feedback
    is not a dictionary, or the anomalies are not a mapping, it returns no
    alert at all, also not the alerts of anomalies it had already built. *)
Theorem generate_alerts_is_all_or_nothing
    (clock : Timestamp) (items : list Value) (anomalies : Value) :
  Exists (fun item => is_dict item = false) items \/ is_dict anomalies = false ->
  Dashboard.generate_alerts clock (VList items) anomalies = VList [].
Proof.
  intros H. unfold Dashboard.generate_alerts.
  destruct (Dashboard.dict_items anomalies) as [entries | e] eqn:Hentries;
    [| reflexivity].
  destruct H as [H | H]; [| destruct anomalies; discriminate].
  cbn [rbind].
  destruct (Dashboard.anomaly_alerts clock entries) as [alerts | e]; [| reflexivity].
  cbn [rbind iterate].
  destruct (select_raises_on_a_bad_item items H) as (e & ->). reflexivity.
Qed.

(* ===================================================================== *)
(** ** Instances for the callers, the records and the dashboard *)
(* ===================================================================== *)

Section MoreInstances.
#[local] Existing Instance plain_externals.


Lemma analyze_data_raises_unless_success_witness :
  truthy (VInt 7) = true /\ observe (VInt 7) = Raise AttributeError /\
  analyze_data (noon 9) (VInt 7) = Raise AttributeError.
Proof.
  split; [reflexivity |]. split; [reflexivity |].
  destruct (proj2 (analyze_data_raises_unless_success (noon 9) (VInt 7))
              (or_intror (ex_intro _ AttributeError eq_refl)))
    as (envelope & _ & _ & H).
  exact H.
Defined.



Lemma feedback_data_timestamps_fall_back_to_clock_witness :
  as_records [VDict [("text", VStr "no date")]] = Some [[("text", VStr "no date")]] /\
  [VDict [("text", VStr "no date")]] <> [] /\
  exists result recs,
    analyze (noon 9) (VList [VDict [("text", VStr "no date")]]) = Ok result /\
    field "feedback_data" result = Some (VList recs) /\
    Forall2 (fun row rec =>
      field "timestamp" rec = Some (VStr "2024-03-09T12:00:00") /\
      field "day" rec = Some (VStr "2024-03-09"))
      [[("text", VStr "no date")]] recs.
Proof.
  split; [reflexivity |]. split; [discriminate |].
  destruct (feedback_data_timestamps_fall_back_to_clock (noon 9)
              [VDict [("text", VStr "no date")]] [[("text", VStr "no date")]]
              eq_refl)
    as (result & recs & Hrun & Hfd & Hrecs); [discriminate |].
  exists result, recs. split; [exact Hrun |]. split; [exact Hfd |].
  revert Hrecs. apply Forall2_weaken. intros row rec H. exact H.
Defined.


Lemma summaries_tally_the_items_witness :
  as_records small_items = Some small_rows /\ small_items <> [] /\
  exists result by_sentiment by_category,
    analyze (noon 9) (VList small_items) = Ok result /\
    field "sentiment_summary" result = Some (counts_dict by_sentiment) /\
    field "top_issues" result = Some (counts_dict by_category) /\
    series_sum (map snd by_sentiment) = 4 /\
    series_sum (map snd by_category) = 4.
Proof.
  split; [reflexivity |]. split; [discriminate |].
  destruct (summaries_tally_the_items (noon 9) small_items small_rows eq_refl)
    as (result & s & c & Hrun & Hs & Hc & _ & _ & Hsum & Hsum' & _);
    [discriminate |].
  exists result, s, c. auto.
Defined.


Lemma trend_tables_split_the_daily_counts_witness :
  as_records small_items = Some small_rows /\ small_items <> [] /\
  exists result daily by_sentiment by_category,
    analyze (noon 9) (VList small_items) = Ok result /\
    field "time_trends" result
    = Some (VDict [("daily_count", VList daily);
                   ("sentiment_trend", VList by_sentiment);
                   ("category_trend", VList by_category)]) /\
    Forall2 splits_day daily by_sentiment /\
    Forall2 splits_day daily by_category /\
    days_of daily = [Some (VStr "2024-03-01"); Some (VStr "2024-03-02");
                     Some (VStr "2024-03-03")].
Proof.
  split; [reflexivity |]. split; [discriminate |].
  destruct (trend_tables_split_the_daily_counts (noon 9) small_items small_rows eq_refl)
    as (result & daily & s & c & days & Hrun & Ht & Hs & Hc & Hd & _);
    [discriminate |].
  exists result, daily, s, c. repeat (split; [assumption |]).
  pose proof (analyze_records (noon 9) small_items small_rows eq_refl
                ltac:(discriminate)) as Hrun'.
  rewrite Hrun in Hrun'. injection Hrun' as ->.
  vm_compute in Ht. injection Ht as Hdaily _ _. rewrite <- Hdaily. reflexivity.
Defined.

Lemma anomalies_need_six_days_witness :
  as_records small_items = Some small_rows /\ small_items <> [] /\
  (List.length
     (distinct (map (fun row => date_str (item_timestamp (noon 9) small_rows row))
                    small_rows)) <= 5)%nat /\
  exists result,
    analyze (noon 9) (VList small_items) = Ok result /\
    field "anomalies" result
    = Some (VDict [("volume_anomalies", VDict []);
                   ("negative_sentiment_anomalies", VDict [])]).
Proof.
  split; [reflexivity |]. split; [discriminate |].
  assert (Hdays : (List.length
            (distinct (map (fun row => date_str (item_timestamp (noon 9) small_rows row))
                           small_rows)) <= 5)%nat) by (vm_compute; lia).
  split; [exact Hdays |].
  destruct (anomalies_need_six_days (noon 9) small_items small_rows eq_refl
              ltac:(discriminate) Hdays) as (result & Hrun & Ha).
  exists result. split; [exact Hrun |]. rewrite Ha. reflexivity.
Defined.

Lemma a_sixth_day_above_five_level_days_is_flagged_witness :
  2 < 3 /\
  volume_spikes [("2024-03-01", 2); ("2024-03-02", 2); ("2024-03-03", 2);
                 ("2024-03-04", 2); ("2024-03-05", 2); ("2024-03-06", 3)]
  = [("2024-03-06", 3)].
Proof.
  split; [lia |].
  apply (a_sixth_day_above_five_level_days_is_flagged
           "2024-03-01" "2024-03-02" "2024-03-03" "2024-03-04" "2024-03-05"
           "2024-03-06" 2 3).
  lia.
Defined.

Lemma dislike_alone_is_not_negative_witness :
  nlp_available = false /\
  Text.contains "dislike" (Text.lower (py_str (VStr "I DISLIKE the menu"))) = true /\
  analyze_sentiment (VStr "I DISLIKE the menu") = "neutral".
Proof.
  split; [reflexivity |]. split; [reflexivity |].
  rewrite (dislike_alone_is_not_negative (E := plain_externals)
             (VStr "I DISLIKE the menu") (@eq_refl bool false) (@eq_refl bool true)
             (@eq_refl bool false)).
  reflexivity.
Defined.

Lemma determine_urgency_raises_on_a_missing_key_witness :
  forallb (fun k => Text.mem k (map fst [("text", VStr "it crashed")]))
          ["text"; "sentiment"; "category"] = false /\
  determine_urgency [("text", VStr "it crashed")] = Raise KeyError.
Proof.
  split; [reflexivity |].
  apply (proj1 (proj1 (determine_urgency_raises_on_a_missing_key
                         [("text", VStr "it crashed")]))).
  reflexivity.
Defined.

Lemma dashboard_buckets_partition_the_records_witness :
  Forall (fun item => is_dict item = true)
         [VDict [("category", VStr "bug")]; VDict [("text", VStr "hello")];
          VDict [("category", VStr "bug"); ("text", VStr "again")]] /\
  Dashboard.categorize_feedback
    (VList [VDict [("category", VStr "bug")]; VDict [("text", VStr "hello")];
            VDict [("category", VStr "bug"); ("text", VStr "again")]])
  = VDict [("bugs", VList [VDict [("category", VStr "bug")];
                           VDict [("category", VStr "bug"); ("text", VStr "again")]]);
           ("feature_requests", VList []); ("ux_issues", VList []);
           ("positive_feedback", VList []);
           ("other", VList [VDict [("text", VStr "hello")]])].
Proof.
  assert (H : Forall (fun item => is_dict item = true)
                [VDict [("category", VStr "bug")]; VDict [("text", VStr "hello")];
                 VDict [("category", VStr "bug"); ("text", VStr "again")]])
    by (repeat constructor).
  split; [exact H |].
  rewrite (proj1 (dashboard_buckets_partition_the_records _ H)). reflexivity.
Defined.

Lemma dashboard_alerts_of_an_analysis_witness :
  as_records (repeat (item_on 1 "a terrible bug") 3)
  = Some (repeat (row_on 1 "a terrible bug") 3) /\
  repeat (item_on 1 "a terrible bug") 3 <> [] /\
  exists result recs anomalies,
    analyze (noon 9) (VList (repeat (item_on 1 "a terrible bug") 3)) = Ok result /\
    field "feedback_data" result = Some (VList recs) /\
    field "anomalies" result = Some anomalies /\
    Dashboard.generate_alerts (noon 10) (VList recs) anomalies
    = VList [Dashboard.urgent_alert (noon 10) 3].
Proof.
  split; [reflexivity |]. split; [discriminate |].
  destruct (dashboard_alerts_of_an_analysis (noon 9) (noon 10)
              (repeat (item_on 1 "a terrible bug") 3)
              (repeat (row_on 1 "a terrible bug") 3) eq_refl)
    as (result & recs & anomalies & Hrun & Hfd & Ha & Hsame & Halerts);
    [discriminate |].
  exists result, recs, anomalies. repeat (split; [assumption |]).
  rewrite (Halerts recs Hsame). reflexivity.
Defined.

Lemma generate_alerts_is_all_or_nothing_witness :
  Exists (fun item => is_dict item = false) [VStr "not a record"] /\
  Dashboard.generate_alerts (noon 10) (VList [VStr "not a record"])
    (VDict [("volume_spike", VDict [("detected", VBool true)])])
  = VList [].
Proof.
  assert (H : Exists (fun item => is_dict item = false) [VStr "not a record"])
    by (constructor; reflexivity).
  split; [exact H |].
  apply generate_alerts_is_all_or_nothing. now left.
Defined.

End MoreInstances.

(* ===================================================================== *)
(** ** The collectors: what is removed and what is kept *)
(* ===================================================================== *)

Lemma filter_filter {A : Type} (f g : A -> bool) (l : list A) :
  filter f (filter g l) = filter (fun x => g x && f x) l.
Proof.
  induction l as [|x l IH]; [reflexivity |]. cbn [filter].
  destruct (g x); cbn [andb filter]; [destruct (f x) |]; now rewrite IH.
Qed.

(** Popping the keys one after the other leaves the entries under the other
    keys. *)
Lemma pop_all (ks : list string) (d : list (string * Value)) :
  fold_left (fun d k => pop k d) ks d
  = filter (fun kv => negb (Text.mem (fst kv) ks)) d.
Proof.
  revert d. induction ks as [|k ks IH]; intros d; cbn [fold_left].
  - cbn. induction d as [|kv d IHd]; [reflexivity |]. cbn [filter]. now rewrite <- IHd.
  - rewrite IH. unfold pop. rewrite filter_filter. apply filter_ext.
    intros kv. unfold Text.mem. cbn [existsb]. rewrite negb_orb.
    now rewrite (String.eqb_sym k (fst kv)).
Qed.

Lemma assoc_without (ks : list string) (d : list (string * Value)) (k : string) :
  assoc k (filter (fun kv => negb (Text.mem (fst kv) ks)) d)
  = if Text.mem k ks then None else assoc k d.
Proof.
  induction d as [|[k' v] d IH]; cbn [filter assoc fst].
  - now destruct (Text.mem k ks).
  - destruct (Text.mem k' ks) eqn:Hk'; cbn [negb assoc].
    + rewrite IH. destruct (String.eqb_spec k k') as [-> | Hne]; [| reflexivity].
      now rewrite Hk'.
    + destruct (String.eqb_spec k k') as [-> | Hne]; [now rewrite Hk' | exact IH].
Qed.

Lemma keys_without (ks : list string) (d : list (string * Value)) :
  map fst (filter (fun kv => negb (Text.mem (fst kv) ks)) d)
  = filter (fun k => negb (Text.mem k ks)) (map fst d).
Proof.
  induction d as [|[k v] d IH]; [reflexivity |]. cbn [filter map fst].
  destruct (negb (Text.mem k ks)); cbn [map fst]; now rewrite IH.
Qed.

Lemma assoc_set_field_same (c : string) (v : Value) (r : Row) :
  assoc c (set_field c v r) = Some v.
Proof.
  induction r as [|[k w] r IH]; cbn [set_field assoc].
  - now rewrite String.eqb_refl.
  - destruct (String.eqb c k) eqn:Hck; cbn [assoc]; rewrite Hck; [reflexivity | exact IH].
Qed.

Lemma assoc_set_field_other (c c' : string) (v : Value) (r : Row) :
  c' <> c -> assoc c' (set_field c v r) = assoc c' r.
Proof.
  intros Hne. induction r as [|[k w] r IH]; cbn [set_field assoc].
  - now rewrite (proj2 (String.eqb_neq c' c) Hne).
  - destruct (String.eqb_spec c k) as [-> | Hck]; cbn [assoc].
    + now rewrite (proj2 (String.eqb_neq c' k) Hne).
    + now rewrite IH.
Qed.

Lemma keys_set_field_present (c : string) (v : Value) (r : Row) :
  Text.mem c (map fst r) = true -> map fst (set_field c v r) = map fst r.
Proof.
  induction r as [|[k w] r IH]; cbn [set_field map fst Text.mem existsb];
    [discriminate |].
  destruct (String.eqb c k); cbn [orb map fst]; [reflexivity |].
  intros H. f_equal. now apply IH.
Qed.

Lemma mem_false_iff (x : string) (l : list string) :
  Text.mem x l = false <-> ~ In x l.
Proof.
  rewrite <- mem_iff. destruct (Text.mem x l); split; congruence.
Qed.

(** A dictionary is stripped by the social media collector. *)
Lemma sanitize_item_stripped (d : list (string * Value)) :
  stripped social_sensitive SocialMedia.convert_media_to_text
           (VDict d) (VDict (SocialMedia.sanitize_item d)).
Proof.
  exists d, (SocialMedia.sanitize_item d).
  split; [reflexivity |]. split; [reflexivity |].
  unfold SocialMedia.sanitize_item. cbv zeta.
  change (pop "media_url" (pop "location" (pop "phone_number" (pop "email"
            (pop "user_id" (pop "user_name" d))))))
    with (fold_left (fun d k => pop k d) social_sensitive d).
  rewrite pop_all.
  set (kept := filter (fun kv => negb (Text.mem (fst kv) social_sensitive)) d).
  assert (Hkeys : map fst kept
                  = filter (fun k => negb (Text.mem k social_sensitive)) (map fst d))
    by apply keys_without.
  assert (Hassoc : forall k, assoc k kept
                             = if Text.mem k social_sensitive then None else assoc k d)
    by (intros k; apply assoc_without).
  destruct (Text.mem "media" (map fst kept)) eqn:Hmedia.
  - split; [| split; [| split]].
    + intros k Hk. rewrite assoc_set_field_other.
      * rewrite Hassoc. now rewrite (proj2 (mem_iff k social_sensitive) Hk).
      * intros ->. revert Hk. cbn. intuition discriminate.
    + now rewrite keys_set_field_present.
    + intros k Hk Hne. rewrite assoc_set_field_other by exact Hne.
      rewrite Hassoc. now rewrite (proj2 (mem_false_iff k social_sensitive) Hk).
    + intros _. rewrite assoc_set_field_same. unfold cell.
      assert (Hm : assoc "media" kept = assoc "media" d) by apply Hassoc.
      rewrite Hm. destruct (assoc "media" d) as [m |]; [reflexivity |].
      apply assoc_none_iff in Hm. congruence.
  - split; [| split; [| split]].
    + intros k Hk. rewrite Hassoc.
      now rewrite (proj2 (mem_iff k social_sensitive) Hk).
    + exact Hkeys.
    + intros k Hk _. rewrite Hassoc.
      now rewrite (proj2 (mem_false_iff k social_sensitive) Hk).
    + intros _.
      assert (Hm : assoc "media" kept = assoc "media" d) by apply Hassoc.
      apply assoc_none_iff in Hmedia. rewrite <- Hm, Hmedia. reflexivity.
Qed.

(** A dictionary is stripped by the review collector. *)
Lemma anonymize_item_stripped (d : list (string * Value)) :
  stripped review_sensitive (fun v => v) (VDict d) (VDict (ReviewSite.anonymize_item d)).
Proof.
  exists d, (ReviewSite.anonymize_item d).
  split; [reflexivity |]. split; [reflexivity |].
  unfold ReviewSite.anonymize_item. cbv zeta.
  change (pop "email" (pop "reviewer_name" d))
    with (fold_left (fun d k => pop k d) review_sensitive d).
  rewrite pop_all.
  split; [| split; [| split]].
  - intros k Hk. rewrite assoc_without.
    now rewrite (proj2 (mem_iff k review_sensitive) Hk).
  - apply keys_without.
  - intros k Hk _. rewrite assoc_without.
    now rewrite (proj2 (mem_false_iff k review_sensitive) Hk).
  - intros _. rewrite assoc_without.
    cbn [Text.mem existsb String.eqb Ascii.eqb Bool.eqb orb].
    now destruct (assoc "media" d).
Qed.

(** The loop keeps the dictionaries, cleaned, in their order. *)
Lemma clean_items_stripped (dropped : list string) (rewrite : Value -> Value)
    (clean : list (string * Value) -> list (string * Value)) (items : list Value) :
  (forall d, stripped dropped rewrite (VDict d) (VDict (clean d))) ->
  Forall2 (stripped dropped rewrite) (filter is_dict items) (clean_items clean items).
Proof.
  intros Hclean. induction items as [|item items IH]; [constructor |].
  destruct item; cbn [filter is_dict clean_items]; try exact IH.
  constructor; [apply Hclean | exact IH].
Qed.

Section Collectors.
Context {E : Externals}.

(** X21. The social media collector strips what identifies a user. On an
    input with a list under [social_data], its [run] succeeds and returns,
    with the platform and the format of the collector, the dictionaries of
    that list in their order (anything else is skipped), each without the
    keys [user_name], [user_id], [email], [phone_number], [location] and
    [media_url]; the other entries are kept as they are, except that a
    [media] entry that is no string is replaced by a fixed text. *)
Theorem social_collector_strips_sensitive_entries
    (self : SocialMedia.Collector) (d : list (string * Value)) (items : list Value) :
  assoc "social_data" d = Some (VList items) ->
  exists cleaned,
    social_run self (VDict d)
    = Ok (VDict [("status", VStr "success");
                 ("data", VDict [("social_data", VList cleaned);
                                 ("platform", SocialMedia.platform self);
                                 ("format", SocialMedia.format self)])]) /\
    Forall2 (stripped social_sensitive SocialMedia.convert_media_to_text)
            (filter is_dict items) cleaned /\
    Forall (fun clean => forall v, field "media" clean = Some v -> is_str v = true)
           cleaned.
Proof.
  intros Hd. exists (clean_items SocialMedia.sanitize_item items).
  assert (Hstripped :
    Forall2 (stripped social_sensitive SocialMedia.convert_media_to_text)
            (filter is_dict items) (clean_items SocialMedia.sanitize_item items))
    by (apply clean_items_stripped; exact sanitize_item_stripped).
  split; [| split; [exact Hstripped |]].
  - unfold social_run, ooda_run.
    assert (Ht : truthy (VDict d) = true) by (destruct d; [discriminate | reflexivity]).
    rewrite Ht. cbn [negb]. unfold SocialMedia.observe. cbn [dict_get]. rewrite Hd.
    cbn [rbind]. destruct items as [|item items]; [reflexivity |].
    cbn [truthy negb SocialMedia.sanitize_data iterate rbind].
    reflexivity.
  - clear Hd. induction Hstripped as [|item clean l l' Hs _ IH]; constructor; [| exact IH].
    intros v Hv. destruct Hs as (e & e' & -> & -> & _ & _ & _ & Hmedia).
    cbn [field] in Hv. rewrite Hmedia in Hv by (cbn; intuition discriminate).
    destruct (assoc "media" e) as [m |]; [| discriminate].
    cbn [option_map] in Hv. injection Hv as <-. now destruct m.
Qed.

(** X22. The review collector removes the reviewer. On an input with a list
    under [review_data], its observe and orient phases return the
    dictionaries of that list in their order (anything else is skipped),
    each without the keys [reviewer_name] and [email] and with every other
    entry as it was. *)
Theorem review_collector_removes_the_reviewer
    (d : list (string * Value)) (items : list Value) :
  assoc "review_data" d = Some (VList items) ->
  exists cleaned,
    rbind (ReviewSite.observe (VDict d)) ReviewSite.orient = Ok (VList cleaned) /\
    Forall2 (stripped review_sensitive (fun v => v)) (filter is_dict items) cleaned.
Proof.
  intros Hd. exists (clean_items ReviewSite.anonymize_item items).
  split.
  - unfold ReviewSite.observe. cbn [dict_get]. rewrite Hd. cbn [rbind].
    destruct items as [|item items]; [reflexivity |].
    cbn [truthy negb ReviewSite.anonymize_data iterate rbind].
    unfold ReviewSite.orient.
    now destruct (clean_items ReviewSite.anonymize_item (item :: items)).
  - apply clean_items_stripped. exact anonymize_item_stripped.
Qed.

End Collectors.

Section CollectorInstances.
#[local] Existing Instance plain_externals.

Lemma social_collector_strips_sensitive_entries_witness :
  assoc "social_data"
        [("social_data",
          VList [VDict [("user_name", VStr "ann"); ("text", VStr "slow app");
                        ("media", VInt 7)];
                 VStr "noise"])]
  = Some (VList [VDict [("user_name", VStr "ann"); ("text", VStr "slow app");
                        ("media", VInt 7)];
                 VStr "noise"]) /\
  social_run (SocialMedia.init (VStr "") (VStr "text"))
    (VDict [("social_data",
             VList [VDict [("user_name", VStr "ann"); ("text", VStr "slow app");
                           ("media", VInt 7)];
                    VStr "noise"])])
  = Ok (VDict [("status", VStr "success");
               ("data",
                VDict [("social_data",
                        VList [VDict [("text", VStr "slow app");
                                      ("media",
                                       VStr "Media content not available in text format")]]);
                       ("platform", VStr "Default");
                       ("format", VStr "text")])]).
Proof.
  split; [reflexivity |].
  destruct (social_collector_strips_sensitive_entries
              (SocialMedia.init (VStr "") (VStr "text"))
              [("social_data",
                VList [VDict [("user_name", VStr "ann"); ("text", VStr "slow app");
                              ("media", VInt 7)];
                       VStr "noise"])]
              [VDict [("user_name", VStr "ann"); ("text", VStr "slow app");
                      ("media", VInt 7)];
               VStr "noise"] eq_refl) as (cleaned & Hrun & _).
  rewrite Hrun. vm_compute in Hrun. injection Hrun as <-. reflexivity.
Defined.

Lemma review_collector_removes_the_reviewer_witness :
  assoc "review_data"
        [("review_data",
          VList [VDict [("reviewer_name", VStr "bob"); ("rating", VInt 4)]])]
  = Some (VList [VDict [("reviewer_name", VStr "bob"); ("rating", VInt 4)]]) /\
  rbind (ReviewSite.observe
           (VDict [("review_data",
                    VList [VDict [("reviewer_name", VStr "bob"); ("rating", VInt 4)]])]))
        ReviewSite.orient
  = Ok (VList [VDict [("rating", VInt 4)]]).
Proof.
  split; [reflexivity |].
  destruct (review_collector_removes_the_reviewer
              [("review_data",
                VList [VDict [("reviewer_name", VStr "bob"); ("rating", VInt 4)]])]
              [VDict [("reviewer_name", VStr "bob"); ("rating", VInt 4)]] eq_refl)
    as (cleaned & Hrun & _).
  rewrite Hrun. vm_compute in Hrun. injection Hrun as <-. reflexivity.
Defined.

End CollectorInstances.

(* ===================================================================== *)
(** ** The serialisation passes of decide *)
(* ===================================================================== *)

Section Serialisers.
Context {E : Externals}.

(** X23. The two serialisation passes of [decide] change nothing: whatever
    [detect_trends] returns on a frame, [make_time_trends_serializable]
    returns it as it is, and whatever [detect_anomalies] returns,
    [make_anomalies_serializable] returns it as it is; neither raises
    there. *)
Theorem serialisers_leave_the_detector_results_unchanged
    (now : Timestamp) (df : DataFrame) :
  (forall v df', detect_trends now df = (Ok v, df') ->
                 make_time_trends_serializable v = Ok v) /\
  (forall v df', detect_anomalies now df = (Ok v, df') ->
                 make_anomalies_serializable v = Ok v).
Proof.
  split; intros v df' H.
  - assert (Hout : trends_outcome v).
    { apply (detect_trends_outcome now df df'). now apply try_except_ok. }
    destruct Hout as [-> | (days & ls & cs & ->)]; [reflexivity |].
    apply make_time_trends_tables.
  - assert (Hout : anomalies_outcome v).
    { apply (detect_anomalies_outcome now df df'). now apply try_except_ok. }
    destruct Hout as [-> | (spikes & nd & ->)]; [reflexivity |].
    apply make_anomalies_maps.
Qed.

End Serialisers.

Section SerialiserInstances.
#[local] Existing Instance plain_externals.

Lemma serialisers_leave_the_detector_results_unchanged_witness :
  detect_anomalies (noon 9) three_day_frame
  = (Ok (VDict [("volume_anomalies", VDict []);
                ("negative_sentiment_anomalies", VDict [])]), three_day_frame) /\
  make_anomalies_serializable
    (VDict [("volume_anomalies", VDict []); ("negative_sentiment_anomalies", VDict [])])
  = Ok (VDict [("volume_anomalies", VDict []); ("negative_sentiment_anomalies", VDict [])]).
Proof.
  assert (H : detect_anomalies (noon 9) three_day_frame
              = (Ok (VDict [("volume_anomalies", VDict []);
                            ("negative_sentiment_anomalies", VDict [])]),
                 three_day_frame)) by (vm_compute; reflexivity).
  split; [exact H |].
  exact (proj2 (serialisers_leave_the_detector_results_unchanged (noon 9) three_day_frame)
           _ _ H).
Defined.

End SerialiserInstances.
